(** * BlinkSwitch: the rule application engine

    A shallow embedding of the backend of BlinkSwitch (src/backend): monitor
    fingerprints (monitor_fingerprint.py), the configuration and monitor
    managers (config_manager.py, monitor_manager.py), the layout matcher
    (layout_matcher.py), the layout manager with its single active-layout
    slot (layout_manager.py), and the window manager's rule engine and
    per-window state machine (window_manager.py).

    Conventions of the embedding.
    - A Python [str] is the [string] of the bytes of its UTF-8 encoding, so
      that equality, concatenation, prefixes, suffixes and the search for a
      slice are those of Python. [strip] takes off every whitespace
      character of [str.isspace], those beyond ASCII too. [lower] lowers
      the ASCII letters and leaves every other byte: the case mapping of
      the letters beyond ASCII, which [str.lower] takes from the Unicode
      tables of the interpreter, is not embedded, and a theorem that
      depends on the case of a letter is stated for ASCII strings. A digit
      is an ASCII digit.
    - A Python [int] is a [Z]; [&] is [Z.land] (two's complement, unbounded).
    - A dict read from a JSON document is a record with the fields of the
      data model; a key that the program tests for presence, or reads with
      [.get], is an [option] field, [None] standing for an absent key
      (a document that spells a key out with the value [null] is not told
      apart from one that leaves the key out), and the value of a key has
      the type that the data model gives it (the [match_value] of a rule
      is a string).
    - A dict used as a map with computed keys is a [gmap] when only lookups
      matter, and an insertion-ordered association list when the program
      iterates over it.
    - The operating system, the file system, the clock and the random source
      are a type class [Host] over an abstract world; a call that can raise
      returns a [res].
    - A method of a manager is a function in the monad [M]: it reads and
      writes the world and the managers' fields, and ends with a value or
      with a raised exception; the fields written before an exception was
      raised stay written, as in Python.
    - Log lines, and the reads made only to write them, are left out; so
      is the writing of the configuration to disk. *)

From Stdlib Require Import ZArith Lia Bool List Ascii String DecimalString.
From Stdlib Require DecimalPos.
From stdpp Require Import base option list gmap strings fin_maps.

Local Open Scope string_scope.
Local Open Scope Z_scope.

(** ** Python strings *)

Module PyStr.

(** [str.isspace], on the UTF-8 encoding. The whitespace characters of one
    byte: TAB, LF, VT, FF, CR, the four separators FS, GS, RS, US, and the
    space. *)
Definition is_space (c : ascii) : bool :=
  let n := N_of_ascii c in
  (((9 <=? n) && (n <=? 13)) || ((28 <=? n) && (n <=? 32)))%N.

(** Those of two bytes: U+0085 (C2 85) and U+00A0 (C2 A0). *)
Definition is_space2 (c1 c2 : ascii) : bool :=
  let a := N_of_ascii c1 in
  let b := N_of_ascii c2 in
  ((a =? 194) && ((b =? 133) || (b =? 160)))%N.

(** Those of three bytes: U+1680 (E1 9A 80), U+2000 to U+200A (E2 80 80 to
    E2 80 8A), U+2028 and U+2029 (E2 80 A8, E2 80 A9), U+202F (E2 80 AF),
    U+205F (E2 81 9F) and U+3000 (E3 80 80). *)
Definition is_space3 (c1 c2 c3 : ascii) : bool :=
  let a := N_of_ascii c1 in
  let b := N_of_ascii c2 in
  let c := N_of_ascii c3 in
  (((a =? 225) && (b =? 154) && (c =? 128))
   || ((a =? 226) && (b =? 128)
       && (((128 <=? c) && (c <=? 138)) || (c =? 168) || (c =? 169) || (c =? 175)))
   || ((a =? 226) && (b =? 129) && (c =? 159))
   || ((a =? 227) && (b =? 128) && (c =? 128)))%N.

(** What follows the whitespace character at the head of [s], if there is
    one. *)
Definition skip_space (s : string) : option string :=
  match s with
  | String c1 t1 =>
      if is_space c1 then Some t1
      else match t1 with
           | String c2 t2 =>
               if is_space2 c1 c2 then Some t2
               else match t2 with
                    | String c3 t3 => if is_space3 c1 c2 c3 then Some t3 else None
                    | EmptyString => None
                    end
           | EmptyString => None
           end
  | EmptyString => None
  end.

(** [s.lstrip()] *)
Fixpoint lstrip (s : string) : string :=
  match s with
  | EmptyString => EmptyString
  | String c1 t1 =>
      if is_space c1 then lstrip t1
      else match t1 with
           | String c2 t2 =>
               if is_space2 c1 c2 then lstrip t2
               else match t2 with
                    | String c3 t3 => if is_space3 c1 c2 c3 then lstrip t3 else s
                    | EmptyString => s
                    end
           | EmptyString => s
           end
  end.

(** [s] is empty or whitespace only. *)
Definition is_blank (s : string) : bool := String.eqb (lstrip s) EmptyString.

(** [s.rstrip()]: what is left of [s] before its longest suffix of
    whitespace. *)
Fixpoint rstrip (s : string) : string :=
  match s with
  | EmptyString => EmptyString
  | String c t => if is_blank s then EmptyString else String c (rstrip t)
  end.

(** [s.strip()] *)
Definition strip (s : string) : string := rstrip (lstrip s).

(** [s.isascii()] *)
Fixpoint is_ascii (s : string) : bool :=
  match s with
  | EmptyString => true
  | String c t => (N_of_ascii c <? 128)%N && is_ascii t
  end.

(** [str.lower] on an ASCII character; a byte of a character beyond ASCII
    is left as it is. *)
Definition lower_char (c : ascii) : ascii :=
  let n := N_of_ascii c in
  if ((65 <=? n) && (n <=? 90))%N then ascii_of_N (n + 32) else c.

(** [s.lower()], for the ASCII letters of [s]. *)
Fixpoint lower (s : string) : string :=
  match s with
  | EmptyString => EmptyString
  | String c t => String (lower_char c) (lower t)
  end.

(** [s.startswith(p)] *)
Fixpoint startswith (p s : string) : bool :=
  match p, s with
  | EmptyString, _ => true
  | String a p', String b s' => Ascii.eqb a b && startswith p' s'
  | String _ _, EmptyString => false
  end.

(** [s.endswith(p)] *)
Fixpoint endswith (p s : string) : bool :=
  match s with
  | EmptyString => String.eqb p EmptyString
  | String _ t => String.eqb p s || endswith p t
  end.

(** [needle in hay] *)
Fixpoint contains (needle hay : string) : bool :=
  startswith needle hay
  || match hay with
     | EmptyString => false
     | String _ t => contains needle t
     end.

(** Truth value of a string: empty is false. *)
Definition truthy (s : string) : bool := negb (String.eqb s EmptyString).

(** [x or ""] for an [x] that is a string or [None]. *)
Definition or_empty (x : option string) : string :=
  match x with
  | Some s => s
  | None => EmptyString
  end.

(** [x or y] for strings or [None]: the first truthy one, else the last. *)
Definition or_else (x y : option string) : option string :=
  match x with
  | Some s => if truthy s then x else y
  | None => y
  end.

(** [str(n)] and the [{n}] of an f-string, for an integer. *)
Definition of_Z (n : Z) : string := NilZero.string_of_int (Z.to_int n).

Definition is_digit (c : ascii) : bool :=
  let n := N_of_ascii c in ((48 <=? n) && (n <=? 57))%N.

Definition digit_val (c : ascii) : Z := Z.of_N (N_of_ascii c) - 48.

(** The longest prefix of digits, and its value read as [int(...)]. *)
Fixpoint take_digits (s : string) : list ascii :=
  match s with
  | EmptyString => []
  | String c t => if is_digit c then c :: take_digits t else []
  end.

Definition int_of_digits (ds : list ascii) : Z :=
  fold_left (fun acc c => 10 * acc + digit_val c) ds 0.

(** What follows [p] in [s], when [s] starts with [p]. *)
Fixpoint after_prefix (p s : string) : option string :=
  match p, s with
  | EmptyString, _ => Some s
  | String a p', String b s' => if Ascii.eqb a b then after_prefix p' s' else None
  | String _ _, EmptyString => None
  end.

(** [re.search(p + r"(\d+)", s)]: the leftmost place where [p] is followed
    by at least one digit; the result is group 1, the digits taken
    greedily. *)
Fixpoint search_digits_after (p s : string) : option (list ascii) :=
  let next :=
    match s with
    | EmptyString => None
    | String _ t => search_digits_after p t
    end in
  match after_prefix p s with
  | Some rest =>
      match take_digits rest with
      | [] => next
      | ds => Some ds
      end
  | None => next
  end.

End PyStr.

(** ** Exceptions, results and the monad of the managers *)

Inductive exn : Type :=
| KeyError (key : string)
| ValueError (msg : string)
| JSONDecodeError (msg : string)
| LayoutError (msg : string)
| OSError (msg : string).

(** [str(e)] *)
Definition str_of_exn (e : exn) : string :=
  match e with
  | KeyError k => "'" +:+ k +:+ "'"
  | ValueError m | JSONDecodeError m | LayoutError m | OSError m => m
  end.

Inductive res (A : Type) : Type :=
| Ret (a : A)
| Raise (e : exn).
Arguments Ret {A} a.
Arguments Raise {A} e.

(** ** Data model *)

(** The two components of a monitor fingerprint. *)
Record Fingerprints : Type := {
  primary : string;
  secondary : string;
}.

(** A monitor as [screeninfo.get_monitors] reports it. *)
Record ScreenInfo : Type := {
  si_name : option string;
  si_x : Z;
  si_y : Z;
  si_width : Z;
  si_height : Z;
  si_is_primary : bool;
}.

(** An entry of [config["known_monitors"]]. *)
Record KnownMonitor : Type := {
  km_id : string;
  km_name : string;
  km_width : Z;
  km_height : Z;
  km_x : Z;
  km_y : Z;
  km_is_primary : bool;
  km_fingerprints : option Fingerprints;
  km_first_detected : string;
}.

(** An entry of [screen_requirements["screens"]]. *)
Record ScreenReq : Type := {
  display_number : option Z;
  orientation : option string;
}.

Record ScreenRequirements : Type := {
  total_screens : option Z;
  screens : option (list ScreenReq);
}.

(** A rule as stored in a layout file. *)
Record LayoutRule : Type := {
  lr_rule_id : option string;
  lr_match_type : option string;
  lr_match_value : option string;
  lr_target_display : option Z;
  lr_fullscreen : option bool;
  lr_maximize : option bool;
}.

(** A layout file after [json.load]. *)
Record Layout : Type := {
  lay_name : option string;
  lay_screen_requirements : option ScreenRequirements;
  lay_rules : option (list LayoutRule);
}.

(** An entry of the list [get_screen_configuration] returns. *)
Record ScreenConfig : Type := {
  sc_display_number : Z;
  sc_orientation : string;
  sc_monitor_id : string;
  sc_width : Z;
  sc_height : Z;
  sc_name : string;
}.

(** [LayoutManager.active_layout] when it is not [None]. *)
Record ActiveLayout : Type := {
  al_name : string;
  al_file_name : string;
  al_data : Layout;
  al_display_map : gmap Z string;
  al_activated_at : string;
}.

(** A rule as [get_active_rules] resolves it. *)
Record Rule : Type := {
  rule_id : string;
  match_type : string;
  match_value : string;
  target_monitor_id : string;
  fullscreen : bool;
  maximize : bool;
}.

(** A window as [get_all_windows] describes it ([app_display_name], which
    no rule reads, is left out). *)
Record Window : Type := {
  hwnd : Z;
  title : string;
  app_name : option string;
  class_name : option string;
  pid : option Z;
  process_path : option string;
  exe_name : option string;
  is_system : bool;
  is_uwp : bool;
  is_minimized : bool;
  position : Z * Z * Z * Z;
  is_maximized : bool;
  is_fullscreen : bool;
  monitor_id : option string;
}.

(** The result of [apply_window_rule]. *)
Record RuleOutcome : Type := {
  changed : bool;
  operations : list string;
}.

(** An entry of [results["details"]]. *)
Record Detail : Type := {
  d_rule_id : string;
  d_result : string;
  d_message : string;
}.

(** The summary [apply_rules] returns. *)
Record Summary : Type := {
  applied : Z;
  skipped_no_monitor : Z;
  skipped_no_window : Z;
  failed : Z;
  details : list Detail;
}.

(** ** The host: operating system, files, clock and random source

    Each field stands for one call of a library the program imports
    (win32gui, win32process, psutil, pathlib, screeninfo, uuid, datetime,
    json over the layouts directory, ctypes' SendInput, time.sleep). A read
    leaves the world as it is; an action returns the next world. *)
Class Host (W : Type) : Type := {
  GetWindowText : W -> Z -> string;
  GetClassName : W -> Z -> res string;
  GetWindowLong : W -> Z -> Z -> res Z;
  (** [GetWindowPlacement(hwnd)[1]], the show command *)
  GetWindowPlacement_showCmd : W -> Z -> res Z;
  GetWindowRect : W -> Z -> res (Z * Z * Z * Z);
  GetForegroundWindow : W -> res Z;
  (** the handles [EnumWindows] passes to its callback *)
  EnumWindows : W -> res (list Z);
  IsWindow : W -> Z -> res bool;
  IsWindowVisible : W -> Z -> res bool;
  IsIconic : W -> Z -> res bool;
  (** the process id of [GetWindowThreadProcessId] *)
  GetWindowThreadProcessId : W -> Z -> res Z;
  (** [psutil.Process(pid).exe()], else [GetModuleFileNameEx]; [None] when
      both fail *)
  process_exe : W -> Z -> option string;
  (** [Path(p).name], else [os.path.basename(p)] *)
  path_name : string -> string;
  ShowWindow : Z -> Z -> W -> res unit * W;
  MoveWindow : Z -> Z -> Z -> Z -> Z -> W -> res unit * W;
  SetForegroundWindow : Z -> W -> res unit * W;
  (** [SendInput] of one keyboard event: virtual key and flags *)
  SendInput : Z -> Z -> W -> W;
  (** [time.sleep], in milliseconds *)
  sleep : Z -> W -> W;
  get_monitors : W -> res (list ScreenInfo);
  (** [uuid.uuid4().hex] *)
  uuid4_hex : W -> string * W;
  (** [datetime.now().isoformat()] *)
  now_isoformat : W -> string * W;
  (** [str(layouts_dir / file_name)] *)
  layout_path : W -> string -> string;
  (** the file of that name in the layouts directory: [None] when it does
      not exist, else what [open] and [json.load] give *)
  layout_file : W -> string -> option (res Layout);
}.

(** ** Monitor fingerprints (monitor_fingerprint.py) *)

(** The [monitor_data] dict that [detect_monitors] builds. *)
Record MonitorData : Type := {
  md_name : string;
  md_width : Z;
  md_height : Z;
  md_x : Z;
  md_y : Z;
  md_is_primary : bool;
}.

Definition _generate_resolution_fp (monitor_data : MonitorData) : res string :=
  let width := md_width monitor_data in
  let height := md_height monitor_data in
  if (width =? 0) || (height =? 0)
  then Raise (ValueError "Invalid monitor dimensions")
  else Ret (PyStr.of_Z width +:+ "x" +:+ PyStr.of_Z height).

Definition _generate_connector_resolution_fp (monitor_data : MonitorData) : res string :=
  let name := md_name monitor_data in
  let width := md_width monitor_data in
  let height := md_height monitor_data in
  match PyStr.search_digits_after "DISPLAY" name with
  | Some ds =>
      let connector := "DISPLAY" +:+ string_of_list_ascii ds in
      Ret (connector +:+ "_" +:+ PyStr.of_Z width +:+ "x" +:+ PyStr.of_Z height)
  | None => _generate_resolution_fp monitor_data
  end.

Definition generate_fingerprint (monitor_data : MonitorData) : res Fingerprints :=
  match _generate_connector_resolution_fp monitor_data with
  | Raise e => Raise e
  | Ret primary_fp =>
      match _generate_resolution_fp monitor_data with
      | Raise e => Raise e
      | Ret secondary_fp => Ret {| primary := primary_fp; secondary := secondary_fp |}
      end
  end.

Definition fingerprints_match (fp1 fp2 : Fingerprints) (strict : bool) : bool * string :=
  if String.eqb (primary fp1) (primary fp2)
  then (true, "connector_and_resolution_match")
  else if strict
  then (false, "primary_mismatch_strict")
  else if String.eqb (secondary fp1) (secondary fp2)
  then (true, "resolution_match")
  else (false, "no_match").

(** ** Window styles (win32con) and the fullscreen test

    The constants are those of win32con: [WS_CAPTION] is the two-bit mask
    [0x00C00000] and [WS_THICKFRAME] the bit [0x00040000], as the comments
    of window_manager.py give them; [WS_POPUP] is bit 31, which win32con
    writes as a negative number. *)

Definition GWL_STYLE : Z := -16.
Definition WS_POPUP : Z := -2147483648.
Definition WS_CAPTION : Z := 12582912.
Definition WS_THICKFRAME : Z := 262144.
Definition WS_MINIMIZEBOX : Z := 131072.
Definition WS_MAXIMIZEBOX : Z := 65536.
Definition SW_RESTORE : Z := 9.
Definition SW_MAXIMIZE : Z := 3.
Definition SW_SHOWMAXIMIZED : Z := 3.
Definition VK_F11 : Z := 122.
Definition KEYEVENTF_KEYUP : Z := 2.

(** [bool(n)] for an integer. *)
Definition bool_of_Z (n : Z) : bool := negb (n =? 0).

(** The body of [is_window_fullscreen] once the style word is read. *)
Definition fullscreen_of_style (style : Z) : bool :=
  let style := if style <? 0 then Z.land style 4294967295 else style in
  let has_popup := bool_of_Z (Z.land style WS_POPUP) in
  let has_caption := bool_of_Z (Z.land style WS_CAPTION) in
  let has_border := bool_of_Z (Z.land style WS_THICKFRAME) in
  let is_fullscreen := negb has_caption && negb has_border in
  is_fullscreen.

(** ** Layout matching (layout_matcher.py): the pure part *)

Definition extract_display_number (monitor_name : string) : option Z :=
  match PyStr.search_digits_after "DISPLAY" monitor_name with
  | Some ds => Some (PyStr.int_of_digits ds)
  | None => None
  end.

Definition get_orientation (width height : Z) : string :=
  if height <? width then "horizontal" else "vertical".

(** [d[key]] on a record field that may be absent. *)
Definition item {A : Type} (key : string) (field : option A) : res A :=
  match field with
  | Some a => Ret a
  | None => Raise (KeyError key)
  end.

(** [next((s for s in current_config if s["display_number"] == n), None)] *)
Fixpoint find_display (display_num : Z) (current_config : list ScreenConfig)
  : option ScreenConfig :=
  match current_config with
  | [] => None
  | s :: rest =>
      if sc_display_number s =? display_num then Some s
      else find_display display_num rest
  end.

(** The loop of [matches_requirements] over the required screens. *)
Fixpoint check_required_screens (current_config : list ScreenConfig)
  (required_screens : list ScreenReq) : res (bool * string) :=
  match required_screens with
  | [] => Ret (true, "All requirements met")
  | required_screen :: rest =>
      match item "display_number" (display_number required_screen) with
      | Raise e => Raise e
      | Ret display_num =>
          match item "orientation" (orientation required_screen) with
          | Raise e => Raise e
          | Ret required_orientation =>
              match find_display display_num current_config with
              | None =>
                  Ret (false, "DISPLAY" +:+ PyStr.of_Z display_num
                                +:+ " not found (required for layout)")
              | Some current_screen =>
                  if negb (String.eqb (sc_orientation current_screen) required_orientation)
                  then Ret (false, "DISPLAY" +:+ PyStr.of_Z display_num +:+ " is "
                                     +:+ sc_orientation current_screen
                                     +:+ ", but layout needs " +:+ required_orientation)
                  else check_required_screens current_config rest
              end
          end
      end
  end.

Definition len {A : Type} (l : list A) : Z := Z.of_nat (length l).

Definition matches_requirements (current_config : list ScreenConfig)
  (layout_requirements : ScreenRequirements) : res (bool * string) :=
  let count_mismatch :=
    match total_screens layout_requirements with
    | Some required_total =>
        if negb (len current_config =? required_total)
        then Some ("Need exactly " +:+ PyStr.of_Z required_total
                     +:+ " screen(s), but " +:+ PyStr.of_Z (len current_config)
                     +:+ " connected")
        else None
    | None => None
    end in
  match count_mismatch with
  | Some reason => Ret (false, reason)
  | None =>
      check_required_screens current_config (default [] (screens layout_requirements))
  end.

(** The dict comprehension of [build_display_map]: a later entry with the
    same display number replaces an earlier one. *)
Definition build_display_map (current_config : list ScreenConfig) : gmap Z string :=
  fold_left (fun m screen => <[sc_display_number screen := sc_monitor_id screen]> m)
            current_config ∅.

(** ** Layout validation (layout_manager.py, [validate_layout]) *)

(** The loop over [screen_req["screens"]]: the first complaint, if any. *)
Fixpoint validate_screens (i : Z) (screens : list ScreenReq) : option string :=
  match screens with
  | [] => None
  | screen :: rest =>
      match display_number screen, orientation screen with
      | None, _ => Some ("Screen " +:+ PyStr.of_Z i +:+ " missing: display_number")
      | Some _, None => Some ("Screen " +:+ PyStr.of_Z i +:+ " missing: orientation")
      | Some _, Some o =>
          if negb (String.eqb o "horizontal" || String.eqb o "vertical")
          then Some ("Screen " +:+ PyStr.of_Z i +:+ " has invalid orientation: " +:+ o
                       +:+ " (must be 'horizontal' or 'vertical')")
          else validate_screens (i + 1) rest
      end
  end.

(** [x in xs] for integers. *)
Definition Z_in (x : Z) (xs : list Z) : bool := existsb (Z.eqb x) xs.

(** The loop over [layout_data["rules"]]; [required_displays] is
    [[s["display_number"] for s in screens]], every screen having the key
    once [validate_screens] has passed. *)
Fixpoint validate_rules (i : Z) (required_displays : list Z) (rules : list LayoutRule)
  : option string :=
  match rules with
  | [] => None
  | rule :: rest =>
      match lr_match_type rule, lr_match_value rule, lr_target_display rule with
      | None, _, _ => Some ("Rule " +:+ PyStr.of_Z i +:+ " missing: match_type")
      | Some _, None, _ => Some ("Rule " +:+ PyStr.of_Z i +:+ " missing: match_value")
      | Some _, Some _, None => Some ("Rule " +:+ PyStr.of_Z i +:+ " missing: target_display")
      | Some _, Some _, Some target_display =>
          if negb (Z_in target_display required_displays)
          then Some ("Rule " +:+ PyStr.of_Z i +:+ " targets DISPLAY"
                       +:+ PyStr.of_Z target_display
                       +:+ " which is not in screen_requirements")
          else validate_rules (i + 1) required_displays rest
      end
  end.

Definition validate_layout (layout_data : Layout) : bool * string :=
  match lay_name layout_data, lay_screen_requirements layout_data, lay_rules layout_data with
  | None, _, _ => (false, "Missing required field: name")
  | Some _, None, _ => (false, "Missing required field: screen_requirements")
  | Some _, Some _, None => (false, "Missing required field: rules")
  | Some _, Some screen_req, Some rules =>
      match total_screens screen_req, screens screen_req with
      | None, _ => (false, "screen_requirements missing: total_screens")
      | Some _, None => (false, "screen_requirements missing: screens")
      | Some _, Some scrs =>
          match validate_screens 0 scrs with
          | Some complaint => (false, complaint)
          | None =>
              match validate_rules 0 (omap display_number scrs) rules with
              | Some complaint => (false, complaint)
              | None => (true, "Layout is valid")
              end
          end
      end
  end.

(** ** The rule matching predicate (layout_manager.py, window_manager.py) *)

Definition normalize_exe_name (exe_name : string) : string :=
  let s := PyStr.lower (PyStr.strip exe_name) in
  if PyStr.endswith ".exe" s then s
  else if PyStr.truthy s then s +:+ ".exe" else s.

(** The test that [find_matching_rule_for_window] and the window loop of
    [apply_rules] make for one window and one rule, on the rule's
    [match_type] and [match_value]. *)
(** The executable name of a window,
    [window.get("exe_name") or window.get("app_name") or ""]. *)
Definition effective_exe_name (window : Window) : string :=
  PyStr.or_empty (PyStr.or_else (exe_name window) (PyStr.or_else (app_name window) (Some ""))).

Definition rule_matches (window : Window) (match_type : option string)
  (match_value : option string) : bool :=
  let mv := PyStr.strip (PyStr.or_empty match_value) in
  let mv_lower := PyStr.lower mv in
  match match_type with
  | None => false
  | Some match_type =>
      if String.eqb match_type "exe" then
        let exe_name := PyStr.strip (effective_exe_name window) in
        String.eqb (normalize_exe_name exe_name) (normalize_exe_name mv_lower)
      else if String.eqb match_type "window_title" then
        let title := PyStr.lower (title window) in
        PyStr.truthy mv_lower && PyStr.contains mv_lower title
      else if String.eqb match_type "process_path" then
        let process_path := PyStr.lower (PyStr.or_empty (process_path window)) in
        PyStr.truthy mv_lower && String.eqb mv_lower process_path
      else false
  end.

Fixpoint find_matching_rule_for_window (window_data : Window) (rules : list LayoutRule)
  : option LayoutRule :=
  match rules with
  | [] => None
  | rule :: rest =>
      if rule_matches window_data (lr_match_type rule) (lr_match_value rule)
      then Some rule
      else find_matching_rule_for_window window_data rest
  end.

(** ** Insertion-ordered dicts with string keys *)

Fixpoint dict_get {A : Type} (k : string) (d : list (string * A)) : option A :=
  match d with
  | [] => None
  | (k', v) :: rest => if String.eqb k' k then Some v else dict_get k rest
  end.

Definition dict_has {A : Type} (k : string) (d : list (string * A)) : bool :=
  match dict_get k d with
  | Some _ => true
  | None => false
  end.

(** [d[k] = v]: an existing key keeps its place, a new one goes last. *)
Fixpoint dict_set {A : Type} (k : string) (v : A) (d : list (string * A))
  : list (string * A) :=
  match d with
  | [] => [(k, v)]
  | (k', v') :: rest =>
      if String.eqb k' k then (k, v) :: rest else (k', v') :: dict_set k v rest
  end.

(** [del d[k]] *)
Fixpoint dict_del {A : Type} (k : string) (d : list (string * A)) : list (string * A) :=
  match d with
  | [] => []
  | (k', v') :: rest => if String.eqb k' k then rest else (k', v') :: dict_del k rest
  end.

Definition dict_keys {A : Type} (d : list (string * A)) : list string := map fst d.

(** [x in xs] for strings. *)
Definition str_in (x : string) (xs : list string) : bool := existsb (String.eqb x) xs.

(** ** The managers *)

Section Engine.

Context {W : Type} {host : Host W}.

(** The fields of the managers that the service shares among them. *)
Record State : Type := {
  world : W;
  (** [ConfigManager.config["known_monitors"]] *)
  known_monitors : list KnownMonitor;
  (** [MonitorManager.connected_monitors] *)
  connected_monitors : list (string * ScreenInfo);
  (** [LayoutManager.active_layout] *)
  active_layout : option ActiveLayout;
  (** whether [WindowManager.layout_manager] is set *)
  layout_manager : bool;
}.

Definition set_world (w : W) (s : State) : State :=
  {| world := w; known_monitors := known_monitors s;
     connected_monitors := connected_monitors s;
     active_layout := active_layout s; layout_manager := layout_manager s |}.

Definition set_known_monitors (k : list KnownMonitor) (s : State) : State :=
  {| world := world s; known_monitors := k;
     connected_monitors := connected_monitors s;
     active_layout := active_layout s; layout_manager := layout_manager s |}.

Definition set_connected_monitors (c : list (string * ScreenInfo)) (s : State) : State :=
  {| world := world s; known_monitors := known_monitors s;
     connected_monitors := c;
     active_layout := active_layout s; layout_manager := layout_manager s |}.

Definition set_active_layout (a : option ActiveLayout) (s : State) : State :=
  {| world := world s; known_monitors := known_monitors s;
     connected_monitors := connected_monitors s;
     active_layout := a; layout_manager := layout_manager s |}.

Definition M (A : Type) : Type := State -> res A * State.

Definition ret {A : Type} (a : A) : M A := fun s => (Ret a, s).

Definition raise {A : Type} (e : exn) : M A := fun s => (Raise e, s).

Definition bind {A B : Type} (m : M A) (k : A -> M B) : M B :=
  fun s =>
    match m s with
    | (Ret a, s') => k a s'
    | (Raise e, s') => (Raise e, s')
    end.

(** [try: m  except Exception as e: h e] *)
Definition try_except {A : Type} (m : M A) (h : exn -> M A) : M A :=
  fun s =>
    match m s with
    | (Ret a, s') => (Ret a, s')
    | (Raise e, s') => h e s'
    end.

Definition gets {A : Type} (f : State -> A) : M A := fun s => (Ret (f s), s).

Definition modify (f : State -> State) : M unit := fun s => (Ret tt, f s).

Definition of_res {A : Type} (r : res A) : M A := fun s => (r, s).

(** A read of the host that cannot raise, one that can, and the actions. *)
Definition read {A : Type} (f : W -> A) : M A := fun s => (Ret (f (world s)), s).

Definition call {A : Type} (f : W -> res A) : M A := fun s => (f (world s), s).

Definition act {A : Type} (f : W -> res A * W) : M A :=
  fun s => let (r, w) := f (world s) in (r, set_world w s).

Definition act_total {A : Type} (f : W -> A * W) : M A :=
  fun s => let (a, w) := f (world s) in (Ret a, set_world w s).

Definition act_ (f : W -> W) : M unit :=
  fun s => (Ret tt, set_world (f (world s)) s).

Declare Scope py_scope.
Delimit Scope py_scope with py.
Notation "'let*' x ':=' m 'in' k" := (bind m (fun x => k))
  (at level 10, x name, m at level 100, k at level 200) : py_scope.
Notation "m ';;' k" := (bind m (fun _ => k))
  (at level 100, k at level 200, right associativity) : py_scope.
Local Open Scope py_scope.

(** [for x in xs: body x] *)
Fixpoint for_each {A : Type} (xs : list A) (body : A -> M unit) : M unit :=
  match xs with
  | [] => ret tt
  | x :: rest => body x ;; for_each rest body
  end.

(** A loop that threads a local variable. *)
Fixpoint fold_m {A B : Type} (body : B -> A -> M B) (xs : list A) (b : B) : M B :=
  match xs with
  | [] => ret b
  | x :: rest => let* b' := body b x in fold_m body rest b'
  end.

(** *** ConfigManager (config_manager.py)

    [save_config] only writes the document to disk (and swallows every
    exception): it has no part in the fields modelled here and is left out. *)

Definition get_all_monitors : M (list KnownMonitor) := gets known_monitors.

Fixpoint find_monitor (monitor_id : string) (known : list KnownMonitor)
  : option KnownMonitor :=
  match known with
  | [] => None
  | monitor :: rest =>
      if String.eqb (km_id monitor) monitor_id then Some monitor
      else find_monitor monitor_id rest
  end.

Definition get_monitor (monitor_id : string) : M (option KnownMonitor) :=
  gets (fun s => find_monitor monitor_id (known_monitors s)).

(** The loop of [add_monitor] over the known monitors: the first one whose
    fingerprints match is updated in place and its id returned. *)
Fixpoint update_matching_monitor (fingerprints : Fingerprints) (monitor_data : MonitorData)
  (known : list KnownMonitor) : option (string * list KnownMonitor) :=
  match known with
  | [] => None
  | existing_monitor :: rest =>
      let skip :=
        match update_matching_monitor fingerprints monitor_data rest with
        | Some (i, rest') => Some (i, existing_monitor :: rest')
        | None => None
        end in
      match km_fingerprints existing_monitor with
      | None => skip
      | Some existing_fps =>
          if fst (fingerprints_match fingerprints existing_fps false)
          then Some (km_id existing_monitor,
                     {| km_id := km_id existing_monitor;
                        km_name := md_name monitor_data;
                        km_width := km_width existing_monitor;
                        km_height := km_height existing_monitor;
                        km_x := md_x monitor_data;
                        km_y := md_y monitor_data;
                        km_is_primary := md_is_primary monitor_data;
                        km_fingerprints := Some fingerprints;
                        km_first_detected := km_first_detected existing_monitor |}
                     :: rest)
          else skip
      end
  end.

Definition add_monitor (monitor_data : MonitorData) : M string :=
  let* fingerprints := of_res (generate_fingerprint monitor_data) in
  let* u := act_total uuid4_hex in
  let id := "monitor_" +:+ String.substring 0 8 u in
  let* now := act_total now_isoformat in
  let* known := gets known_monitors in
  match update_matching_monitor fingerprints monitor_data known with
  | Some (existing_id, known') =>
      modify (set_known_monitors known') ;;
      ret existing_id
  | None =>
      modify (set_known_monitors
                (known ++ [ {| km_id := id;
                               km_name := md_name monitor_data;
                               km_width := md_width monitor_data;
                               km_height := md_height monitor_data;
                               km_x := md_x monitor_data;
                               km_y := md_y monitor_data;
                               km_is_primary := md_is_primary monitor_data;
                               km_fingerprints := Some fingerprints;
                               km_first_detected := now |} ])) ;;
      ret id
  end.

(** *** MonitorManager (monitor_manager.py) *)

Definition _generate_monitor_name (monitor : ScreenInfo) : string :=
  let size := " (" +:+ PyStr.of_Z (si_width monitor) +:+ "×"
                +:+ PyStr.of_Z (si_height monitor) +:+ ")" in
  if PyStr.truthy (PyStr.or_empty (si_name monitor))
  then PyStr.or_empty (si_name monitor) +:+ size
  else
    let position :=
      if (si_x monitor =? 0) && (si_y monitor =? 0) then "Primary"
      else "at (" +:+ PyStr.of_Z (si_x monitor) +:+ ", "
             +:+ PyStr.of_Z (si_y monitor) +:+ ")" in
    "Monitor " +:+ position +:+ size.

Definition detect_monitors : M (list string) :=
  try_except
    (let* monitors := call get_monitors in
     let* detected_ids :=
       fold_m (fun detected_ids monitor =>
                 let monitor_data :=
                   {| md_name := _generate_monitor_name monitor;
                      md_width := si_width monitor;
                      md_height := si_height monitor;
                      md_x := si_x monitor;
                      md_y := si_y monitor;
                      md_is_primary := si_is_primary monitor |} in
                 let* monitor_id := add_monitor monitor_data in
                 modify (fun s => set_connected_monitors
                                    (dict_set monitor_id monitor (connected_monitors s)) s) ;;
                 ret (detected_ids ++ [monitor_id])%list)
              monitors [] in
     let* all_monitors := get_all_monitors in
     for_each all_monitors
       (fun monitor =>
          if negb (str_in (km_id monitor) detected_ids)
          then modify (fun s => set_connected_monitors
                                  (dict_del (km_id monitor) (connected_monitors s)) s)
          else ret tt) ;;
     ret detected_ids)
    (fun _ => ret []).

Definition is_monitor_connected (monitor_id : string) : M bool :=
  gets (fun s => dict_has monitor_id (connected_monitors s)).

Definition get_connected_monitor_ids : M (list string) :=
  gets (fun s => dict_keys (connected_monitors s)).

Definition get_connected_monitor (monitor_id : string) : M (option ScreenInfo) :=
  gets (fun s => dict_get monitor_id (connected_monitors s)).

Fixpoint monitor_at (x y : Z) (connected : list (string * ScreenInfo)) : option string :=
  match connected with
  | [] => None
  | (monitor_id, monitor) :: rest =>
      if (si_x monitor <=? x) && (x <? si_x monitor + si_width monitor)
         && (si_y monitor <=? y) && (y <? si_y monitor + si_height monitor)
      then Some monitor_id
      else monitor_at x y rest
  end.

Definition get_monitor_by_position (x y : Z) : M (option string) :=
  gets (fun s => monitor_at x y (connected_monitors s)).

(** *** LayoutMatcher (layout_matcher.py): the screen configuration *)

(** [configs.sort(key=lambda x: x["display_number"])]: a stable sort. *)
Fixpoint insert_by_display (c : ScreenConfig) (sorted : list ScreenConfig)
  : list ScreenConfig :=
  match sorted with
  | [] => [c]
  | h :: t =>
      if sc_display_number c <? sc_display_number h then c :: h :: t
      else h :: insert_by_display c t
  end.

Definition sort_by_display (configs : list ScreenConfig) : list ScreenConfig :=
  fold_left (fun sorted c => insert_by_display c sorted) configs [].

(** The loop of [get_screen_configuration] over the connected ids. *)
Fixpoint screen_configs (known : list KnownMonitor) (connected_ids : list string)
  : list ScreenConfig :=
  match connected_ids with
  | [] => []
  | monitor_id :: rest =>
      match find_monitor monitor_id known with
      | None => screen_configs known rest
      | Some monitor =>
          match extract_display_number (km_name monitor) with
          | None => screen_configs known rest
          | Some display_num =>
              {| sc_display_number := display_num;
                 sc_orientation := get_orientation (km_width monitor) (km_height monitor);
                 sc_monitor_id := monitor_id;
                 sc_width := km_width monitor;
                 sc_height := km_height monitor;
                 sc_name := km_name monitor |} :: screen_configs known rest
          end
      end
  end.

Definition screen_configuration_of (s : State) : list ScreenConfig :=
  sort_by_display (screen_configs (known_monitors s) (dict_keys (connected_monitors s))).

Definition get_screen_configuration : M (list ScreenConfig) :=
  gets screen_configuration_of.

(** *** LayoutManager (layout_manager.py) *)

(** The file name [load_layout] opens for a layout name. *)
Definition layout_file_name (layout_name : string) : string :=
  if negb (PyStr.endswith ".json" layout_name) then layout_name +:+ ".json"
  else layout_name.

Definition load_layout (layout_name : string) : M Layout :=
  let layout_name := layout_file_name layout_name in
  let* layout_path := read (fun w => layout_path w layout_name) in
  let* file := read (fun w => layout_file w layout_name) in
  match file with
  | None => raise (LayoutError ("Layout file not found: " +:+ layout_path))
  | Some loaded =>
      try_except
        (let* layout_data := of_res loaded in
         let (is_valid, error_msg) := validate_layout layout_data in
         if negb is_valid
         then raise (LayoutError ("Invalid layout file: " +:+ error_msg))
         else ret layout_data)
        (fun e =>
           match e with
           | JSONDecodeError _ =>
               raise (LayoutError ("Invalid JSON in layout file: " +:+ str_of_exn e))
           | _ => raise (LayoutError ("Error loading layout: " +:+ str_of_exn e))
           end)
  end.

Definition can_apply_layout (layout_data : Layout) : M (bool * string) :=
  let* current_config := get_screen_configuration in
  let* requirements :=
    of_res (item "screen_requirements" (lay_screen_requirements layout_data)) in
  of_res (matches_requirements current_config requirements).

(** The dict [activate_layout] returns. *)
Record Activation : Type := {
  act_success : bool;
  act_layout : option string;
  act_rules_applied : option Z;
  act_message : string;
}.

(** The dict [deactivate_layout] returns. *)
Record Deactivation : Type := {
  deact_success : bool;
  deact_deactivated : option string;
  deact_message : string;
}.

Definition activate_layout (layout_name : string) : M Activation :=
  let* current := gets active_layout in
  match current with
  | Some active =>
      ret {| act_success := false; act_layout := None; act_rules_applied := None;
             act_message := "Layout '" +:+ al_name active +:+ "' is already active. "
                              +:+ "Deactivate it first before activating another." |}
  | None =>
      let* layout_data :=
        try_except (load_layout layout_name)
          (fun e =>
             match e with
             | LayoutError _ => raise (LayoutError ("Cannot load layout: " +:+ str_of_exn e))
             | _ => raise e
             end) in
      let* applies := can_apply_layout layout_data in
      let (can_apply, reason) := (applies : bool * string) in
      if negb can_apply
      then raise (LayoutError ("Screen configuration doesn't match layout requirements: "
                                 +:+ reason))
      else
        let* screen_config := get_screen_configuration in
        let display_map := build_display_map screen_config in
        let* name := of_res (item "name" (lay_name layout_data)) in
        let* now := act_total now_isoformat in
        modify (set_active_layout
                  (Some {| al_name := name;
                           al_file_name :=
                             if PyStr.endswith ".json" layout_name then layout_name
                             else layout_name +:+ ".json";
                           al_data := layout_data;
                           al_display_map := display_map;
                           al_activated_at := now |})) ;;
        let rules_count := len (default [] (lay_rules layout_data)) in
        ret {| act_success := true; act_layout := Some name;
               act_rules_applied := Some rules_count;
               act_message := "Layout '" +:+ name +:+ "' activated successfully" |}
  end.

Definition deactivate_layout : M Deactivation :=
  let* current := gets active_layout in
  match current with
  | None =>
      ret {| deact_success := false; deact_deactivated := None;
             deact_message := "No active layout to deactivate" |}
  | Some active =>
      let layout_name := al_name active in
      modify (set_active_layout None) ;;
      ret {| deact_success := true; deact_deactivated := Some layout_name;
             deact_message := "Layout '" +:+ layout_name +:+ "' deactivated successfully" |}
  end.

Definition check_active_layout_validity : M bool :=
  let* current := gets active_layout in
  match current with
  | None => ret true
  | Some active =>
      let layout_data := al_data active in
      let* applies := can_apply_layout layout_data in
      if negb (fst applies)
      then deactivate_layout ;; ret false
      else ret true
  end.

(** [not target_display] for a value that is [None] or an integer. *)
Definition falsy_Z (x : option Z) : bool :=
  match x with
  | None => true
  | Some n => n =? 0
  end.

(** The body of the loop of [get_active_rules]: the rule is skipped
    ([None]) or resolved. The default of [.get("rule_id", ...)] is
    evaluated whether or not the key is there, so each resolved rule draws
    one uuid. *)
Definition resolve_rule (display_map : gmap Z string) (layout_rule : LayoutRule)
  : M (option Rule) :=
  let target_display := lr_target_display layout_rule in
  if falsy_Z target_display then ret None
  else
    match target_display ≫= (fun n => display_map !! n) with
    | None => ret None
    | Some target_monitor_id =>
        let* u := act_total uuid4_hex in
        let rule_id := default ("rule_" +:+ String.substring 0 8 u) (lr_rule_id layout_rule) in
        let* match_type := of_res (item "match_type" (lr_match_type layout_rule)) in
        let* match_value := of_res (item "match_value" (lr_match_value layout_rule)) in
        ret (Some {| rule_id := rule_id;
                     match_type := match_type;
                     match_value := match_value;
                     target_monitor_id := target_monitor_id;
                     fullscreen := default false (lr_fullscreen layout_rule);
                     maximize := default false (lr_maximize layout_rule) |})
    end.

Definition get_active_rules : M (list Rule) :=
  let* current := gets active_layout in
  match current with
  | None => ret []
  | Some active =>
      let layout_data := al_data active in
      let display_map := al_display_map active in
      fold_m (fun rules layout_rule =>
                let* resolved := resolve_rule display_map layout_rule in
                match resolved with
                | None => ret rules
                | Some rule => ret (rules ++ [rule])%list
                end)
             (default [] (lay_rules layout_data)) []
  end.

(** *** WindowManager (window_manager.py): observing a window

    Reads that the program makes only to write a log line are left out. *)

Definition is_window_maximized (hwnd : Z) : M bool :=
  try_except
    (let* showCmd := call (fun w => GetWindowPlacement_showCmd w hwnd) in
     ret (showCmd =? SW_SHOWMAXIMIZED))
    (fun _ => ret false).

Definition is_window_fullscreen (hwnd : Z) : M bool :=
  try_except
    (let* style := call (fun w => GetWindowLong w hwnd GWL_STYLE) in
     ret (fullscreen_of_style style))
    (fun _ => ret false).

Definition get_window_monitor_id (hwnd : Z) : M (option string) :=
  try_except
    (let* rect := call (fun w => GetWindowRect w hwnd) in
     let '(x0, y0, x1, y1) := (rect : Z * Z * Z * Z) in
     let window_center_x := (x0 + x1) / 2 in
     let window_center_y := (y0 + y1) / 2 in
     get_monitor_by_position window_center_x window_center_y)
    (fun _ => ret None).

Definition opt_str_eqb (a b : option string) : bool :=
  match a, b with
  | Some x, Some y => String.eqb x y
  | None, None => true
  | _, _ => false
  end.

Definition is_window_on_monitor (hwnd : Z) (monitor_id : string) : M bool :=
  let* current_monitor_id := get_window_monitor_id hwnd in
  ret (opt_str_eqb current_monitor_id (Some monitor_id)).

Definition is_window_in_correct_state (hwnd : Z) (monitor_id : string)
  (monitor : ScreenInfo) (maximize fullscreen : bool) : M bool :=
  let* on_monitor := is_window_on_monitor hwnd monitor_id in
  if negb on_monitor then ret false
  else if fullscreen then is_window_fullscreen hwnd
  else if maximize then
    let* is_max := is_window_maximized hwnd in
    let* is_full := is_window_fullscreen hwnd in
    ret (is_max && negb is_full)
  else
    let* is_max := is_window_maximized hwnd in
    let* is_full := is_window_fullscreen hwnd in
    ret (negb is_max && negb is_full).

(** *** WindowManager: the three operations *)

Definition move_window (hwnd : Z) (monitor : ScreenInfo) : M unit :=
  act (ShowWindow hwnd SW_RESTORE) ;;
  act (MoveWindow hwnd (si_x monitor) (si_y monitor) (si_width monitor) (si_height monitor)).

(** One pass of the loop [for attempt in range(3)] of [fullscreen_window];
    the result tells whether the loop breaks. *)
Definition foreground_attempt (hwnd attempt : Z) : M bool :=
  try_except
    (act (SetForegroundWindow hwnd) ;;
     act_ (sleep 100) ;;
     let* current_fg := call GetForegroundWindow in
     if current_fg =? hwnd then ret true
     else (if attempt <? 2 then act_ (sleep 200) else ret tt) ;; ret false)
    (fun _ => (if attempt <? 2 then act_ (sleep 200) else ret tt) ;; ret false).

Fixpoint foreground_attempts (hwnd : Z) (attempts : list Z) : M bool :=
  match attempts with
  | [] => ret false
  | attempt :: rest =>
      let* done := foreground_attempt hwnd attempt in
      if done then ret true else foreground_attempts hwnd rest
  end.

(** [wait_time] is in milliseconds. *)
Definition fullscreen_window (hwnd : Z) (wait_time : Z) : M unit :=
  let* original_fg :=
    try_except (let* fg := call GetForegroundWindow in ret (Some fg))
               (fun _ => ret None) in
  let* foreground_success := foreground_attempts hwnd [0; 1; 2] in
  act_ (SendInput VK_F11 0) ;;
  act_ (sleep 50) ;;
  act_ (SendInput VK_F11 KEYEVENTF_KEYUP) ;;
  act_ (sleep wait_time) ;;
  match original_fg with
  | Some fg =>
      if bool_of_Z fg && negb (fg =? hwnd)
      then try_except (act (SetForegroundWindow fg)) (fun _ => ret tt)
      else ret tt
  | None => ret tt
  end.

Definition maximize_window (hwnd : Z) (monitor : ScreenInfo) : M unit :=
  let* is_full := is_window_fullscreen hwnd in
  (if is_full then fullscreen_window hwnd 600 else ret tt) ;;
  act (ShowWindow hwnd SW_MAXIMIZE).

(** *** WindowManager: the state machine of one window *)

Definition unchanged : RuleOutcome := {| changed := false; operations := [] |}.

Definition apply_window_rule (hwnd : Z) (monitor_id : string) (maximize fullscreen : bool)
  : M RuleOutcome :=
  let* found := get_connected_monitor monitor_id in
  match found with
  | None => ret unchanged
  | Some monitor =>
      let* correct := is_window_in_correct_state hwnd monitor_id monitor maximize fullscreen in
      if correct then ret unchanged
      else
        let operations : list string := [] in
        let* on_monitor := is_window_on_monitor hwnd monitor_id in
        let needs_move := negb on_monitor in
        let* operations :=
          if needs_move
          then move_window hwnd monitor ;;
               act_ (sleep 300) ;;
               ret (operations ++ ["move"])%list
          else ret operations in
        let* current_fullscreen := is_window_fullscreen hwnd in
        let* current_maximized := is_window_maximized hwnd in
        let* operations :=
          if fullscreen then
            if negb current_fullscreen then
              let* operations :=
                if negb current_maximized
                then maximize_window hwnd monitor ;;
                     act_ (sleep 200) ;;
                     ret (operations ++ ["maximize"])%list
                else ret operations in
              fullscreen_window hwnd 1500 ;;
              let operations := (operations ++ ["fullscreen"])%list in
              act_ (sleep 500) ;;
              let* style_after := call (fun w => GetWindowLong w hwnd GWL_STYLE) in
              ret operations
            else ret operations
          else if maximize then
            let* operations :=
              if current_fullscreen
              then fullscreen_window hwnd 600 ;;
                   ret (operations ++ ["exit_fullscreen"])%list
              else ret operations in
            if negb current_maximized || current_fullscreen
            then maximize_window hwnd monitor ;;
                 ret (operations ++ ["maximize"])%list
            else ret operations
          else
            let* operations :=
              if current_fullscreen
              then fullscreen_window hwnd 600 ;;
                   ret (operations ++ ["exit_fullscreen"])%list
              else ret operations in
            if current_maximized && negb needs_move
            then act (ShowWindow hwnd SW_RESTORE) ;;
                 ret (operations ++ ["restore"])%list
            else ret operations in
        ret {| changed := true; operations := operations |}
  end.

(** *** WindowManager: enumeration *)

Definition system_classnames : list string :=
  ["Progman"; "WorkerW"; "Shell_TrayWnd"; "Shell_SecondaryTrayWnd"].

Definition system_titles : list string := ["Program Manager"].

Definition system_process_names : list string :=
  ["SystemSettings.exe"; "SearchUI.exe"; "StartMenuExperienceHost.exe";
   "ShellExperienceHost.exe"; "RuntimeBroker.exe"; "dwm.exe"; "sihost.exe";
   "ctfmon.exe"; "taskhostw.exe"].

Definition excluded_window_filenames : list string :=
  ["SystemSettings.exe"; "TextInputHost.exe"; "HxOutlook.exe"; "ShellExperienceHost.exe"].

(** [x and x in names] for a string or [None]. *)
Definition named_in (x : option string) (names : list string) : bool :=
  match x with
  | Some s => PyStr.truthy s && str_in s names
  | None => false
  end.

Definition is_system_window (title : string) (class_name exe_name : option string) : bool :=
  let t := PyStr.strip title in
  if PyStr.truthy t && str_in t system_titles then true
  else if named_in class_name system_classnames then true
  else if named_in exe_name system_process_names then true
  else false.

Definition is_uwp_window (class_name exe_name : option string) : bool :=
  if match class_name with
     | Some c => str_in c ["ApplicationFrameWindow"; "Windows.UI.Core.CoreWindow"]
     | None => false
     end
  then true
  else match exe_name with
       | Some e => PyStr.truthy e && String.eqb (PyStr.lower e) "applicationframehost.exe"
       | None => false
       end.

Definition _get_window_rect (hwnd : Z) : M (Z * Z * Z * Z) :=
  try_except
    (let* rect := call (fun w => GetWindowRect w hwnd) in
     let '(x0, y0, x1, y1) := (rect : Z * Z * Z * Z) in
     ret (x0, y0, x1 - x0, y1 - y0))
    (fun _ => ret (0, 0, 0, 0)).

(** The callback of [_enum_top_level_windows] on one handle: whether the
    handle is kept. *)
Definition enum_keeps (hwnd : Z) : M bool :=
  try_except
    (let* real := call (fun w => IsWindow w hwnd) in
     if negb real then ret false
     else call (fun w => IsWindowVisible w hwnd))
    (fun _ => ret false).

Definition _enum_top_level_windows : M (list Z) :=
  let* handles := call EnumWindows in
  fold_m (fun hwnds hwnd =>
            let* keep := enum_keeps hwnd in
            ret (if keep then hwnds ++ [hwnd] else hwnds)%list)
         handles [].

Definition get_window_class (hwnd : Z) : M (option string) :=
  try_except (let* c := call (fun w => GetClassName w hwnd) in ret (Some c))
             (fun _ => ret None).

Definition get_window_pid (hwnd : Z) : M (option Z) :=
  try_except
    (let* pid := call (fun w => GetWindowThreadProcessId w hwnd) in
     ret (if bool_of_Z pid then Some pid else None))
    (fun _ => ret None).

Definition get_process_path_from_pid (pid : option Z) : M (option string) :=
  match pid with
  | None => ret None
  | Some p => if bool_of_Z p then read (fun w => process_exe w p) else ret None
  end.

Definition _exe_name_from_path (process_path : option string) : option string :=
  match process_path with
  | None => None
  | Some p => if PyStr.truthy p then Some (path_name p) else None
  end.

(** The body of the loop of [get_all_windows] on one handle: the window is
    left out ([None]) or described. *)
Definition window_info (hwnd : Z) : M (option Window) :=
  let* title := read (fun w => GetWindowText w hwnd) in
  let* class_name := get_window_class hwnd in
  let* is_minimized :=
    try_except (call (fun w => IsIconic w hwnd)) (fun _ => ret false) in
  let* pid := get_window_pid hwnd in
  let* process_path := get_process_path_from_pid pid in
  let exe_name := _exe_name_from_path process_path in
  let is_uwp := is_uwp_window class_name exe_name in
  let is_system := is_system_window title class_name exe_name in
  if PyStr.contains "__SCREENY_WINDOW_SWITCHER_UNIQUE_MARKER__" title then ret None
  else if named_in exe_name excluded_window_filenames then ret None
  else if negb (PyStr.truthy title && PyStr.truthy (PyStr.strip title)) && negb is_system
  then ret None
  else
    let* rect := _get_window_rect hwnd in
    let* is_max := is_window_maximized hwnd in
    let* is_full := is_window_fullscreen hwnd in
    let* monitor_id := get_window_monitor_id hwnd in
    ret (Some {| hwnd := hwnd;
                 title := title;
                 app_name := exe_name;
                 class_name := class_name;
                 pid := pid;
                 process_path := process_path;
                 exe_name := exe_name;
                 is_system := is_system;
                 is_uwp := is_uwp;
                 is_minimized := is_minimized;
                 position := rect;
                 is_maximized := is_max;
                 is_fullscreen := is_full;
                 monitor_id := monitor_id |}).

Definition get_all_windows : M (list Window) :=
  let* hwnds := _enum_top_level_windows in
  fold_m (fun windows hwnd =>
            try_except
              (let* info := window_info hwnd in
               match info with
               | Some window_info => ret (windows ++ [window_info])%list
               | None => ret windows
               end)
              (fun _ => ret windows))
         hwnds [].

(** *** WindowManager: the rule application pass *)

Definition zero_summary : Summary :=
  {| applied := 0; skipped_no_monitor := 0; skipped_no_window := 0; failed := 0;
     details := [] |}.

(** [results["applied"] += 1] *)
Definition count_applied (results : Summary) : Summary :=
  {| applied := applied results + 1;
     skipped_no_monitor := skipped_no_monitor results;
     skipped_no_window := skipped_no_window results;
     failed := failed results;
     details := details results |}.

(** [results["failed"] += 1] and its entry of [results["details"]] *)
Definition count_failed (rule : Rule) (e : exn) (results : Summary) : Summary :=
  {| applied := applied results;
     skipped_no_monitor := skipped_no_monitor results;
     skipped_no_window := skipped_no_window results;
     failed := failed results + 1;
     details := (details results
                   ++ [ {| d_rule_id := rule_id rule;
                           d_result := "error";
                           d_message := str_of_exn e |} ])%list |}.

(** [results["skipped_no_monitor"] += 1] and its entry *)
Definition count_skipped_no_monitor (rule : Rule) (results : Summary) : Summary :=
  {| applied := applied results;
     skipped_no_monitor := skipped_no_monitor results + 1;
     skipped_no_window := skipped_no_window results;
     failed := failed results;
     details := (details results
                   ++ [ {| d_rule_id := rule_id rule;
                           d_result := "skipped_no_monitor";
                           d_message := "Target monitor " +:+ target_monitor_id rule
                                          +:+ " is not connected" |} ])%list |}.

(** [results["skipped_no_window"] += 1] and its entry *)
Definition count_skipped_no_window (rule : Rule) (results : Summary) : Summary :=
  {| applied := applied results;
     skipped_no_monitor := skipped_no_monitor results;
     skipped_no_window := skipped_no_window results + 1;
     failed := failed results;
     details := (details results
                   ++ [ {| d_rule_id := rule_id rule;
                           d_result := "skipped_no_window";
                           d_message := "No windows match " +:+ match_type rule
                                          +:+ "=" +:+ match_value rule |} ])%list |}.

(** The body of the loop [for window in matching_windows], with its
    [try]/[except]. *)
Definition apply_rule_to_window (rule : Rule) (results : Summary) (window : Window)
  : M Summary :=
  try_except
    (if is_minimized window then ret results
     else
       let window_title := PyStr.strip (title window) in
       if negb (PyStr.truthy window_title) then ret results
       else if String.eqb window_title "Program Manager" then ret results
       else
         let rule_fullscreen := fullscreen rule in
         let rule_maximize := maximize rule in
         let* result :=
           apply_window_rule (hwnd window) (target_monitor_id rule)
                             rule_maximize rule_fullscreen in
         if changed result then ret (count_applied results) else ret results)
    (fun e => ret (count_failed rule e results)).

(** [matching_windows], the windows the rule's predicate selects. *)
Definition matching_windows (rule : Rule) (windows : list Window) : list Window :=
  List.filter (fun window =>
                 rule_matches window (Some (match_type rule)) (Some (match_value rule)))
              windows.

(** The body of the loop [for rule in rules]. *)
Definition apply_rule (windows : list Window) (results : Summary) (rule : Rule)
  : M Summary :=
  let target_monitor_id := target_monitor_id rule in
  let* connected := is_monitor_connected target_monitor_id in
  if negb connected then ret (count_skipped_no_monitor rule results)
  else
    match matching_windows rule windows with
    | [] => ret (count_skipped_no_window rule results)
    | matching => fold_m (apply_rule_to_window rule) matching results
    end.

Definition apply_rules : M Summary :=
  detect_monitors ;;
  let* configured := gets layout_manager in
  if negb configured then ret zero_summary
  else
    let* rules := get_active_rules in
    match rules with
    | [] => ret zero_summary
    | _ =>
        let* windows := get_all_windows in
        fold_m (apply_rule windows) rules zero_summary
    end.

End Engine.

Arguments State W : clear implicits.
Arguments M W A : clear implicits.

(** The state after a program has run, and what the program returned. *)
Definition after {W A : Type} (m : M W A) (s : State W) : State W := snd (m s).

Definition value {W A : Type} (m : M W A) (s : State W) : res A := fst (m s).

(** ** What a pass does, told apart from how it counts

    The pairs of a rule and a window on which [apply_rules] calls the state
    machine, and the run of the state machine over such pairs. The theorems
    below relate the loops of [apply_rules] to them. *)

Section Pass.

Context {W : Type} {host : Host W}.

(** A matching window reaches the state machine unless it is minimized,
    has an empty title or is the desktop. *)
Definition eligible (window : Window) : bool :=
  negb (is_minimized window)
  && PyStr.truthy (PyStr.strip (title window))
  && negb (String.eqb (PyStr.strip (title window)) "Program Manager").

Definition targets (rule : Rule) (windows : list Window) : list Window :=
  List.filter eligible (matching_windows rule windows).

Definition plan (connected : list (string * ScreenInfo)) (rules : list Rule)
  (windows : list Window) : list (Rule * Window) :=
  flat_map (fun rule =>
              if dict_has (target_monitor_id rule) connected
              then map (pair rule) (targets rule windows)
              else [])
           rules.

(** One call of the state machine, its exception caught and kept. *)
Definition attempt (rule : Rule) (window : Window) : M W (res RuleOutcome) :=
  try_except
    (bind (apply_window_rule (hwnd window) (target_monitor_id rule)
                             (maximize rule) (fullscreen rule))
          (fun outcome => ret (Ret outcome)))
    (fun e => ret (Raise e)).

Fixpoint run_plan (pairs : list (Rule * Window)) : M W (list (res RuleOutcome)) :=
  match pairs with
  | [] => ret []
  | (rule, window) :: rest =>
      bind (attempt rule window)
           (fun outcome => bind (run_plan rest) (fun outcomes => ret (outcome :: outcomes)))
  end.

(** What one outcome of the state machine adds to the summary. *)
Definition tally (rule : Rule) (results : Summary) (outcome : res RuleOutcome) : Summary :=
  match outcome with
  | Ret o => if changed o then count_applied results else results
  | Raise e => count_failed rule e results
  end.

Definition has_changed (outcome : res RuleOutcome) : bool :=
  match outcome with
  | Ret o => changed o
  | Raise _ => false
  end.

Definition has_raised (outcome : res RuleOutcome) : bool :=
  match outcome with
  | Ret _ => false
  | Raise _ => true
  end.

Definition count {A : Type} (p : A -> bool) (l : list A) : Z := len (List.filter p l).

Definition not_connected (connected : list (string * ScreenInfo)) (rule : Rule) : bool :=
  negb (dict_has (target_monitor_id rule) connected).

Definition finds_no_window (connected : list (string * ScreenInfo))
  (windows : list Window) (rule : Rule) : bool :=
  dict_has (target_monitor_id rule) connected
  && match matching_windows rule windows with
     | [] => true
     | _ => false
     end.

Definition detail_is (kind : string) (d : Detail) : bool := String.eqb (d_result d) kind.

(** [summary] is [results] with [a] more applied, [nm] more rules skipped
    for their monitor, [nw] more skipped for want of a window and [f] more
    failures, each skip and each failure with its entry of the details. *)
Definition grows_by (results summary : Summary) (a nm nw f : Z) : Prop :=
  applied summary = applied results + a
  /\ skipped_no_monitor summary = skipped_no_monitor results + nm
  /\ skipped_no_window summary = skipped_no_window results + nw
  /\ failed summary = failed results + f
  /\ count (detail_is "error") (details summary)
     = count (detail_is "error") (details results) + f
  /\ count (detail_is "skipped_no_monitor") (details summary)
     = count (detail_is "skipped_no_monitor") (details results) + nm
  /\ count (detail_is "skipped_no_window") (details summary)
     = count (detail_is "skipped_no_window") (details results) + nw.

(** *** The operations of the service on the layout slot *)

Inductive op : Type :=
| Detect
| CheckValidity
| GetActiveRules
| ApplyRules
| Deactivate
| Activate (layout_name : string)
| Environment (change : W -> W).

Definition run_op (o : op) (s : State W) : State W :=
  match o with
  | Detect => after detect_monitors s
  | CheckValidity => after check_active_layout_validity s
  | GetActiveRules => after get_active_rules s
  | ApplyRules => after apply_rules s
  | Deactivate => after deactivate_layout s
  | Activate layout_name => after (activate_layout layout_name) s
  | Environment change => set_world (change (world s)) s
  end.

Definition run_ops (ops : list op) (s : State W) : State W :=
  fold_left (fun s o => run_op o s) ops s.

Definition is_activation (o : op) : bool :=
  match o with
  | Activate _ => true
  | _ => false
  end.

(** *** What a program leaves alone *)

(** [m] leaves the observation [f] of the state as it found it. *)
Definition preserves {X A : Type} (f : State W -> X) (m : M W A) : Prop :=
  forall s, f (snd (m s)) = f s.

(** [f] does not look at the world. *)
Definition world_blind {X : Type} (f : State W -> X) : Prop :=
  forall w s, f (set_world w s) = f s.

(** [m] ends with a value, whatever the state. *)
Definition returns {A : Type} (m : M W A) : Prop :=
  forall s, exists a s', m s = (Ret a, s').

(** Whenever [m] ends with a value, the value satisfies [P]. *)
Definition ensures {A : Type} (m : M W A) (P : A -> Prop) : Prop :=
  forall s a s', m s = (Ret a, s') -> P a.

(** The whole state, the fields of the managers, and the layout slot. *)
Definition whole (s : State W) : State W := s.

Definition managers (s : State W)
  : list KnownMonitor * list (string * ScreenInfo) * option ActiveLayout * bool :=
  (known_monitors s, connected_monitors s, active_layout s, layout_manager s).

Definition layout_slot (s : State W) : option ActiveLayout * bool :=
  (active_layout s, layout_manager s).

(** The layout slot that a successful activation fills. *)
Definition activated (layout_name : string) (layout_data : Layout) (name : string)
  (s : State W) : ActiveLayout :=
  {| al_name := name;
     al_file_name := if PyStr.endswith ".json" layout_name then layout_name
                     else layout_name +:+ ".json";
     al_data := layout_data;
     al_display_map := build_display_map (screen_configuration_of s);
     al_activated_at := fst (now_isoformat (world s)) |}.

(** The data of the active layout, if any, has passed [validate_layout]. *)
Definition slot_valid (s : State W) : Prop :=
  forall active, active_layout s = Some active ->
                 fst (validate_layout (al_data active)) = true.

End Pass.

Arguments op W : clear implicits.

(** The requirements that ask for [total] screens and for the given pairs of
    a display number and an orientation. *)
Definition requirements_of (total : option Z) (pairs : list (Z * string))
  : ScreenRequirements :=
  {| total_screens := total;
     screens := Some (map (fun p => {| display_number := Some (fst p);
                                       orientation := Some (snd p) |}) pairs) |}.

(** A rule of a layout file is resolved when its target display is
    neither missing nor zero and is a key of the display map. *)
Definition resolvable (display_map : gmap Z string) (layout_rule : LayoutRule) : bool :=
  match lr_target_display layout_rule with
  | Some n => negb (n =? 0) && bool_decide (is_Some (display_map !! n))
  | None => false
  end.

(** ** Two readings of "the configuration has the required screen"

    The reading of the program: the first entry with the display number has
    the orientation. The reading of the specification's words: some entry
    has both. *)

Definition first_entry_has (current_config : list ScreenConfig) (d : Z) (o : string) : Prop :=
  exists c, find_display d current_config = Some c /\ sc_orientation c = o.

Definition some_entry_has (current_config : list ScreenConfig) (d : Z) (o : string) : Prop :=
  exists c, In c current_config /\ sc_display_number c = d /\ sc_orientation c = o.

Definition count_agrees (current_config : list ScreenConfig) (total : option Z) : Prop :=
  forall t, total = Some t -> len current_config = t.

(** The resolved rule [rule] is what the stored rule [layout_rule] becomes
    under the display map. *)
Definition resolves (display_map : gmap Z string) (layout_rule : LayoutRule) (rule : Rule)
  : Prop :=
  (exists d, lr_target_display layout_rule = Some d
             /\ display_map !! d = Some (target_monitor_id rule))
  /\ lr_match_type layout_rule = Some (match_type rule)
  /\ lr_match_value layout_rule = Some (match_value rule)
  /\ fullscreen rule = default false (lr_fullscreen layout_rule)
  /\ maximize rule = default false (lr_maximize layout_rule)
  /\ (forall id, lr_rule_id layout_rule = Some id -> rule_id rule = id).

(** The stored rules of a layout, [layout_data.get("rules", [])]. *)
Definition stored_rules (layout_data : Layout) : list LayoutRule :=
  default [] (lay_rules layout_data).

(** ** The words of the specification, for comparison

    Four statements as the specification words them, to be set against
    what the program does. *)

(** "At most one rule is applied to a window: the first rule in file order
    whose predicate matches it." [applied_pairs] are the pairs of a rule
    and a window on which a pass calls the state machine. *)
Definition first_match_only (applied_pairs : list (Rule * Window)) (rules : list Rule)
  : Prop :=
  forall rule window,
    In (rule, window) applied_pairs ->
    exists before rest,
      rules = (before ++ rule :: rest)%list
      /\ Forall (fun r => rule_matches window (Some (match_type r)) (Some (match_value r))
                          = false) before.

(** "One resolved rule for exactly those stored rules whose target_display
    is a key of the display map." *)
Definition keyed (display_map : gmap Z string) (layout_rule : LayoutRule) : bool :=
  match lr_target_display layout_rule with
  | Some n => bool_decide (is_Some (display_map !! n))
  | None => false
  end.

Definition resolves_every_keyed_rule (display_map : gmap Z string)
  (stored : list LayoutRule) (rules : list Rule) : Prop :=
  Forall2 (resolves display_map) (List.filter (keyed display_map) stored) rules.

(** "(True, reason) iff the count agrees and every required pair has an
    entry with that display number and that orientation." *)
Definition answers_by_some_entry (current_config : list ScreenConfig) (total : option Z)
  (pairs : list (Z * string)) (answer : res (bool * string)) : Prop :=
  (exists reason, answer = Ret (true, reason))
  <-> count_agrees current_config total
      /\ forall d o, In (d, o) pairs -> some_entry_has current_config d o.

(** "Each rule with no matching window increments skipped_no_window." *)
Definition matches_no_window (windows : list Window) (rule : Rule) : bool :=
  match matching_windows rule windows with
  | [] => true
  | _ => false
  end.

Definition counts_every_windowless_rule (rules : list Rule) (windows : list Window)
  (summary : Summary) : Prop :=
  skipped_no_window summary = count (matches_no_window windows) rules.

(** ** More of the managers

    Methods of the managers that the rule engine does not call itself: the
    deletion of a known monitor, the primary monitor, the preview of a
    layout and the creation of a layout from the screens at hand. *)

(** [s.capitalize()] on ASCII: the first character in upper case, the rest
    in lower case. *)
Definition upper_char (c : ascii) : ascii :=
  let n := N_of_ascii c in
  if ((97 <=? n) && (n <=? 122))%N then ascii_of_N (n - 32) else c.

Definition capitalize (s : string) : string :=
  match s with
  | EmptyString => EmptyString
  | String c t => String (upper_char c) (PyStr.lower t)
  end.

(** [s.replace(a, b)] for one-character strings [a] and [b]. *)
Fixpoint replace_char (a b : ascii) (s : string) : string :=
  match s with
  | EmptyString => EmptyString
  | String c t => String (if Ascii.eqb c a then b else c) (replace_char a b t)
  end.

(** An entry of the [screens] that [create_layout_from_current_config]
    writes. *)
Record ScreenEntry : Type := {
  se_display_number : Z;
  se_orientation : string;
  se_description : string;
}.

Record LayoutMetadata : Type := {
  meta_created : string;
  meta_author : string;
  meta_tags : list string;
}.

(** The document that [create_layout_from_current_config] builds and
    writes. *)
Record LayoutDocument : Type := {
  doc_name : string;
  doc_description : string;
  doc_version : string;
  doc_total_screens : Z;
  doc_screens : list ScreenEntry;
  doc_rules : list LayoutRule;
  doc_metadata : LayoutMetadata;
}.

(** The document as [json.load] gives it back, in the fields of the data
    model: every key that was written is present. *)
Definition as_layout (document : LayoutDocument) : Layout :=
  {| lay_name := Some (doc_name document);
     lay_screen_requirements :=
       Some {| total_screens := Some (doc_total_screens document);
               screens :=
                 Some (map (fun screen =>
                              {| display_number := Some (se_display_number screen);
                                 orientation := Some (se_orientation screen) |})
                           (doc_screens document)) |};
     lay_rules := Some (doc_rules document) |}.

(** The layouts directory as a place to write to: [open(file_path, "w")]
    followed by [json.dump]. *)
Class LayoutWriter (W : Type) : Type := {
  write_layout : string -> LayoutDocument -> W -> res unit * W;
}.

(** The dict [get_layout_preview] returns ([description], which no other
    method reads, is left out). *)
Record Preview : Type := {
  pv_name : string;
  pv_file_name : string;
  pv_can_apply : bool;
  pv_reason : string;
  pv_screen_requirements : ScreenRequirements;
  pv_current_screen_config : list ScreenConfig;
  pv_rules_count : Z;
}.

(** The dict [create_layout_from_current_config] returns. *)
Record Creation : Type := {
  cr_success : bool;
  cr_message : string;
  cr_file_name : option string;
  cr_file_path : option string;
}.

(** The [layout_data] of [create_layout_from_current_config]. *)
Definition new_layout_document (layout_name description now : string)
  (screen_config : list ScreenConfig) : LayoutDocument :=
  let screens :=
    map (fun screen =>
           {| se_display_number := sc_display_number screen;
              se_orientation := sc_orientation screen;
              se_description := capitalize (sc_orientation screen) +:+ " screen - "
                                  +:+ sc_name screen |})
        screen_config in
  {| doc_name := layout_name;
     doc_description :=
       if PyStr.truthy description then description
       else "Layout with " +:+ PyStr.of_Z (len screens) +:+ " screen"
              +:+ (if negb (len screens =? 1) then "s" else "");
     doc_version := "1.0";
     doc_total_screens := len screens;
     doc_screens := screens;
     doc_rules := [];
     doc_metadata := {| meta_created := now;
                        meta_author := "screeny";
                        meta_tags := map se_orientation screens |} |}.

(** The file name under which a new layout is written. *)
Definition new_layout_file_name (layout_name : string) : string :=
  replace_char " " "-" (PyStr.lower layout_name) +:+ ".json".

Section MoreManagers.

Context {W : Type} {host : Host W} {writer : LayoutWriter W}.

(** *** ConfigManager: deleting a monitor *)

(** [del known_monitors[i]] for the first [i] whose monitor has the id;
    [None] when there is none. *)
Fixpoint remove_monitor (monitor_id : string) (known : list KnownMonitor)
  : option (list KnownMonitor) :=
  match known with
  | [] => None
  | monitor :: rest =>
      if String.eqb (km_id monitor) monitor_id then Some rest
      else match remove_monitor monitor_id rest with
           | Some rest' => Some (monitor :: rest')
           | None => None
           end
  end.

Definition delete_monitor (monitor_id : string) : M W bool :=
  bind (gets known_monitors) (fun known =>
  match remove_monitor monitor_id known with
  | Some known' => bind (modify (set_known_monitors known')) (fun _ => ret true)
  | None => ret false
  end).

(** *** MonitorManager: the primary monitor *)

Fixpoint first_primary (connected : list (string * ScreenInfo)) : option string :=
  match connected with
  | [] => None
  | (monitor_id, monitor) :: rest =>
      if si_is_primary monitor then Some monitor_id else first_primary rest
  end.

Fixpoint first_at_origin (connected : list (string * ScreenInfo)) : option string :=
  match connected with
  | [] => None
  | (monitor_id, monitor) :: rest =>
      if (si_x monitor =? 0) && (si_y monitor =? 0) then Some monitor_id
      else first_at_origin rest
  end.

Definition primary_of (connected : list (string * ScreenInfo)) : option string :=
  match first_primary connected with
  | Some monitor_id => Some monitor_id
  | None =>
      match first_at_origin connected with
      | Some monitor_id => Some monitor_id
      | None =>
          match dict_keys connected with
          | monitor_id :: _ => Some monitor_id
          | [] => None
          end
      end
  end.

Definition get_primary_monitor_id : M W (option string) :=
  gets (fun s => primary_of (connected_monitors s)).

(** *** LayoutManager: preview and creation *)

Definition get_layout_preview (layout_name : string) : M W Preview :=
  bind (load_layout layout_name) (fun layout_data =>
  bind get_screen_configuration (fun current_config =>
  bind (can_apply_layout layout_data) (fun applies =>
  let (can_apply, reason) := (applies : bool * string) in
  ret {| pv_name := default layout_name (lay_name layout_data);
         pv_file_name := layout_name +:+ ".json";
         pv_can_apply := can_apply;
         pv_reason := reason;
         pv_screen_requirements :=
           default {| total_screens := None; screens := None |}
                   (lay_screen_requirements layout_data);
         pv_current_screen_config := current_config;
         pv_rules_count := len (default [] (lay_rules layout_data)) |}))).

Definition create_layout_from_current_config (layout_name description : string)
  : M W Creation :=
  bind get_screen_configuration (fun screen_config =>
  match screen_config with
  | [] =>
      ret {| cr_success := false;
             cr_message := "No screens detected. Cannot create layout.";
             cr_file_name := None; cr_file_path := None |}
  | _ =>
      bind (act_total now_isoformat) (fun now =>
      let layout_data := new_layout_document layout_name description now screen_config in
      let file_name := new_layout_file_name layout_name in
      bind (read (fun w => layout_path w file_name)) (fun file_path =>
      bind (read (fun w => layout_file w file_name)) (fun existing =>
      match existing with
      | Some _ =>
          ret {| cr_success := false;
                 cr_message := "Layout '" +:+ layout_name
                                 +:+ "' already exists. Please choose a different name.";
                 cr_file_name := None; cr_file_path := None |}
      | None =>
          try_except
            (bind (act (write_layout file_name layout_data)) (fun _ =>
             ret {| cr_success := true;
                    cr_message := "Layout '" +:+ layout_name +:+ "' created successfully";
                    cr_file_name := Some file_name;
                    cr_file_path := Some file_path |}))
            (fun e =>
               ret {| cr_success := false;
                      cr_message := "Failed to create layout: " +:+ str_of_exn e;
                      cr_file_name := None; cr_file_path := None |})
      end)))
  end).

End MoreManagers.

(** ** Words for the theorems on the known monitors *)

(** The [monitor_data] that [detect_monitors] builds for a monitor. *)
Definition monitor_data_of (monitor : ScreenInfo) : MonitorData :=
  {| md_name := _generate_monitor_name monitor;
     md_width := si_width monitor;
     md_height := si_height monitor;
     md_x := si_x monitor;
     md_y := si_y monitor;
     md_is_primary := si_is_primary monitor |}.

(** Whether [add_monitor] takes a known monitor for the detected one. *)
Definition matches_known (fingerprints : Fingerprints) (existing_monitor : KnownMonitor)
  : bool :=
  match km_fingerprints existing_monitor with
  | Some existing_fps => fst (fingerprints_match fingerprints existing_fps false)
  | None => false
  end.

(** The monitor that [add_monitor] leaves in the place of a matching one. *)
Definition refreshed (fingerprints : Fingerprints) (monitor_data : MonitorData)
  (existing_monitor : KnownMonitor) : KnownMonitor :=
  {| km_id := km_id existing_monitor;
     km_name := md_name monitor_data;
     km_width := km_width existing_monitor;
     km_height := km_height existing_monitor;
     km_x := md_x monitor_data;
     km_y := md_y monitor_data;
     km_is_primary := md_is_primary monitor_data;
     km_fingerprints := Some fingerprints;
     km_first_detected := km_first_detected existing_monitor |}.

(** The ids of the known monitors, in order. *)
Definition known_ids {W : Type} (s : State W) : list string :=
  map km_id (known_monitors s).

(** What [add_monitor] keeps of a known monitor for good. *)
Definition same_monitor (m m' : KnownMonitor) : Prop :=
  km_id m' = km_id m
  /\ km_width m' = km_width m
  /\ km_height m' = km_height m
  /\ km_first_detected m' = km_first_detected m.

(** A point lies on a monitor. *)
Definition contains_point (monitor : ScreenInfo) (x y : Z) : Prop :=
  si_x monitor <= x < si_x monitor + si_width monitor
  /\ si_y monitor <= y < si_y monitor + si_height monitor.

(** ** A reference desktop

    A small deterministic host on which the engine can be run: windows with
    a style word, a show command and a rectangle; applications that answer
    the F11 key by dropping or restoring their caption and frame; windows
    of elevated processes, on which [ShowWindow] and [MoveWindow] are
    refused. *)

Module Desk.

Record window : Type := {
  w_hwnd : Z;
  w_title : string;
  w_class : string;
  w_style : Z;
  w_showCmd : Z;
  w_rect : Z * Z * Z * Z;
  w_visible : bool;
  w_iconic : bool;
  w_pid : Z;
  w_exe : option string;
  w_honours_f11 : bool;
  w_elevated : bool;
}.

Record t : Type := {
  windows : list window;
  monitors : list ScreenInfo;
  foreground : Z;
  files : list (string * res Layout);
  clock : Z;
  drawn : Z;
}.

Fixpoint find (h : Z) (ws : list window) : option window :=
  match ws with
  | [] => None
  | w :: rest => if w_hwnd w =? h then Some w else find h rest
  end.

Fixpoint find_pid (p : Z) (ws : list window) : option window :=
  match ws with
  | [] => None
  | w :: rest => if w_pid w =? p then Some w else find_pid p rest
  end.

Definition update (h : Z) (f : window -> window) (ws : list window) : list window :=
  map (fun w => if w_hwnd w =? h then f w else w) ws.

Definition with_windows (ws : list window) (d : t) : t :=
  {| windows := ws; monitors := monitors d; foreground := foreground d;
     files := files d; clock := clock d; drawn := drawn d |}.

Definition lookup {A : Type} (d : t) (h : Z) (f : window -> A) : res A :=
  match find h (windows d) with
  | Some w => Ret (f w)
  | None => Raise (OSError "Invalid window handle.")
  end.

Definition set_showCmd (c : Z) (w : window) : window :=
  {| w_hwnd := w_hwnd w; w_title := w_title w; w_class := w_class w;
     w_style := w_style w; w_showCmd := c; w_rect := w_rect w;
     w_visible := w_visible w; w_iconic := w_iconic w; w_pid := w_pid w;
     w_exe := w_exe w; w_honours_f11 := w_honours_f11 w; w_elevated := w_elevated w |}.

Definition set_rect (r : Z * Z * Z * Z) (w : window) : window :=
  {| w_hwnd := w_hwnd w; w_title := w_title w; w_class := w_class w;
     w_style := w_style w; w_showCmd := w_showCmd w; w_rect := r;
     w_visible := w_visible w; w_iconic := w_iconic w; w_pid := w_pid w;
     w_exe := w_exe w; w_honours_f11 := w_honours_f11 w; w_elevated := w_elevated w |}.

Definition set_style (st : Z) (w : window) : window :=
  {| w_hwnd := w_hwnd w; w_title := w_title w; w_class := w_class w;
     w_style := st; w_showCmd := w_showCmd w; w_rect := w_rect w;
     w_visible := w_visible w; w_iconic := w_iconic w; w_pid := w_pid w;
     w_exe := w_exe w; w_honours_f11 := w_honours_f11 w; w_elevated := w_elevated w |}.

(** What an application does with its style word on F11. *)
Definition toggle_chrome (w : window) : window :=
  if w_honours_f11 w
  then if fullscreen_of_style (w_style w)
       then set_style (Z.lor (w_style w) (Z.lor WS_CAPTION WS_THICKFRAME)) w
       else set_style (Z.land (w_style w) (Z.lnot (Z.lor WS_CAPTION WS_THICKFRAME))) w
  else w.

Definition guarded (h : Z) (f : window -> window) (d : t) : res unit * t :=
  match find h (windows d) with
  | None => (Raise (OSError "Invalid window handle."), d)
  | Some w =>
      if w_elevated w then (Raise (OSError "Access is denied."), d)
      else (Ret tt, with_windows (update h f (windows d)) d)
  end.

Definition show_window (h cmd : Z) (d : t) : res unit * t :=
  guarded h (set_showCmd (if cmd =? SW_MAXIMIZE then SW_SHOWMAXIMIZED else 1)) d.

Definition move_window (h x y width height : Z) (d : t) : res unit * t :=
  guarded h (set_rect (x, y, x + width, y + height)) d.

Definition set_foreground (h : Z) (d : t) : res unit * t :=
  match find h (windows d) with
  | None => (Raise (OSError "Invalid window handle."), d)
  | Some _ =>
      (Ret tt, {| windows := windows d; monitors := monitors d; foreground := h;
                  files := files d; clock := clock d; drawn := drawn d |})
  end.

Definition send_input (vk flags : Z) (d : t) : t :=
  if (vk =? VK_F11) && (flags =? 0)
  then with_windows (update (foreground d) toggle_chrome (windows d)) d
  else d.

Definition tick (ms : Z) (d : t) : t :=
  {| windows := windows d; monitors := monitors d; foreground := foreground d;
     files := files d; clock := clock d + ms; drawn := drawn d |}.

Fixpoint basename (s : string) : string :=
  match s with
  | EmptyString => EmptyString
  | String c rest =>
      if PyStr.contains "\" rest then basename rest
      else if Ascii.eqb c "\" then rest else s
  end.

Definition draw_uuid (d : t) : string * t :=
  (PyStr.of_Z (10000000 + drawn d) +:+ "000000000000000000000000",
   {| windows := windows d; monitors := monitors d; foreground := foreground d;
      files := files d; clock := clock d; drawn := drawn d + 1 |}).

#[global] Instance host : Host t := {|
  GetWindowText d h := match find h (windows d) with Some w => w_title w | None => "" end;
  GetClassName d h := lookup d h w_class;
  GetWindowLong d h index :=
    if index =? GWL_STYLE then lookup d h w_style
    else Raise (OSError "Invalid index.");
  GetWindowPlacement_showCmd d h := lookup d h w_showCmd;
  GetWindowRect d h := lookup d h w_rect;
  GetForegroundWindow d := Ret (foreground d);
  EnumWindows d := Ret (map w_hwnd (windows d));
  IsWindow d h := Ret (match find h (windows d) with Some _ => true | None => false end);
  IsWindowVisible d h := lookup d h w_visible;
  IsIconic d h := lookup d h w_iconic;
  GetWindowThreadProcessId d h := lookup d h w_pid;
  process_exe d p := match find_pid p (windows d) with Some w => w_exe w | None => None end;
  path_name := basename;
  ShowWindow := show_window;
  MoveWindow := move_window;
  SetForegroundWindow := set_foreground;
  SendInput := send_input;
  sleep := tick;
  get_monitors d := Ret (monitors d);
  uuid4_hex := draw_uuid;
  now_isoformat d := ("2026-01-01T00:00:00+" +:+ PyStr.of_Z (clock d), d);
  layout_path d file_name := "layouts\" +:+ file_name;
  layout_file d file_name := dict_get file_name (files d);
|}.

End Desk.

(** The reference desktop keeps what is written to its layouts directory. *)
#[global] Instance desk_writer : LayoutWriter Desk.t := {|
  write_layout file_name document d :=
    (Ret tt,
     {| Desk.windows := Desk.windows d; Desk.monitors := Desk.monitors d;
        Desk.foreground := Desk.foreground d;
        Desk.files := dict_set file_name (Ret (as_layout document)) (Desk.files d);
        Desk.clock := Desk.clock d; Desk.drawn := Desk.drawn d |});
|}.

(** ** Scenarios on the reference desktop *)

Module Scenario.

Definition display1 : ScreenInfo :=
  {| si_name := Some "\\.\DISPLAY1"; si_x := 0; si_y := 0;
     si_width := 1080; si_height := 1920; si_is_primary := true |}.

Definition display2 : ScreenInfo :=
  {| si_name := Some "\\.\DISPLAY2"; si_x := 1080; si_y := 0;
     si_width := 1920; si_height := 1080; si_is_primary := false |}.

Definition screen (n : Z) (o : string) : ScreenReq :=
  {| display_number := Some n; orientation := Some o |}.

Definition stored_rule (id type value : string) (display : Z) (maximize fullscreen : bool)
  : LayoutRule :=
  {| lr_rule_id := Some id; lr_match_type := Some type; lr_match_value := Some value;
     lr_target_display := Some display;
     lr_fullscreen := Some fullscreen; lr_maximize := Some maximize |}.

Definition layout_of (name : string) (scrs : list ScreenReq) (rules : list LayoutRule)
  : Layout :=
  {| lay_name := Some name;
     lay_screen_requirements :=
       Some {| total_screens := Some (len scrs); screens := Some scrs |};
     lay_rules := Some rules |}.

(** A layout that asks for five screens and describes display 1 twice, with
    a rule that has no [rule_id]. *)
Definition rule_without_id : LayoutRule :=
  {| lr_rule_id := None; lr_match_type := Some "exe"; lr_match_value := Some "chrome.exe";
     lr_target_display := Some 1; lr_fullscreen := None; lr_maximize := None |}.

Definition five_screens : Layout :=
  {| lay_name := Some "Five";
     lay_screen_requirements :=
       Some {| total_screens := Some 5;
               screens := Some [screen 1 "horizontal"; screen 1 "horizontal"] |};
     lay_rules := Some [rule_without_id] |}.

(** The layout of the end-to-end scenario: Chrome maximized on display 2. *)
Definition coding : Layout :=
  layout_of "Coding" [screen 1 "vertical"; screen 2 "horizontal"]
            [stored_rule "rule_chrome" "exe" "chrome.exe" 2 true false].

Definition app (h : Z) (title exe : string) (rect : Z * Z * Z * Z) : Desk.window :=
  {| Desk.w_hwnd := h; Desk.w_title := title; Desk.w_class := "Chrome_WidgetWin_1";
     Desk.w_style := 349110272; Desk.w_showCmd := 1; Desk.w_rect := rect;
     Desk.w_visible := true; Desk.w_iconic := false; Desk.w_pid := 4000 + h;
     Desk.w_exe := Some exe; Desk.w_honours_f11 := true; Desk.w_elevated := false |}.

Definition chrome : Desk.window :=
  app 100 "Google Chrome" "C:\Program Files\Google\Chrome\Application\chrome.exe"
      (100, 100, 900, 700).

Definition desk (ws : list Desk.window) (ms : list ScreenInfo)
  (fs : list (string * res Layout)) : Desk.t :=
  {| Desk.windows := ws; Desk.monitors := ms; Desk.foreground := 0;
     Desk.files := fs; Desk.clock := 0; Desk.drawn := 0 |}.

Definition boot (d : Desk.t) : State Desk.t :=
  {| world := d; known_monitors := []; connected_monitors := [];
     active_layout := None; layout_manager := true |}.

Definition two_screens : State Desk.t :=
  boot (desk [chrome] [display1; display2] [("coding.json", Ret coding)]).

(** A window whose process could not be resolved. *)
Definition nameless : Window :=
  {| hwnd := 7; title := "Program Manager"; app_name := None;
     class_name := Some "Progman"; pid := None; process_path := None;
     exe_name := None; is_system := true; is_uwp := false; is_minimized := false;
     position := (0, 0, 3000, 1920); is_maximized := false; is_fullscreen := false;
     monitor_id := Some "monitor_10000000" |}.

(** The no-break space U+00A0 and the ideographic space U+3000, which
    [str.strip] takes off as it does a space. *)
Definition no_break_space : string :=
  String (ascii_of_N 194) (String (ascii_of_N 160) "").

Definition ideographic_space : string :=
  String (ascii_of_N 227) (String (ascii_of_N 128) (String (ascii_of_N 128) "")).

Definition screen_entry (n : Z) (o id : string) (w h : Z) : ScreenConfig :=
  {| sc_display_number := n; sc_orientation := o; sc_monitor_id := id;
     sc_width := w; sc_height := h; sc_name := "\\.\DISPLAY" +:+ PyStr.of_Z n |}.

(** Two entries that carry the same display number. *)
Definition twins : list ScreenConfig :=
  [screen_entry 1 "vertical" "monitor_a" 1080 1920;
   screen_entry 1 "horizontal" "monitor_b" 1920 1080].

(** The end-to-end scenario once the monitors are detected and the layout is
    activated, and its layout slot. *)
Definition activated_two_screens : State Desk.t :=
  after (activate_layout "coding") (after detect_monitors two_screens).

Definition no_layout : ActiveLayout :=
  {| al_name := ""; al_file_name := ""; al_data := layout_of "" [] [];
     al_display_map := ∅; al_activated_at := "" |}.

Definition coding_slot : ActiveLayout :=
  default no_layout (active_layout activated_two_screens).

(** A machine whose only monitor is reported as DISPLAY0, and a layout
    written for it. *)
Definition display0 : ScreenInfo :=
  {| si_name := Some "\\.\DISPLAY0"; si_x := 0; si_y := 0;
     si_width := 1920; si_height := 1080; si_is_primary := true |}.

Definition zero : Layout :=
  layout_of "Zero" [screen 0 "horizontal"]
            [stored_rule "rule_chrome" "exe" "chrome.exe" 0 true false].

Definition activated_display0 : State Desk.t :=
  after (activate_layout "zero")
        (after detect_monitors (boot (desk [chrome] [display0] [("zero.json", Ret zero)]))).

(** The end-to-end scenario after one pass of [apply_rules]: Chrome sits
    maximized on display 2. *)
Definition settled : State Desk.t := after apply_rules activated_two_screens.

(** A layout with two rules that both match a Chrome window: by
    executable to display 2 maximized, by title to display 1 as a normal
    window. *)
Definition overlap : Layout :=
  layout_of "Overlap" [screen 1 "vertical"; screen 2 "horizontal"]
            [stored_rule "rule_exe" "exe" "chrome.exe" 2 true false;
             stored_rule "rule_title" "window_title" "google" 1 false false].

Definition activated_overlap : State Desk.t :=
  after (activate_layout "overlap")
        (after detect_monitors
               (boot (desk [chrome] [display1; display2] [("overlap.json", Ret overlap)]))).

Definition rule_exe : Rule :=
  {| rule_id := "rule_exe"; match_type := "exe"; match_value := "chrome.exe";
     target_monitor_id := "monitor_10000001"; fullscreen := false; maximize := true |}.

Definition rule_title : Rule :=
  {| rule_id := "rule_title"; match_type := "window_title"; match_value := "google";
     target_monitor_id := "monitor_10000000"; fullscreen := false; maximize := false |}.

(** Chrome as [get_all_windows] describes it before the pass. *)
Definition chrome_window : Window :=
  {| hwnd := 100; title := "Google Chrome"; app_name := Some "chrome.exe";
     class_name := Some "Chrome_WidgetWin_1"; pid := Some 4100;
     process_path := Some "C:\Program Files\Google\Chrome\Application\chrome.exe";
     exe_name := Some "chrome.exe"; is_system := false; is_uwp := false;
     is_minimized := false; position := (100, 100, 800, 600);
     is_maximized := false; is_fullscreen := false;
     monitor_id := Some "monitor_10000000" |}.

(** A layout whose rule is for Notepad on display 2, activated; then
    display 2 is unplugged, and no Notepad window is open. *)
Definition notes : Layout :=
  layout_of "Notes" [screen 1 "vertical"; screen 2 "horizontal"]
            [stored_rule "rule_notepad" "exe" "notepad.exe" 2 true false].

Definition unplug (d : Desk.t) : Desk.t :=
  {| Desk.windows := Desk.windows d; Desk.monitors := [display1];
     Desk.foreground := Desk.foreground d; Desk.files := Desk.files d;
     Desk.clock := Desk.clock d; Desk.drawn := Desk.drawn d |}.

Definition unplugged_notes : State Desk.t :=
  run_op (Environment unplug)
         (after (activate_layout "notes")
                (after detect_monitors
                       (boot (desk [chrome] [display1; display2]
                                   [("notes.json", Ret notes)])))).

Definition rule_notepad : Rule :=
  {| rule_id := "rule_notepad"; match_type := "exe"; match_value := "notepad.exe";
     target_monitor_id := "monitor_10000001"; fullscreen := false; maximize := true |}.

(** Two Chrome windows, the first of an elevated process. *)
Definition elevated_chrome : Desk.window :=
  {| Desk.w_hwnd := 90; Desk.w_title := "Chrome (Administrator)";
     Desk.w_class := "Chrome_WidgetWin_1"; Desk.w_style := 349110272;
     Desk.w_showCmd := 1; Desk.w_rect := (50, 50, 850, 650);
     Desk.w_visible := true; Desk.w_iconic := false; Desk.w_pid := 4090;
     Desk.w_exe := Some "C:\Program Files\Google\Chrome\Application\chrome.exe";
     Desk.w_honours_f11 := true; Desk.w_elevated := true |}.

Definition activated_with_elevated : State Desk.t :=
  after (activate_layout "coding")
        (after detect_monitors
               (boot (desk [elevated_chrome; chrome] [display1; display2]
                           [("coding.json", Ret coding)]))).

(** Two monitors of one resolution on two connectors. *)
Definition twin_left : ScreenInfo :=
  {| si_name := Some "\\.\DISPLAY1"; si_x := 0; si_y := 0;
     si_width := 1920; si_height := 1080; si_is_primary := true |}.

Definition twin_right : ScreenInfo :=
  {| si_name := Some "\\.\DISPLAY2"; si_x := 1920; si_y := 0;
     si_width := 1920; si_height := 1080; si_is_primary := false |}.

Definition twin_displays : State Desk.t := boot (desk [] [twin_left; twin_right] []).

(** The end-to-end scenario once the monitors are detected. *)
Definition detected_two_screens : State Desk.t := after detect_monitors two_screens.

(** A configuration that knows two monitors of one resolution, on
    DISPLAY1 and on DISPLAY2, as a configuration file brought from another
    machine may. *)
Definition known_twin (id connector : string) : KnownMonitor :=
  {| km_id := id;
     km_name := "\\.\" +:+ connector +:+ " (1920×1080)";
     km_width := 1920; km_height := 1080; km_x := 0; km_y := 0;
     km_is_primary := false;
     km_fingerprints := Some {| primary := connector +:+ "_1920x1080";
                                secondary := "1920x1080" |};
     km_first_detected := "2025-12-24T00:00:00" |}.

Definition two_known_twins : State Desk.t :=
  {| world := desk [] [twin_left; twin_right] [];
     known_monitors := [known_twin "monitor_a" "DISPLAY1"; known_twin "monitor_c" "DISPLAY2"];
     connected_monitors := [];
     active_layout := None;
     layout_manager := true |}.

End Scenario.

(** * Properties *)

(** ** Fingerprints *)

Lemma string_eqb_refl (s : string) : String.eqb s s = true.
Proof. apply String.eqb_eq. reflexivity. Qed.

(** C8. [fingerprints_match] compares the primary components first and
    falls back to the secondary ones only when not strict: equal primaries
    give [(True, "connector_and_resolution_match")]; otherwise strict gives
    [(False, "primary_mismatch_strict")]; otherwise equal secondaries give
    [(True, "resolution_match")]; otherwise [(False, "no_match")]. A
    fingerprint matches itself through the primary branch under either
    setting of [strict]. *)
Theorem fingerprints_match_primary_then_secondary (fp1 fp2 : Fingerprints) (strict : bool) :
  (primary fp1 = primary fp2 ->
   fingerprints_match fp1 fp2 strict = (true, "connector_and_resolution_match"))
  /\ (primary fp1 <> primary fp2 -> strict = true ->
      fingerprints_match fp1 fp2 strict = (false, "primary_mismatch_strict"))
  /\ (primary fp1 <> primary fp2 -> strict = false -> secondary fp1 = secondary fp2 ->
      fingerprints_match fp1 fp2 strict = (true, "resolution_match"))
  /\ (primary fp1 <> primary fp2 -> strict = false -> secondary fp1 <> secondary fp2 ->
      fingerprints_match fp1 fp2 strict = (false, "no_match"))
  /\ fingerprints_match fp1 fp1 strict = (true, "connector_and_resolution_match").
Proof.
  unfold fingerprints_match.
  repeat split.
  - intros Hp. rewrite Hp, string_eqb_refl. reflexivity.
  - intros Hp Hs. apply String.eqb_neq in Hp. rewrite Hp, Hs. reflexivity.
  - intros Hp Hs Hsec. apply String.eqb_neq in Hp.
    rewrite Hp, Hs, Hsec, string_eqb_refl. reflexivity.
  - intros Hp Hs Hsec. apply String.eqb_neq in Hp. apply String.eqb_neq in Hsec.
    rewrite Hp, Hs, Hsec. reflexivity.
  - rewrite string_eqb_refl. reflexivity.
Qed.

(** ** The fullscreen test *)

Lemma testbit_WS_CAPTION (n : Z) :
  Z.testbit WS_CAPTION n = (n =? 22) || (n =? 23).
Proof.
  change WS_CAPTION with (Z.lor (2 ^ 22) (2 ^ 23)).
  rewrite Z.lor_spec, !Z.pow2_bits_eqb by lia.
  rewrite (Z.eqb_sym 22), (Z.eqb_sym 23). reflexivity.
Qed.

Lemma testbit_WS_THICKFRAME (n : Z) : Z.testbit WS_THICKFRAME n = (n =? 18).
Proof.
  change WS_THICKFRAME with (2 ^ 18).
  rewrite Z.pow2_bits_eqb by lia. apply Z.eqb_sym.
Qed.

Lemma land_WS_CAPTION_zero (style : Z) :
  Z.land style WS_CAPTION = 0
  <-> Z.testbit style 22 = false /\ Z.testbit style 23 = false.
Proof.
  split.
  - intros H. split.
    + assert (E : Z.testbit (Z.land style WS_CAPTION) 22 = false)
        by (rewrite H; apply Z.bits_0).
      rewrite Z.land_spec, testbit_WS_CAPTION in E. simpl in E.
      rewrite andb_true_r in E. exact E.
    + assert (E : Z.testbit (Z.land style WS_CAPTION) 23 = false)
        by (rewrite H; apply Z.bits_0).
      rewrite Z.land_spec, testbit_WS_CAPTION in E. simpl in E.
      rewrite andb_true_r in E. exact E.
  - intros [H22 H23]. apply Z.bits_inj'. intros n _.
    rewrite Z.land_spec, testbit_WS_CAPTION, Z.bits_0.
    destruct (Z.eqb_spec n 22) as [->|]; [rewrite H22; reflexivity|].
    destruct (Z.eqb_spec n 23) as [->|]; [rewrite H23; reflexivity|].
    apply andb_false_r.
Qed.

Lemma land_WS_THICKFRAME_zero (style : Z) :
  Z.land style WS_THICKFRAME = 0 <-> Z.testbit style 18 = false.
Proof.
  split.
  - intros H.
    assert (E : Z.testbit (Z.land style WS_THICKFRAME) 18 = false)
      by (rewrite H; apply Z.bits_0).
    rewrite Z.land_spec, testbit_WS_THICKFRAME in E. simpl in E.
    rewrite andb_true_r in E. exact E.
  - intros H18. apply Z.bits_inj'. intros n _.
    rewrite Z.land_spec, testbit_WS_THICKFRAME, Z.bits_0.
    destruct (Z.eqb_spec n 18) as [->|]; [rewrite H18; reflexivity|].
    apply andb_false_r.
Qed.

(** The conversion of a negative style word to unsigned keeps the low 32
    bits. *)
Lemma testbit_unsigned (style n : Z) :
  0 <= n < 32 ->
  Z.testbit (if style <? 0 then Z.land style 4294967295 else style) n = Z.testbit style n.
Proof.
  intros Hn. destruct (style <? 0); [|reflexivity].
  change 4294967295 with (Z.ones 32).
  rewrite Z.land_spec, Z.ones_spec_low by lia. apply andb_true_r.
Qed.

(** The verdict in terms of the three bits of the style word as read. *)
Lemma fullscreen_of_style_bits (style : Z) :
  fullscreen_of_style style
  = negb (Z.testbit style 22 || Z.testbit style 23) && negb (Z.testbit style 18).
Proof.
  unfold fullscreen_of_style, bool_of_Z.
  set (u := if style <? 0 then Z.land style 4294967295 else style).
  assert (H22 : Z.testbit u 22 = Z.testbit style 22) by (apply testbit_unsigned; lia).
  assert (H23 : Z.testbit u 23 = Z.testbit style 23) by (apply testbit_unsigned; lia).
  assert (H18 : Z.testbit u 18 = Z.testbit style 18) by (apply testbit_unsigned; lia).
  rewrite <- H22, <- H23, <- H18.
  rewrite !negb_involutive.
  f_equal.
  - destruct (Z.eqb_spec (Z.land u WS_CAPTION) 0) as [E|E].
    + apply land_WS_CAPTION_zero in E. destruct E as [-> ->]. reflexivity.
    + destruct (Z.testbit u 22) eqn:E22; [reflexivity|].
      destruct (Z.testbit u 23) eqn:E23; [reflexivity|].
      exfalso. apply E. apply land_WS_CAPTION_zero. auto.
  - destruct (Z.eqb_spec (Z.land u WS_THICKFRAME) 0) as [E|E].
    + apply land_WS_THICKFRAME_zero in E. rewrite E. reflexivity.
    + destruct (Z.testbit u 18) eqn:E18; [reflexivity|].
      exfalso. apply E. apply land_WS_THICKFRAME_zero. auto.
Qed.

Section Fullscreen.

Context {W : Type} {host : Host W}.

(** C9. When the style word of a window can be read, [is_window_fullscreen]
    returns [True] exactly when the word has neither bit of [WS_CAPTION]
    nor the bit of [WS_THICKFRAME]; it changes nothing; and two style words
    that agree on these bits (18, 22, 23) get the same verdict, whatever
    their other bits ([WS_POPUP], the minimize and maximize boxes) are. *)
Theorem is_window_fullscreen_caption_and_frame (s : State W) (hwnd style : Z) :
  GetWindowLong (world s) hwnd GWL_STYLE = Ret style ->
  (exists verdict : bool,
      is_window_fullscreen hwnd s = (Ret verdict, s)
      /\ (verdict = true
          <-> Z.land style WS_CAPTION = 0 /\ Z.land style WS_THICKFRAME = 0))
  /\ (forall other : Z,
         Z.testbit other 18 = Z.testbit style 18 ->
         Z.testbit other 22 = Z.testbit style 22 ->
         Z.testbit other 23 = Z.testbit style 23 ->
         fullscreen_of_style other = fullscreen_of_style style)
  /\ fullscreen_of_style (Z.lxor style WS_POPUP) = fullscreen_of_style style
  /\ fullscreen_of_style (Z.lxor style WS_MINIMIZEBOX) = fullscreen_of_style style
  /\ fullscreen_of_style (Z.lxor style WS_MAXIMIZEBOX) = fullscreen_of_style style.
Proof.
  intros Hread.
  assert (Hagree : forall other : Z,
             Z.testbit other 18 = Z.testbit style 18 ->
             Z.testbit other 22 = Z.testbit style 22 ->
             Z.testbit other 23 = Z.testbit style 23 ->
             fullscreen_of_style other = fullscreen_of_style style).
  { intros other H18 H22 H23. rewrite !fullscreen_of_style_bits, H18, H22, H23.
    reflexivity. }
  split; [|split; [exact Hagree|]].
  - exists (fullscreen_of_style style). split.
    + unfold is_window_fullscreen, try_except, bind, call, ret. rewrite Hread.
      reflexivity.
    + rewrite fullscreen_of_style_bits, land_WS_CAPTION_zero, land_WS_THICKFRAME_zero.
      destruct (Z.testbit style 22), (Z.testbit style 23), (Z.testbit style 18);
        simpl; intuition congruence.
  - repeat split; apply Hagree; rewrite Z.lxor_spec;
      match goal with
      | |- xorb _ (Z.testbit ?c ?n) = _ =>
          replace (Z.testbit c n) with false by (vm_compute; reflexivity)
      end; apply xorb_false_r.
Qed.

End Fullscreen.

(** A run of C9 on the reference desktop: the style word [0x14CF0000] of a
    normal window. *)
Lemma is_window_fullscreen_witness :
  @GetWindowLong _ Desk.host (world Scenario.two_screens) 100 GWL_STYLE = Ret 349110272
  /\ is_window_fullscreen 100 Scenario.two_screens = (Ret false, Scenario.two_screens).
Proof.
  assert (Hread : @GetWindowLong _ Desk.host (world Scenario.two_screens) 100 GWL_STYLE
                  = Ret 349110272) by reflexivity.
  split; [exact Hread|].
  destruct (is_window_fullscreen_caption_and_frame
              Scenario.two_screens 100 349110272 Hread) as [[verdict [Hrun Hiff]] _].
  rewrite Hrun. f_equal. f_equal.
  destruct verdict; [|reflexivity].
  destruct Hiff as [Hiff _]. destruct (Hiff eq_refl) as [Hcap _]. discriminate Hcap.
Defined.

(** ** Python strings: stripping and lowering *)

Lemma lower_empty (s : string) : PyStr.lower s = "" <-> s = "".
Proof. destruct s; simpl; split; intros H; try reflexivity; discriminate H. Qed.

Lemma endswith_nonempty (p s : string) :
  p <> "" -> PyStr.endswith p s = true -> s <> "".
Proof.
  intros Hp H E. subst s. simpl in H. apply String.eqb_eq in H. contradiction.
Qed.

Lemma append_nonempty (s t : string) : t <> "" -> s +:+ t <> "".
Proof. intros Ht. destruct s; simpl; [exact Ht | discriminate]. Qed.

Lemma truthy_false (s : string) : PyStr.truthy s = false <-> s = "".
Proof.
  unfold PyStr.truthy. destruct (String.eqb_spec s "") as [E|E]; simpl.
  - split; intros _; [exact E | reflexivity].
  - split; intros H; [discriminate H | contradiction].
Qed.

(** [lstrip] takes one whitespace character off at a time. *)
Lemma lstrip_step (s : string) :
  PyStr.lstrip s = match PyStr.skip_space s with
                   | Some rest => PyStr.lstrip rest
                   | None => s
                   end.
Proof.
  destruct s as [|c1 [|c2 [|c3 t3]]]; simpl; try reflexivity.
  - destruct (PyStr.is_space c1); reflexivity.
  - destruct (PyStr.is_space c1); [reflexivity|].
    destruct (PyStr.is_space2 c1 c2); reflexivity.
  - destruct (PyStr.is_space c1); [reflexivity|].
    destruct (PyStr.is_space2 c1 c2); [reflexivity|].
    destruct (PyStr.is_space3 c1 c2 c3); reflexivity.
Qed.

Lemma skip_space_shorter (s rest : string) :
  PyStr.skip_space s = Some rest -> (String.length rest < String.length s)%nat.
Proof.
  destruct s as [|c1 [|c2 [|c3 t3]]]; simpl; try discriminate.
  - destruct (PyStr.is_space c1); [|discriminate]. intros [= <-]. simpl. lia.
  - destruct (PyStr.is_space c1); [intros [= <-]; simpl; lia|].
    destruct (PyStr.is_space2 c1 c2); [|discriminate]. intros [= <-]. simpl. lia.
  - destruct (PyStr.is_space c1); [intros [= <-]; simpl; lia|].
    destruct (PyStr.is_space2 c1 c2); [intros [= <-]; simpl; lia|].
    destruct (PyStr.is_space3 c1 c2 c3); [|discriminate]. intros [= <-]. simpl. lia.
Qed.

(** Induction along the whitespace characters at the head of a string. *)
Lemma lstrip_ind (P : string -> Prop) :
  (forall s, PyStr.skip_space s = None -> P s) ->
  (forall s rest, PyStr.skip_space s = Some rest -> P rest -> P s) ->
  forall s, P s.
Proof.
  intros Hstop Hstep s.
  remember (String.length s) as n eqn:Hn. revert s Hn.
  induction n as [n IH] using lt_wf_ind. intros s ->.
  destruct (PyStr.skip_space s) as [rest|] eqn:E.
  - apply (Hstep s rest E). apply (IH (String.length rest)); [|reflexivity].
    apply skip_space_shorter, E.
  - apply Hstop, E.
Qed.

Lemma skip_space_lstrip (s : string) : PyStr.skip_space (PyStr.lstrip s) = None.
Proof.
  induction s as [s E | s rest E IH] using lstrip_ind; rewrite lstrip_step, E; assumption.
Qed.

Lemma skip_space_app (s rest t : string) :
  PyStr.skip_space s = Some rest -> PyStr.skip_space (s +:+ t) = Some (rest +:+ t).
Proof.
  destruct s as [|c1 [|c2 [|c3 t3]]]; simpl; try discriminate.
  - destruct (PyStr.is_space c1); [|discriminate]. intros [= <-]. reflexivity.
  - destruct (PyStr.is_space c1); [intros [= <-]; reflexivity|].
    destruct (PyStr.is_space2 c1 c2); [|discriminate]. intros [= <-]. reflexivity.
  - destruct (PyStr.is_space c1); [intros [= <-]; reflexivity|].
    destruct (PyStr.is_space2 c1 c2); [intros [= <-]; reflexivity|].
    destruct (PyStr.is_space3 c1 c2 c3); [|discriminate]. intros [= <-]. reflexivity.
Qed.

(** A string of whitespace before [t] is stripped with the whitespace at
    the head of [t]. *)
Lemma lstrip_app_blank (s t : string) :
  PyStr.is_blank s = true -> PyStr.lstrip (s +:+ t) = PyStr.lstrip t.
Proof.
  unfold PyStr.is_blank. rewrite String.eqb_eq.
  induction s as [s E | s rest E IH] using lstrip_ind; rewrite lstrip_step, E.
  - intros ->. reflexivity.
  - intros H. rewrite (lstrip_step (s +:+ t)), (skip_space_app _ _ _ E). apply IH, H.
Qed.

Lemma is_blank_app (s t : string) :
  PyStr.is_blank s = true -> PyStr.is_blank t = true -> PyStr.is_blank (s +:+ t) = true.
Proof.
  intros Hs Ht. unfold PyStr.is_blank. rewrite (lstrip_app_blank _ _ Hs). exact Ht.
Qed.

(** What [rstrip] takes off is whitespace. *)
Lemma rstrip_split (s : string) :
  exists w, s = PyStr.rstrip s +:+ w /\ PyStr.is_blank w = true.
Proof.
  induction s as [|c t (w & Hw & Hblank)].
  - exists "". split; reflexivity.
  - cbn [PyStr.rstrip]. destruct (PyStr.is_blank (String c t)) eqn:E.
    + exists (String c t). split; [reflexivity | exact E].
    + exists w. split; [|exact Hblank]. rewrite Hw at 1. reflexivity.
Qed.

Lemma rstrip_rstrip (s : string) : PyStr.rstrip (PyStr.rstrip s) = PyStr.rstrip s.
Proof.
  induction s as [|c t IH]; [reflexivity|].
  cbn [PyStr.rstrip]. destruct (PyStr.is_blank (String c t)) eqn:E; [reflexivity|].
  cbn [PyStr.rstrip]. rewrite IH.
  destruct (PyStr.is_blank (String c (PyStr.rstrip t))) eqn:E'; [|reflexivity].
  destruct (rstrip_split t) as (w & Hw & Hblank).
  pose proof (is_blank_app _ _ E' Hblank) as H.
  change (String c (PyStr.rstrip t) +:+ w) with (String c (PyStr.rstrip t +:+ w)) in H.
  rewrite <- Hw in H. congruence.
Qed.

Lemma lstrip_rstrip (s : string) :
  PyStr.skip_space s = None -> PyStr.lstrip (PyStr.rstrip s) = PyStr.rstrip s.
Proof.
  intros Hs. rewrite lstrip_step.
  destruct (PyStr.skip_space (PyStr.rstrip s)) as [rest|] eqn:E; [|reflexivity].
  destruct (rstrip_split s) as (w & Hw & _).
  apply (skip_space_app _ _ w) in E. rewrite <- Hw in E. congruence.
Qed.

(** [strip] is idempotent. *)
Lemma strip_strip (s : string) : PyStr.strip (PyStr.strip s) = PyStr.strip s.
Proof.
  unfold PyStr.strip.
  rewrite (lstrip_rstrip _ (skip_space_lstrip s)). apply rstrip_rstrip.
Qed.

(** A string strips to nothing exactly when it is empty or whitespace
    only. *)
Lemma strip_empty_iff (s : string) : PyStr.strip s = "" <-> PyStr.is_blank s = true.
Proof.
  unfold PyStr.strip, PyStr.is_blank. rewrite String.eqb_eq.
  split; intros H; [|rewrite H; reflexivity].
  destruct (PyStr.lstrip s) as [|c t] eqn:E; [reflexivity|].
  cbn [PyStr.rstrip] in H.
  destruct (PyStr.is_blank (String c t)) eqn:Eb; [|discriminate H].
  unfold PyStr.is_blank in Eb. rewrite String.eqb_eq, <- E in Eb.
  rewrite lstrip_step, skip_space_lstrip in Eb. congruence.
Qed.

(** ** The rule matching predicate *)

Lemma normalize_exe_name_empty (s : string) :
  normalize_exe_name s = "" <-> PyStr.strip s = "".
Proof.
  unfold normalize_exe_name.
  destruct (PyStr.endswith ".exe" (PyStr.lower (PyStr.strip s))) eqn:Eend.
  - apply endswith_nonempty in Eend; [|discriminate].
    split; intros H; [contradiction|].
    rewrite H in Eend. contradiction Eend. reflexivity.
  - destruct (PyStr.truthy (PyStr.lower (PyStr.strip s))) eqn:Et.
    + split; intros H.
      * exfalso. revert H. apply append_nonempty. discriminate.
      * rewrite H in Et. discriminate Et.
    + apply truthy_false in Et. rewrite Et. rewrite lower_empty in Et.
      split; intros _; [exact Et | reflexivity].
Qed.

(** C10. For a rule whose [match_value] is empty or whitespace only, in
    the sense of [str.strip], the whitespace beyond ASCII included:
    [normalize_exe_name] maps the empty string to itself; an "exe" rule
    matches a window exactly when the window's executable name is empty or
    whitespace only too, which for a window whose [app_name] is its
    [exe_name] (every enumerated window) means that [exe_name] is [None]
    (unresolvable) or strips to nothing; a "window_title" or "process_path"
    rule matches no window. *)
Theorem empty_exe_rule_matches_nameless_windows (window : Window) (match_value : string) :
  PyStr.strip match_value = "" ->
  normalize_exe_name "" = ""
  /\ (rule_matches window (Some "exe") (Some match_value) = true
      <-> PyStr.strip (effective_exe_name window) = "")
  /\ (app_name window = exe_name window ->
      (rule_matches window (Some "exe") (Some match_value) = true
       <-> exe_name window = None
           \/ exists e, exe_name window = Some e /\ PyStr.strip e = ""))
  /\ rule_matches window (Some "window_title") (Some match_value) = false
  /\ rule_matches window (Some "process_path") (Some match_value) = false.
Proof.
  intros Hmv.
  assert (Hexe : rule_matches window (Some "exe") (Some match_value) = true
                 <-> PyStr.strip (effective_exe_name window) = "").
  { unfold rule_matches. simpl PyStr.or_empty. rewrite Hmv.
    change (String.eqb "exe" "exe") with true. cbv iota.
    change (normalize_exe_name (PyStr.lower "")) with "".
    rewrite String.eqb_eq, normalize_exe_name_empty, strip_strip. reflexivity. }
  split; [reflexivity|]. split; [exact Hexe|]. split; [|split].
  - intros Happ. rewrite Hexe. unfold effective_exe_name. rewrite Happ.
    destruct (exe_name window) as [e|]; simpl.
    + destruct (PyStr.truthy e) eqn:Et; simpl.
      * split; [intros H; right; exists e; auto|].
        intros [H | (e' & He' & H)]; [discriminate H|]. congruence.
      * apply truthy_false in Et. subst e.
        split; [intros _; right; exists ""; auto | reflexivity].
    + split; [intros _; left; reflexivity | reflexivity].
  - unfold rule_matches. simpl PyStr.or_empty. rewrite Hmv. reflexivity.
  - unfold rule_matches. simpl PyStr.or_empty. rewrite Hmv. reflexivity.
Qed.

(** A window with no resolvable executable, as the desktop's own windows
    are enumerated, and a rule whose value is a space, a no-break space and
    an ideographic space. *)
Lemma empty_exe_rule_witness :
  PyStr.strip (" " +:+ Scenario.no_break_space +:+ Scenario.ideographic_space) = ""
  /\ rule_matches Scenario.nameless (Some "exe")
                  (Some (" " +:+ Scenario.no_break_space +:+ Scenario.ideographic_space))
     = true
  /\ rule_matches Scenario.nameless (Some "window_title")
                  (Some (" " +:+ Scenario.no_break_space +:+ Scenario.ideographic_space))
     = false.
Proof.
  assert (H : PyStr.strip (" " +:+ Scenario.no_break_space +:+ Scenario.ideographic_space)
              = "") by reflexivity.
  destruct (empty_exe_rule_matches_nameless_windows
              Scenario.nameless
              (" " +:+ Scenario.no_break_space +:+ Scenario.ideographic_space) H)
    as (_ & Hexe & _ & Htitle & _).
  split; [exact H|]. split; [|exact Htitle].
  apply Hexe. reflexivity.
Defined.

(** ** Matching the screen requirements *)

Lemma find_display_some (d : Z) (current_config : list ScreenConfig) (c : ScreenConfig) :
  find_display d current_config = Some c -> In c current_config /\ sc_display_number c = d.
Proof.
  induction current_config as [|h t IH]; simpl; [discriminate|].
  destruct (Z.eqb_spec (sc_display_number h) d) as [E|E].
  - intros H. injection H as <-. auto.
  - intros H. destruct (IH H). auto.
Qed.

Lemma first_entry_is_some_entry (current_config : list ScreenConfig) (d : Z) (o : string) :
  first_entry_has current_config d o -> some_entry_has current_config d o.
Proof.
  intros (c & Hfind & Ho). apply find_display_some in Hfind as [Hin Hd].
  exists c. auto.
Qed.

(** When no two entries share a display number, the two readings agree. *)
Lemma some_entry_is_first_entry (current_config : list ScreenConfig) (d : Z) (o : string) :
  NoDup (map sc_display_number current_config) ->
  some_entry_has current_config d o -> first_entry_has current_config d o.
Proof.
  induction current_config as [|h t IH]; intros Hnd (c & Hin & Hd & Ho).
  - destruct Hin.
  - simpl in Hnd. inversion Hnd as [|? ? Hnotin Hnd']; subst.
    unfold first_entry_has. simpl.
    destruct (Z.eqb_spec (sc_display_number h) (sc_display_number c)) as [E|E].
    + destruct Hin as [-> | Hin]; [exists c; auto|].
      exfalso. apply Hnotin. rewrite E. apply list_elem_of_In, in_map. exact Hin.
    + destruct Hin as [-> | Hin]; [contradiction E; reflexivity|].
      apply IH; [exact Hnd'|]. exists c. auto.
Qed.

(** What the loop over the required screens answers. *)
Lemma check_required_screens_spec (current_config : list ScreenConfig)
  (pairs : list (Z * string)) :
  exists (ok : bool) (reason : string),
    check_required_screens current_config
      (map (fun p => {| display_number := Some (fst p); orientation := Some (snd p) |}) pairs)
    = Ret (ok, reason)
    /\ (ok = true <-> forall d o, In (d, o) pairs -> first_entry_has current_config d o)
    /\ (ok = true -> reason = "All requirements met")
    /\ (forall before d o rest,
           pairs = (before ++ (d, o) :: rest)%list ->
           (forall d' o', In (d', o') before -> first_entry_has current_config d' o') ->
           ~ first_entry_has current_config d o ->
           ok = false
           /\ (find_display d current_config = None
               /\ reason = "DISPLAY" +:+ PyStr.of_Z d +:+ " not found (required for layout)"
               \/ exists c, find_display d current_config = Some c
                            /\ reason = "DISPLAY" +:+ PyStr.of_Z d +:+ " is "
                                          +:+ sc_orientation c
                                          +:+ ", but layout needs " +:+ o)).
Proof.
  induction pairs as [|[d o] pairs IH].
  - exists true, "All requirements met". simpl.
    split; [reflexivity|]. split; [|split].
    + split; [intros _ d o [] | reflexivity].
    + reflexivity.
    + intros before d o rest E. destruct before; discriminate E.
  - simpl. destruct (find_display d current_config) as [c|] eqn:Hfind.
    + destruct (String.eqb_spec (sc_orientation c) o) as [Ho|Ho]; simpl.
      * destruct IH as (ok & reason & Hrun & Hiff & Hmet & Hfail).
        exists ok, reason. split; [exact Hrun|]. split; [|split; [exact Hmet|]].
        -- rewrite Hiff. split.
           ++ intros H d' o' [E|Hin]; [|auto].
              injection E as <- <-. exists c. auto.
           ++ intros H d' o' Hin. apply H. right. exact Hin.
        -- intros before d' o' rest E Hbefore Hnot.
           destruct before as [|b before].
           ++ simpl in E. injection E as <- <- _. exfalso. apply Hnot. exists c. auto.
           ++ simpl in E. injection E as _ E.
              apply (Hfail before d' o' rest E); [|exact Hnot].
              intros d'' o'' Hin. apply Hbefore. right. exact Hin.
      * exists false, ("DISPLAY" +:+ PyStr.of_Z d +:+ " is " +:+ sc_orientation c
                         +:+ ", but layout needs " +:+ o).
        split; [reflexivity|]. split; [|split; [discriminate|]].
        -- split; [discriminate|]. intros H. exfalso.
           destruct (H d o (or_introl eq_refl)) as (c' & Hc' & Ho').
           rewrite Hfind in Hc'. injection Hc' as <-. contradiction.
        -- intros before d' o' rest E Hbefore Hnot. split; [reflexivity|].
           destruct before as [|b before].
           ++ simpl in E. injection E as <- <- _. right. exists c. auto.
           ++ simpl in E. injection E as <- _. exfalso.
              destruct (Hbefore d o (or_introl eq_refl)) as (c' & Hc' & Ho').
              rewrite Hfind in Hc'. injection Hc' as <-. contradiction.
    + exists false, ("DISPLAY" +:+ PyStr.of_Z d +:+ " not found (required for layout)").
      split; [reflexivity|]. split; [|split; [discriminate|]].
      * split; [discriminate|]. intros H. exfalso.
        destruct (H d o (or_introl eq_refl)) as (c' & Hc' & _).
        rewrite Hfind in Hc'. discriminate Hc'.
      * intros before d' o' rest E Hbefore Hnot. split; [reflexivity|].
        destruct before as [|b before].
        -- simpl in E. injection E as <- <- _. left. auto.
        -- simpl in E. injection E as <- _. exfalso.
           destruct (Hbefore d o (or_introl eq_refl)) as (c' & Hc' & _).
           rewrite Hfind in Hc'. discriminate Hc'.
Qed.

(** C5, as the program has it. [matches_requirements] always answers; it
    answers [True] (with "All requirements met") exactly when the number of
    entries equals [total_screens], if that is specified, and for every
    required pair the first entry of [current_config] with that display
    number has exactly that orientation. Otherwise it answers [False] on
    the first failing check: a count that differs is reported with both
    counts, before any pair is looked at; else the first pair that is not
    met is reported with its display number, as missing or as having the
    wrong orientation. *)
Theorem matches_requirements_first_entry (current_config : list ScreenConfig)
  (total : option Z) (pairs : list (Z * string)) :
  exists (ok : bool) (reason : string),
    matches_requirements current_config (requirements_of total pairs) = Ret (ok, reason)
    /\ (ok = true
        <-> count_agrees current_config total
            /\ forall d o, In (d, o) pairs -> first_entry_has current_config d o)
    /\ (ok = true -> reason = "All requirements met")
    /\ (forall t, total = Some t -> len current_config <> t ->
          ok = false
          /\ reason = "Need exactly " +:+ PyStr.of_Z t +:+ " screen(s), but "
                        +:+ PyStr.of_Z (len current_config) +:+ " connected")
    /\ (count_agrees current_config total ->
        forall before d o rest,
          pairs = (before ++ (d, o) :: rest)%list ->
          (forall d' o', In (d', o') before -> first_entry_has current_config d' o') ->
          ~ first_entry_has current_config d o ->
          ok = false
          /\ (find_display d current_config = None
              /\ reason = "DISPLAY" +:+ PyStr.of_Z d +:+ " not found (required for layout)"
              \/ exists c, find_display d current_config = Some c
                           /\ reason = "DISPLAY" +:+ PyStr.of_Z d +:+ " is "
                                         +:+ sc_orientation c
                                         +:+ ", but layout needs " +:+ o)).
Proof.
  unfold matches_requirements, requirements_of, count_agrees. simpl.
  destruct total as [t|].
  - destruct (Z.eqb_spec (len current_config) t) as [E|E]; simpl.
    + destruct (check_required_screens_spec current_config pairs)
        as (ok & reason & Hrun & Hiff & Hmet & Hfail).
      exists ok, reason. split; [exact Hrun|]. split; [|split; [exact Hmet|split]].
      * rewrite Hiff. split; [intros H; split; [intros ? [= <-]; exact E | exact H]|].
        intros [_ H]. exact H.
      * intros t' [= <-] Hne. contradiction.
      * intros _. exact Hfail.
    + eexists false, _. split; [reflexivity|]. split; [|split; [discriminate|split]].
      * split; [discriminate|]. intros [H _]. exfalso. apply E, H. reflexivity.
      * intros t' [= <-] _. split; reflexivity.
      * intros H. exfalso. apply E, H. reflexivity.
  - destruct (check_required_screens_spec current_config pairs)
      as (ok & reason & Hrun & Hiff & Hmet & Hfail).
    exists ok, reason. split; [exact Hrun|]. split; [|split; [exact Hmet|split]].
    + rewrite Hiff. split; [intros H; split; [intros ? [=] | exact H]|].
      intros [_ H]. exact H.
    + intros t' [=].
    + intros _. exact Hfail.
Qed.

(** Where no two entries share a display number, C5 holds as the
    specification words it. *)
Lemma matches_requirements_by_some_entry (current_config : list ScreenConfig)
  (total : option Z) (pairs : list (Z * string)) :
  NoDup (map sc_display_number current_config) ->
  answers_by_some_entry current_config total pairs
    (matches_requirements current_config (requirements_of total pairs)).
Proof.
  intros Hnd. unfold answers_by_some_entry.
  assert (Hsame : (forall d o, In (d, o) pairs -> first_entry_has current_config d o)
                  <-> (forall d o, In (d, o) pairs -> some_entry_has current_config d o)).
  { split; intros H d o Hin.
    - apply first_entry_is_some_entry, H, Hin.
    - apply some_entry_is_first_entry; [exact Hnd | apply H, Hin]. }
  rewrite <- Hsame.
  unfold matches_requirements, requirements_of, count_agrees. simpl.
  destruct (check_required_screens_spec current_config pairs)
    as (ok & reason & Hrun & Hiff & _).
  destruct total as [t|].
  - destruct (Z.eqb_spec (len current_config) t) as [E|E]; simpl.
    + rewrite Hrun. split.
      * intros [r [= -> _]]. split; [intros ? [= <-]; exact E | apply Hiff; reflexivity].
      * intros [_ H]. apply Hiff in H. subst ok. eauto.
    + split; [intros [r [=]]|]. intros [H _]. exfalso. apply E, H. reflexivity.
  - rewrite Hrun. split.
    + intros [r [= -> _]]. split; [intros ? [=] | apply Hiff; reflexivity].
    + intros [_ H]. apply Hiff in H. subst ok. eauto.
Qed.

(** C5 as stated fails where two entries carry one display number: the
    count is right and an entry with display 1 and orientation horizontal
    exists, yet the answer is [False], because the first entry with
    display 1 is vertical. *)
Lemma matches_requirements_counterexample :
  matches_requirements Scenario.twins (requirements_of (Some 2) [(1, "horizontal")])
  = Ret (false, "DISPLAY1 is vertical, but layout needs horizontal")
  /\ count_agrees Scenario.twins (Some 2)
  /\ (forall d o, In (d, o) [(1, "horizontal")] -> some_entry_has Scenario.twins d o)
  /\ ~ answers_by_some_entry
         Scenario.twins (Some 2) [(1, "horizontal")]
         (matches_requirements Scenario.twins
            (requirements_of (Some 2) [(1, "horizontal")])).
Proof.
  assert (Hcount : count_agrees Scenario.twins (Some 2))
    by (intros t [= <-]; reflexivity).
  assert (Hentry : forall d o, In (d, o) [(1, "horizontal")] ->
                               some_entry_has Scenario.twins d o).
  { intros d o [[= <- <-]|[]].
    exists (Scenario.screen_entry 1 "horizontal" "monitor_b" 1920 1080).
    split; [right; left; reflexivity | split; reflexivity]. }
  split; [reflexivity|]. split; [exact Hcount|]. split; [exact Hentry|].
  intros [_ H]. destruct (H (conj Hcount Hentry)) as [reason E]. discriminate E.
Qed.

(** ** Frames: what each program leaves alone *)

Section Frames.

Context {W : Type} {host : Host W}.

Lemma preserves_ret {X A : Type} (f : State W -> X) (a : A) : preserves f (ret a).
Proof. intros s. reflexivity. Qed.

Lemma preserves_raise {X A : Type} (f : State W -> X) (e : exn) :
  preserves f (raise e : M W A).
Proof. intros s. reflexivity. Qed.

Lemma preserves_gets {X A : Type} (f : State W -> X) (g : State W -> A) :
  preserves f (gets g).
Proof. intros s. reflexivity. Qed.

Lemma preserves_of_res {X A : Type} (f : State W -> X) (r : res A) :
  preserves f (of_res r : M W A).
Proof. intros s. reflexivity. Qed.

Lemma preserves_read {X A : Type} (f : State W -> X) (g : W -> A) :
  preserves f (read g).
Proof. intros s. reflexivity. Qed.

Lemma preserves_call {X A : Type} (f : State W -> X) (g : W -> res A) :
  preserves f (call g).
Proof. intros s. reflexivity. Qed.

Lemma preserves_act {X A : Type} (f : State W -> X) (g : W -> res A * W) :
  world_blind f -> preserves f (act g).
Proof. intros Hf s. unfold act. destruct (g (world s)). apply Hf. Qed.

Lemma preserves_act_total {X A : Type} (f : State W -> X) (g : W -> A * W) :
  world_blind f -> preserves f (act_total g).
Proof. intros Hf s. unfold act_total. destruct (g (world s)). apply Hf. Qed.

Lemma preserves_act_ {X : Type} (f : State W -> X) (g : W -> W) :
  world_blind f -> preserves f (act_ g).
Proof. intros Hf s. apply Hf. Qed.

Lemma preserves_modify {X : Type} (f : State W -> X) (g : State W -> State W) :
  (forall s, f (g s) = f s) -> preserves f (modify g).
Proof. intros Hg s. apply Hg. Qed.

Lemma preserves_bind {X A B : Type} (f : State W -> X) (m : M W A) (k : A -> M W B) :
  preserves f m -> (forall a, preserves f (k a)) -> preserves f (bind m k).
Proof.
  intros Hm Hk s. unfold bind. specialize (Hm s).
  destruct (m s) as [[a|e] s1]; simpl in *.
  - rewrite Hk. exact Hm.
  - exact Hm.
Qed.

Lemma preserves_try_except {X A : Type} (f : State W -> X) (m : M W A) (h : exn -> M W A) :
  preserves f m -> (forall e, preserves f (h e)) -> preserves f (try_except m h).
Proof.
  intros Hm Hh s. unfold try_except. specialize (Hm s).
  destruct (m s) as [[a|e] s1]; simpl in *.
  - exact Hm.
  - rewrite Hh. exact Hm.
Qed.

Lemma preserves_fold_m {X A B : Type} (f : State W -> X) (body : B -> A -> M W B)
  (xs : list A) (b : B) :
  (forall b a, preserves f (body b a)) -> preserves f (fold_m body xs b).
Proof.
  intros Hbody. revert b. induction xs as [|x xs IH]; intros b; simpl.
  - apply preserves_ret.
  - apply preserves_bind; [apply Hbody | intros b'; apply IH].
Qed.

Lemma preserves_for_each {X A : Type} (f : State W -> X) (xs : list A) (body : A -> M W unit) :
  (forall a, preserves f (body a)) -> preserves f (for_each xs body).
Proof.
  intros Hbody. induction xs as [|x xs IH]; simpl.
  - apply preserves_ret.
  - apply preserves_bind; [apply Hbody | intros _; exact IH].
Qed.

Lemma world_blind_managers : world_blind (@managers W).
Proof. intros w s. reflexivity. Qed.

Lemma world_blind_layout_slot : world_blind (@layout_slot W).
Proof. intros w s. reflexivity. Qed.

End Frames.

Ltac blind :=
  first [ exact world_blind_managers | exact world_blind_layout_slot
        | intros ? ?; reflexivity ].

Ltac head_of t :=
  match t with
  | ?f _ => head_of f
  | _ => t
  end.

Ltac frame_step :=
  first
    [ apply preserves_ret | apply preserves_raise | apply preserves_gets
    | apply preserves_of_res | apply preserves_read | apply preserves_call
    | apply preserves_act; [blind]
    | apply preserves_act_total; [blind]
    | apply preserves_act_; [blind]
    | apply preserves_modify; [intros ?; reflexivity]
    | apply preserves_fold_m; intros ? ?
    | apply preserves_for_each; intros ?
    | apply preserves_bind; [|intros ?]
    | apply preserves_try_except; [|intros ?]
    | match goal with
      | |- preserves _ (if ?b then _ else _) => destruct b
      | |- preserves _ (match ?x with _ => _ end) => destruct x
      | |- preserves _ (let (_, _) := ?x in _) => destruct x
      end
    | progress cbv zeta
    | match goal with
      | |- preserves _ ?m => let h := head_of m in progress unfold h
      end ].

Ltac frame := repeat frame_step.

Section FrameFacts.

Context {W : Type} {host : Host W}.

Lemma load_layout_reads (layout_name : string) : preserves whole (load_layout layout_name).
Proof. unfold load_layout. frame. Qed.

End FrameFacts.

Section LayoutSlot.

Context {W : Type} {host : Host W}.

Lemma can_apply_layout_reads (layout_data : Layout) :
  preserves (W:=W) whole (can_apply_layout layout_data).
Proof. unfold can_apply_layout. frame. Qed.

(** What [load_layout] answers, by the file it finds. *)
Lemma load_layout_cases (layout_name : string) (s : State W) :
  load_layout layout_name s
  = match layout_file (world s) (layout_file_name layout_name) with
    | None =>
        (Raise (LayoutError ("Layout file not found: "
                               +:+ layout_path (world s) (layout_file_name layout_name))), s)
    | Some (Raise e) =>
        (Raise (LayoutError
                  (match e with
                   | JSONDecodeError _ => "Invalid JSON in layout file: "
                   | _ => "Error loading layout: "
                   end +:+ str_of_exn e)), s)
    | Some (Ret layout_data) =>
        if fst (validate_layout layout_data) then (Ret layout_data, s)
        else (Raise (LayoutError ("Error loading layout: Invalid layout file: "
                                    +:+ snd (validate_layout layout_data))), s)
    end.
Proof.
  unfold load_layout, bind, read, try_except, of_res, raise, ret.
  destruct (layout_file (world s) (layout_file_name layout_name)) as [[l|e]|];
    [|destruct e; reflexivity|reflexivity].
  destruct (validate_layout l) as [[|] msg]; reflexivity.
Qed.

(** [load_layout] raises nothing but [LayoutError]. *)
Lemma load_layout_raises (layout_name : string) (s s' : State W) (e : exn) :
  load_layout layout_name s = (Raise e, s') -> exists msg, e = LayoutError msg.
Proof.
  rewrite load_layout_cases.
  destruct (layout_file (world s) (layout_file_name layout_name)) as [[l|e0]|].
  - destruct (fst (validate_layout l)); intros [= <- <-]; eauto.
  - intros [= <- <-]. eauto.
  - intros [= <- <-]. eauto.
Qed.

(** A layout that [load_layout] returns has passed [validate_layout]. *)
Lemma load_layout_valid (layout_name : string) (s s' : State W) (layout_data : Layout) :
  load_layout layout_name s = (Ret layout_data, s') ->
  fst (validate_layout layout_data) = true /\ s' = s.
Proof.
  rewrite load_layout_cases.
  destruct (layout_file (world s) (layout_file_name layout_name)) as [[l|e0]|];
    try discriminate.
  destruct (fst (validate_layout l)) eqn:E; [|discriminate].
  intros [= <- <-]. auto.
Qed.

Lemma validate_layout_name (layout_data : Layout) :
  fst (validate_layout layout_data) = true -> exists name, lay_name layout_data = Some name.
Proof.
  unfold validate_layout. destruct (lay_name layout_data); [eauto|]. discriminate.
Qed.

(** [activate_layout] on an empty slot, step by step. *)
Lemma activate_layout_inactive (layout_name : string) (s : State W) :
  active_layout s = None ->
  activate_layout layout_name s
  = match load_layout layout_name s with
    | (Raise e, _) =>
        (Raise (match e with
                | LayoutError _ => LayoutError ("Cannot load layout: " +:+ str_of_exn e)
                | _ => e
                end), s)
    | (Ret layout_data, _) =>
        match can_apply_layout layout_data s with
        | (Raise e, _) => (Raise e, s)
        | (Ret (false, reason), _) =>
            (Raise (LayoutError ("Screen configuration doesn't match layout requirements: "
                                   +:+ reason)), s)
        | (Ret (true, _), _) =>
            match lay_name layout_data with
            | None => (Raise (KeyError "name"), s)
            | Some name =>
                (Ret {| act_success := true; act_layout := Some name;
                        act_rules_applied :=
                          Some (len (default [] (lay_rules layout_data)));
                        act_message := "Layout '" +:+ name +:+ "' activated successfully" |},
                 set_active_layout (Some (activated layout_name layout_data name s))
                                   (set_world (snd (now_isoformat (world s))) s))
            end
        end
    end.
Proof.
  intros Hnone. unfold activate_layout.
  unfold bind at 1. unfold gets at 1. rewrite Hnone.
  unfold bind at 1. unfold try_except at 1.
  pose proof (load_layout_reads layout_name s) as Hl. unfold whole in Hl.
  destruct (load_layout layout_name s) as [[l|e] s1]; simpl in Hl; subst s1.
  - unfold bind at 1.
    pose proof (can_apply_layout_reads l s) as Hc. unfold whole in Hc.
    destruct (can_apply_layout l s) as [[[[|] reason]|e] s1]; simpl in Hc; subst s1;
      [|reflexivity|reflexivity].
    simpl negb. cbv iota.
    unfold bind, get_screen_configuration, gets, of_res, item, act_total, modify, ret.
    destruct (lay_name l) as [name|]; [|reflexivity].
    unfold activated. cbv beta iota delta [negb].
    destruct (now_isoformat (world s)) as [now w']. reflexivity.
  - destruct e; reflexivity.
Qed.

End LayoutSlot.

Section MoreFrames.

Context {W : Type} {host : Host W}.

Lemma add_monitor_keeps_slot (monitor_data : MonitorData) :
  preserves layout_slot (add_monitor monitor_data).
Proof. unfold add_monitor. frame. Qed.

Lemma detect_monitors_keeps_slot : preserves layout_slot detect_monitors.
Proof. unfold detect_monitors. frame; try apply add_monitor_keeps_slot. Qed.

Lemma resolve_rule_keeps_managers (display_map : gmap Z string) (layout_rule : LayoutRule) :
  preserves managers (resolve_rule display_map layout_rule).
Proof. unfold resolve_rule. frame. Qed.

Lemma get_active_rules_keeps_managers : preserves managers get_active_rules.
Proof. unfold get_active_rules. frame; try apply resolve_rule_keeps_managers. Qed.

Lemma is_window_maximized_reads (hwnd : Z) : preserves whole (is_window_maximized hwnd).
Proof. unfold is_window_maximized. frame. Qed.

Lemma is_window_fullscreen_reads (hwnd : Z) : preserves whole (is_window_fullscreen hwnd).
Proof. unfold is_window_fullscreen. frame. Qed.

Lemma get_window_monitor_id_reads (hwnd : Z) : preserves whole (get_window_monitor_id hwnd).
Proof. unfold get_window_monitor_id. frame. Qed.

Lemma is_window_on_monitor_reads (hwnd : Z) (monitor_id : string) :
  preserves whole (is_window_on_monitor hwnd monitor_id).
Proof. unfold is_window_on_monitor. frame; try apply get_window_monitor_id_reads. Qed.

Lemma is_window_in_correct_state_reads (hwnd : Z) (monitor_id : string)
  (monitor : ScreenInfo) (maximize fullscreen : bool) :
  preserves whole (is_window_in_correct_state hwnd monitor_id monitor maximize fullscreen).
Proof.
  unfold is_window_in_correct_state.
  frame; first [ apply is_window_on_monitor_reads | apply is_window_fullscreen_reads
               | apply is_window_maximized_reads ].
Qed.

Lemma window_info_reads (hwnd : Z) : preserves whole (window_info hwnd).
Proof.
  unfold window_info, get_window_class, get_window_pid, get_process_path_from_pid,
    _get_window_rect.
  frame; first [ apply is_window_fullscreen_reads | apply is_window_maximized_reads
               | apply get_window_monitor_id_reads ].
Qed.

Lemma get_all_windows_reads : preserves whole get_all_windows.
Proof.
  unfold get_all_windows, _enum_top_level_windows, enum_keeps.
  frame; try apply window_info_reads.
Qed.

End MoreFrames.

Section WindowFrames.

Context {W : Type} {host : Host W}.

Lemma foreground_attempts_keeps_managers (hwnd : Z) (attempts : list Z) :
  preserves managers (foreground_attempts hwnd attempts).
Proof.
  induction attempts as [|attempt rest IH]; simpl; [apply preserves_ret|].
  apply preserves_bind; [unfold foreground_attempt; frame|].
  intros done. destruct done; [apply preserves_ret | exact IH].
Qed.

Lemma fullscreen_window_keeps_managers (hwnd wait_time : Z) :
  preserves managers (fullscreen_window hwnd wait_time).
Proof.
  unfold fullscreen_window.
  apply preserves_bind; [frame|]. intros original_fg.
  apply preserves_bind; [apply foreground_attempts_keeps_managers|]. intros _.
  frame.
Qed.

Lemma reads_keep_managers {A : Type} (m : M W A) :
  preserves whole m -> preserves managers m.
Proof. intros H s. specialize (H s). unfold whole in H. rewrite H. reflexivity. Qed.

Lemma maximize_window_keeps_managers (hwnd : Z) (monitor : ScreenInfo) :
  preserves managers (maximize_window hwnd monitor).
Proof.
  unfold maximize_window.
  apply preserves_bind; [apply reads_keep_managers, is_window_fullscreen_reads|].
  intros is_full. apply preserves_bind; [|intros _; frame].
  destruct is_full; [apply fullscreen_window_keeps_managers | apply preserves_ret].
Qed.

Lemma move_window_keeps_managers (hwnd : Z) (monitor : ScreenInfo) :
  preserves managers (move_window hwnd monitor).
Proof. unfold move_window. frame. Qed.

Ltac window_frame :=
  repeat first
    [ apply fullscreen_window_keeps_managers
    | apply maximize_window_keeps_managers
    | apply move_window_keeps_managers
    | apply reads_keep_managers, is_window_fullscreen_reads
    | apply reads_keep_managers, is_window_maximized_reads
    | apply reads_keep_managers, is_window_on_monitor_reads
    | apply reads_keep_managers, is_window_in_correct_state_reads
    | apply preserves_ret | apply preserves_gets | apply preserves_call
    | apply preserves_act; [blind]
    | apply preserves_act_; [blind]
    | apply preserves_bind; [|intros ?]
    | match goal with
      | |- preserves _ (if ?b then _ else _) => destruct b
      | |- preserves _ (match ?x with _ => _ end) => destruct x
      end
    | progress cbv zeta ].

(** The state machine writes to the world only. *)
Lemma apply_window_rule_keeps_managers (hwnd : Z) (monitor_id : string)
  (maximize fullscreen : bool) :
  preserves managers (apply_window_rule hwnd monitor_id maximize fullscreen).
Proof.
  unfold apply_window_rule, get_connected_monitor. window_frame.
Qed.

Lemma apply_rule_to_window_keeps_managers (rule : Rule) (results : Summary)
  (window : Window) :
  preserves managers (apply_rule_to_window rule results window).
Proof.
  unfold apply_rule_to_window.
  apply preserves_try_except; [|intros e; apply preserves_ret].
  destruct (is_minimized window); [apply preserves_ret|]. cbv zeta.
  destruct (negb (PyStr.truthy (PyStr.strip (title window)))); [apply preserves_ret|].
  destruct (String.eqb (PyStr.strip (title window)) "Program Manager");
    [apply preserves_ret|].
  apply preserves_bind; [apply apply_window_rule_keeps_managers|].
  intros result. destruct (changed result); apply preserves_ret.
Qed.

Lemma apply_rule_keeps_managers (windows : list Window) (results : Summary) (rule : Rule) :
  preserves managers (apply_rule windows results rule).
Proof.
  unfold apply_rule, is_monitor_connected. cbv zeta.
  apply preserves_bind; [apply preserves_gets|]. intros connected.
  destruct (negb connected); [apply preserves_ret|].
  destruct (matching_windows rule windows) as [|w ws]; [apply preserves_ret|].
  apply preserves_fold_m. intros b a. apply apply_rule_to_window_keeps_managers.
Qed.

Lemma managers_keep_slot {A : Type} (m : M W A) :
  preserves managers m -> preserves layout_slot m.
Proof.
  intros H s. specialize (H s). unfold managers in H. unfold layout_slot.
  injection H as _ _ Ha Hl. rewrite Ha, Hl. reflexivity.
Qed.

Lemma apply_rules_keeps_slot : preserves layout_slot apply_rules.
Proof.
  unfold apply_rules.
  apply preserves_bind; [apply detect_monitors_keeps_slot|]. intros _.
  apply preserves_bind; [apply preserves_gets|]. intros configured.
  destruct (negb configured); [apply preserves_ret|].
  apply preserves_bind; [apply managers_keep_slot, get_active_rules_keeps_managers|].
  intros rules. destruct rules as [|r rs]; [apply preserves_ret|].
  apply preserves_bind;
    [apply managers_keep_slot, reads_keep_managers, get_all_windows_reads|].
  intros windows. apply preserves_fold_m. intros b a.
  apply managers_keep_slot, apply_rule_keeps_managers.
Qed.

End WindowFrames.

(** ** The layout slot *)

Section LayoutTheorems.

Context {W : Type} {host : Host W}.

Lemma can_apply_layout_cases (layout_data : Layout) (s : State W) :
  can_apply_layout layout_data s
  = (match lay_screen_requirements layout_data with
     | None => Raise (KeyError "screen_requirements")
     | Some requirements => matches_requirements (screen_configuration_of s) requirements
     end, s).
Proof.
  unfold can_apply_layout, bind, get_screen_configuration, gets, of_res, item.
  destruct (lay_screen_requirements layout_data); reflexivity.
Qed.

Lemma activate_layout_when_active (s : State W) (layout_name : string)
  (active : ActiveLayout) :
  active_layout s = Some active ->
  exists r, activate_layout layout_name s = (Ret r, s) /\ act_success r = false.
Proof.
  intros Ha. unfold activate_layout, bind, gets. rewrite Ha.
  eexists. split; reflexivity.
Qed.

Lemma activate_layout_when_inactive (s s' : State W) (layout_name : string)
  (out : res Activation) :
  active_layout s = None ->
  activate_layout layout_name s = (out, s') ->
  match out with
  | Raise _ => s' = s
  | Ret r =>
      act_success r = true
      /\ exists layout_data name,
          layout_file (world s) (layout_file_name layout_name) = Some (Ret layout_data)
          /\ fst (validate_layout layout_data) = true
          /\ active_layout s' = Some (activated layout_name layout_data name s)
  end.
Proof.
  intros Hnone. rewrite (activate_layout_inactive _ _ Hnone).
  rewrite load_layout_cases.
  destruct (layout_file (world s) (layout_file_name layout_name)) as [[l|e0]|] eqn:Hfile.
  - destruct (fst (validate_layout l)) eqn:Hvalid.
    + rewrite can_apply_layout_cases.
      destruct (match lay_screen_requirements l with
                | Some requirements =>
                    matches_requirements (screen_configuration_of s) requirements
                | None => Raise (KeyError "screen_requirements")
                end) as [[[|] reason]|e].
      * destruct (lay_name l) as [name|]; intros [= <- <-]; [|reflexivity].
        split; [reflexivity|]. exists l, name. auto.
      * intros [= <- <-]. reflexivity.
      * intros [= <- <-]. reflexivity.
    + intros [= <- <-]. reflexivity.
  - intros [= <- <-]. reflexivity.
  - intros [= <- <-]. reflexivity.
Qed.

(** C2. [activate_layout] is guarded and all-or-nothing. With a layout
    already active the call answers [success: False] and the state, hence
    the active layout with its name, data, display map and activation
    time, is exactly as before. A call that raises leaves the state as it
    was, with no active layout; so does a call that answers
    [success: False]. On an empty slot the call raises [LayoutError] when
    the file is missing, when it cannot be parsed, when it is not a valid
    layout and when the screen requirements are not matched; and a call
    that answers [success: True] has filled the slot with the loaded layout
    and the display map of the current screen configuration. *)
Theorem activate_layout_guarded_all_or_nothing (s : State W) (layout_name : string) :
  (forall active, active_layout s = Some active ->
     exists r, activate_layout layout_name s = (Ret r, s) /\ act_success r = false)
  /\ (forall e s', activate_layout layout_name s = (Raise e, s') ->
        s' = s /\ active_layout s' = None)
  /\ (forall r s', activate_layout layout_name s = (Ret r, s') -> act_success r = false ->
        s' = s)
  /\ (forall r s', activate_layout layout_name s = (Ret r, s') -> act_success r = true ->
        exists layout_data name,
          layout_file (world s) (layout_file_name layout_name) = Some (Ret layout_data)
          /\ fst (validate_layout layout_data) = true
          /\ active_layout s' = Some (activated layout_name layout_data name s))
  /\ (active_layout s = None ->
      (layout_file (world s) (layout_file_name layout_name) = None ->
       exists msg, activate_layout layout_name s = (Raise (LayoutError msg), s))
      /\ (forall e, layout_file (world s) (layout_file_name layout_name) = Some (Raise e) ->
          exists msg, activate_layout layout_name s = (Raise (LayoutError msg), s))
      /\ (forall layout_data,
             layout_file (world s) (layout_file_name layout_name) = Some (Ret layout_data) ->
             fst (validate_layout layout_data) = false ->
             exists msg, activate_layout layout_name s = (Raise (LayoutError msg), s))
      /\ (forall layout_data requirements reason,
             layout_file (world s) (layout_file_name layout_name) = Some (Ret layout_data) ->
             fst (validate_layout layout_data) = true ->
             lay_screen_requirements layout_data = Some requirements ->
             matches_requirements (screen_configuration_of s) requirements
             = Ret (false, reason) ->
             activate_layout layout_name s
             = (Raise (LayoutError
                         ("Screen configuration doesn't match layout requirements: "
                            +:+ reason)), s))).
Proof.
  pose proof (activate_layout_when_active s layout_name) as Hactive.
  assert (Hinactive : active_layout s = None ->
            forall out s', activate_layout layout_name s = (out, s') -> _)
    by (intros Hnone out s'; apply (activate_layout_when_inactive s s' _ out Hnone)).
  split; [exact Hactive|]. split; [|split; [|split]].
  - intros e s' Hrun. destruct (active_layout s) as [active|] eqn:Ha.
    + destruct (Hactive active eq_refl) as (r & Hr & _). congruence.
    + specialize (Hinactive eq_refl _ _ Hrun). simpl in Hinactive. subst s'. auto.
  - intros r s' Hrun Hfail. destruct (active_layout s) as [active|] eqn:Ha.
    + destruct (Hactive active eq_refl) as (r' & Hr & _). congruence.
    + destruct (Hinactive eq_refl _ _ Hrun) as [Hok _]. congruence.
  - intros r s' Hrun Hok. destruct (active_layout s) as [active|] eqn:Ha.
    + destruct (Hactive active eq_refl) as (r' & Hr & Hfail). congruence.
    + destruct (Hinactive eq_refl _ _ Hrun) as [_ H]. exact H.
  - intros Hnone. rewrite (activate_layout_inactive _ _ Hnone), load_layout_cases.
    split; [|split; [|split]].
    + intros ->. eauto.
    + intros e ->. eauto.
    + intros l -> ->. eauto.
    + intros l requirements reason -> -> Hreq Hno.
      rewrite can_apply_layout_cases, Hreq, Hno. reflexivity.
Qed.


Lemma check_active_layout_validity_cases (s : State W) :
  check_active_layout_validity s
  = match active_layout s with
    | None => (Ret true, s)
    | Some active =>
        match can_apply_layout (al_data active) s with
        | (Raise e, _) => (Raise e, s)
        | (Ret (true, _), _) => (Ret true, s)
        | (Ret (false, _), _) => (Ret false, set_active_layout None s)
        end
    end.
Proof.
  unfold check_active_layout_validity, bind at 1, gets at 1.
  destruct (active_layout s) as [active|] eqn:Ha; [|reflexivity].
  rewrite can_apply_layout_cases. unfold bind at 1. rewrite can_apply_layout_cases.
  destruct (match lay_screen_requirements (al_data active) with
            | Some requirements =>
                matches_requirements (screen_configuration_of s) requirements
            | None => Raise (KeyError "screen_requirements")
            end) as [[[|] reason]|e]; simpl; try reflexivity.
  cbv beta delta [bind deactivate_layout gets modify ret]. rewrite Ha. reflexivity.
Qed.

Lemma get_active_rules_inactive (s : State W) :
  active_layout s = None -> get_active_rules s = (Ret [], s).
Proof. intros Ha. unfold get_active_rules, bind, gets. rewrite Ha. reflexivity. Qed.

Lemma slot_of_layout_slot {A : Type} (m : M W A) (s : State W) :
  preserves layout_slot m -> active_layout (after m s) = active_layout s.
Proof. intros H. specialize (H s). unfold layout_slot in H. injection H as H _. exact H. Qed.

(** An operation other than an activation leaves the layout slot as it is,
    or empties it. *)
Lemma run_op_slot (o : op W) (s : State W) :
  is_activation o = false ->
  active_layout (run_op o s) = active_layout s \/ active_layout (run_op o s) = None.
Proof.
  intros Ho. destruct o as [| | | | |layout_name|change]; simpl in *; try discriminate Ho.
  - left. apply slot_of_layout_slot, detect_monitors_keeps_slot.
  - unfold after. rewrite check_active_layout_validity_cases.
    destruct (active_layout s) as [active|] eqn:Ha; [|left; exact Ha].
    destruct (can_apply_layout (al_data active) s) as [[[[|] reason]|e] s1]; simpl; auto.
  - left. apply slot_of_layout_slot, managers_keep_slot, get_active_rules_keeps_managers.
  - left. apply slot_of_layout_slot, apply_rules_keeps_slot.
  - unfold after. cbv beta delta [bind deactivate_layout gets modify ret].
    destruct (active_layout s) eqn:Ha; simpl; auto.
  - left. reflexivity.
Qed.

Lemma run_ops_slot (ops : list (op W)) (s : State W) :
  forallb (fun o => negb (is_activation o)) ops = true ->
  active_layout (run_ops ops s) = active_layout s
  \/ active_layout (run_ops ops s) = None.
Proof.
  revert s. induction ops as [|o ops IH]; intros s Hops; simpl in *; [left; reflexivity|].
  apply andb_true_iff in Hops as [Ho Hops]. apply negb_true_iff in Ho.
  destruct (IH (run_op o s) Hops) as [E|E]; [|right; exact E].
  unfold run_ops in E |- *. rewrite E. apply run_op_slot, Ho.
Qed.

(** C3. [check_active_layout_validity] answers [True] and changes nothing
    when no layout is active, and when the stored requirements of the
    active layout match the current screen configuration. When they do not
    match, it empties the slot and answers [False]; from then on, through
    any operations of the service other than an activation, the slot stays
    empty and [get_active_rules] answers the empty list. *)
Theorem check_validity_revokes_stale_layout (s : State W) :
  (active_layout s = None -> check_active_layout_validity s = (Ret true, s))
  /\ (forall active requirements reason,
         active_layout s = Some active ->
         lay_screen_requirements (al_data active) = Some requirements ->
         matches_requirements (screen_configuration_of s) requirements = Ret (true, reason) ->
         check_active_layout_validity s = (Ret true, s))
  /\ (forall active requirements reason,
         active_layout s = Some active ->
         lay_screen_requirements (al_data active) = Some requirements ->
         matches_requirements (screen_configuration_of s) requirements = Ret (false, reason) ->
         check_active_layout_validity s = (Ret false, set_active_layout None s)
         /\ active_layout (after check_active_layout_validity s) = None
         /\ forall ops : list (op W),
              forallb (fun o => negb (is_activation o)) ops = true ->
              let later := run_ops ops (after check_active_layout_validity s) in
              active_layout later = None
              /\ get_active_rules later = (Ret [], later)).
Proof.
  split; [|split].
  - intros Ha. rewrite check_active_layout_validity_cases, Ha. reflexivity.
  - intros active requirements reason Ha Hreq Hyes.
    rewrite check_active_layout_validity_cases, Ha, can_apply_layout_cases, Hreq, Hyes.
    reflexivity.
  - intros active requirements reason Ha Hreq Hno.
    assert (Hrun : check_active_layout_validity s = (Ret false, set_active_layout None s)).
    { rewrite check_active_layout_validity_cases, Ha, can_apply_layout_cases, Hreq, Hno.
      reflexivity. }
    split; [exact Hrun|]. unfold after. rewrite Hrun. simpl snd.
    split; [reflexivity|]. intros ops Hops. cbv zeta.
    assert (Hnone : active_layout (run_ops ops (set_active_layout None s)) = None).
    { destruct (run_ops_slot ops (set_active_layout None s) Hops) as [E|E]; exact E. }
    split; [exact Hnone | apply get_active_rules_inactive, Hnone].
Qed.


Lemma resolve_rule_skips (display_map : gmap Z string) (layout_rule : LayoutRule)
  (s : State W) :
  resolvable display_map layout_rule = false ->
  resolve_rule display_map layout_rule s = (Ret None, s).
Proof.
  unfold resolvable, resolve_rule, falsy_Z.
  destruct (lr_target_display layout_rule) as [n|]; [|reflexivity].
  destruct (n =? 0); [reflexivity|]. simpl.
  destruct (display_map !! n) as [m|] eqn:E; [|reflexivity].
  rewrite bool_decide_eq_false. intros H. exfalso. apply H. eauto.
Qed.

Lemma resolve_rule_resolves (display_map : gmap Z string) (layout_rule : LayoutRule)
  (s : State W) (mt mv : string) :
  resolvable display_map layout_rule = true ->
  lr_match_type layout_rule = Some mt ->
  lr_match_value layout_rule = Some mv ->
  exists rule,
    resolve_rule display_map layout_rule s
    = (Ret (Some rule), set_world (snd (uuid4_hex (world s))) s)
    /\ resolves display_map layout_rule rule.
Proof.
  unfold resolvable, resolve_rule, falsy_Z, resolves.
  intros Hres Hmt Hmv.
  destruct (lr_target_display layout_rule) as [n|]; [|discriminate Hres].
  destruct (n =? 0); [discriminate Hres|]. simpl in *.
  apply bool_decide_eq_true in Hres as [m Hm]. rewrite Hm.
  cbv beta delta [bind act_total of_res item ret]. rewrite Hmt, Hmv.
  destruct (uuid4_hex (world s)) as [u w']. cbv beta iota. simpl snd.
  eexists. split; [reflexivity|]. simpl.
  split; [exists n; auto|]. repeat split; auto.
  intros id Hid. rewrite Hid. reflexivity.
Qed.

(** Where the display map has no key 0, the rules resolved are those whose
    target display is a key, as the specification words it. *)
Lemma resolvable_keyed (display_map : gmap Z string) (layout_rule : LayoutRule) :
  display_map !! 0 = None ->
  resolvable display_map layout_rule = keyed display_map layout_rule.
Proof.
  intros Hzero. unfold resolvable, keyed.
  destruct (lr_target_display layout_rule) as [n|]; [|reflexivity].
  destruct (Z.eqb_spec n 0) as [->|]; [|reflexivity]. simpl.
  symmetry. apply bool_decide_eq_false. rewrite Hzero. intros [m Hm]. discriminate Hm.
Qed.

(** The loop of [get_active_rules], from any list of rules resolved so far. *)
Lemma resolve_rules_loop (display_map : gmap Z string) (layout_rules : list LayoutRule) :
  Forall (fun r => is_Some (lr_match_type r) /\ is_Some (lr_match_value r)) layout_rules ->
  forall (resolved : list Rule) (s : State W),
  exists rules s',
    fold_m (fun rules layout_rule =>
              bind (resolve_rule display_map layout_rule)
                   (fun r => match r with
                             | None => ret rules
                             | Some rule => ret (rules ++ [rule])%list
                             end))
           layout_rules resolved s
    = (Ret (resolved ++ rules)%list, s')
    /\ Forall2 (resolves display_map)
               (List.filter (resolvable display_map) layout_rules) rules.
Proof.
  induction 1 as [|lr lrs [[mt Hmt] [mv Hmv]] _ IH]; intros resolved s.
  - exists [], s. simpl. rewrite app_nil_r. split; [reflexivity | constructor].
  - simpl. destruct (resolvable display_map lr) eqn:Hres.
    + destruct (resolve_rule_resolves display_map lr s mt mv Hres Hmt Hmv)
        as (rule & Hrun & Hrule).
      destruct (IH (resolved ++ [rule])%list (set_world (snd (uuid4_hex (world s))) s))
        as (rules & s' & Hloop & Hall).
      exists (rule :: rules), s'. split; [|constructor; assumption].
      unfold bind at 1. unfold bind at 1. rewrite Hrun. cbv beta iota.
      unfold ret at 1. rewrite Hloop, <- app_assoc. reflexivity.
    + destruct (IH resolved s) as (rules & s' & Hloop & Hall).
      exists rules, s'. split; [|exact Hall].
      unfold bind at 1. unfold bind at 1. rewrite (resolve_rule_skips _ _ _ Hres).
      cbv beta iota. unfold ret at 1. exact Hloop.
Qed.

Lemma validate_rules_fields (i : Z) (required_displays : list Z) (rules : list LayoutRule) :
  validate_rules i required_displays rules = None ->
  Forall (fun r => is_Some (lr_match_type r) /\ is_Some (lr_match_value r)) rules.
Proof.
  revert i. induction rules as [|r rules IH]; intros i; simpl; [constructor|].
  destruct (lr_match_type r) as [mt|] eqn:Hmt; [|discriminate].
  destruct (lr_match_value r) as [mv|] eqn:Hmv; [|discriminate].
  destruct (lr_target_display r) as [d|]; [|discriminate].
  destruct (negb (Z_in d required_displays)); [discriminate|].
  intros H. constructor; [split; eauto | apply (IH _ H)].
Qed.

Lemma validate_layout_fields (layout_data : Layout) :
  fst (validate_layout layout_data) = true ->
  Forall (fun r => is_Some (lr_match_type r) /\ is_Some (lr_match_value r))
         (stored_rules layout_data).
Proof.
  unfold validate_layout, stored_rules.
  destruct (lay_name layout_data); [|discriminate].
  destruct (lay_screen_requirements layout_data) as [req|]; [|discriminate].
  destruct (lay_rules layout_data) as [rules|]; [|discriminate].
  destruct (total_screens req); [|discriminate].
  destruct (screens req) as [scrs|]; [|discriminate].
  destruct (validate_screens 0 scrs); [discriminate|].
  destruct (validate_rules 0 (omap display_number scrs) rules) eqn:E; [discriminate|].
  intros _. simpl. apply (validate_rules_fields _ _ _ E).
Qed.

(** Every layout that the service has in its slot has passed
    [validate_layout]: the slot is filled by [activate_layout] only, with
    what [load_layout] returned. *)
Lemma slot_valid_run_ops (ops : list (op W)) (s : State W) :
  slot_valid s -> slot_valid (run_ops ops s).
Proof.
  revert s. induction ops as [|o ops IH]; intros s Hs; [exact Hs|].
  simpl. apply IH. clear IH ops.
  destruct (is_activation o) eqn:Ho.
  - destruct o as [| | | | |layout_name|change]; try discriminate Ho. simpl.
    intros a. unfold after.
    destruct (activate_layout layout_name s) as [out s'] eqn:Hrun. simpl.
    destruct (active_layout s) as [active|] eqn:Ha.
    + destruct (activate_layout_when_active s layout_name active Ha) as (r & Hr & _).
      rewrite Hr in Hrun. injection Hrun as _ <-. apply Hs.
    + pose proof (activate_layout_when_inactive s s' layout_name out Ha Hrun) as H.
      destruct out as [r|e].
      * destruct H as (_ & l & name & _ & Hl & Hslot). rewrite Hslot.
        intros [= <-]. exact Hl.
      * subst s'. rewrite Ha. discriminate.
  - intros a Ha. destruct (run_op_slot o s Ho) as [E|E]; rewrite E in Ha.
    + apply Hs, Ha.
    + discriminate Ha.
Qed.


(** C4. With a layout active whose data has passed [validate_layout] (as
    every activated layout has) and whose display map has no key 0 (Windows
    numbers its displays from 1), [get_active_rules] answers one resolved
    rule, in order, for exactly those stored rules whose [target_display] is
    a key of the display map stored at activation; a rule whose
    [target_display] is not a key is skipped. Each resolved rule carries the
    monitor id that the stored map gives for its [target_display], and the
    stored rule's match type, match value and flags. The call changes
    nothing but the world's random source. Through any operations of the
    service other than an activation, whatever happens to the monitors, the
    slot is either emptied or holds the same layout with the same display
    map. *)
Theorem get_active_rules_resolves_through_stored_map (s : State W) (active : ActiveLayout) :
  active_layout s = Some active ->
  fst (validate_layout (al_data active)) = true ->
  al_display_map active !! 0 = None ->
  (exists rules s',
      get_active_rules s = (Ret rules, s')
      /\ managers s' = managers s
      /\ resolves_every_keyed_rule (al_display_map active)
                                   (stored_rules (al_data active)) rules)
  /\ (forall ops : list (op W),
         forallb (fun o => negb (is_activation o)) ops = true ->
         active_layout (run_ops ops s) = Some active
         \/ active_layout (run_ops ops s) = None).
Proof.
  intros Ha Hvalid Hzero. split.
  - destruct (resolve_rules_loop (al_display_map active) (stored_rules (al_data active))
                (validate_layout_fields _ Hvalid) [] s) as (rules & s' & Hloop & Hall).
    exists rules, s'. split; [|split].
    + unfold get_active_rules. unfold bind at 1. unfold gets at 1. rewrite Ha.
      exact Hloop.
    + pose proof (get_active_rules_keeps_managers s) as Hframe.
      unfold get_active_rules in Hframe. unfold bind at 1 in Hframe.
      unfold gets at 1 in Hframe. rewrite Ha in Hframe.
      unfold stored_rules in Hloop. rewrite Hloop in Hframe. exact Hframe.
    + unfold resolves_every_keyed_rule.
      rewrite <- (List.filter_ext (resolvable (al_display_map active))
                                  (keyed (al_display_map active))
                                  (fun r => resolvable_keyed _ r Hzero)).
      exact Hall.
  - intros ops Hops. rewrite <- Ha. apply run_ops_slot, Hops.
Qed.

End LayoutTheorems.

(** The hypothesis on the key 0 is there because [get_active_rules] tests
    [not target_display], which holds for 0 as it does for a missing
    target. Were a monitor reported as DISPLAY0, a layout could require
    display 0, the activation would store a display map with the key 0, and
    the rule that targets it would be skipped. *)
Lemma display0_rule_is_skipped :
  exists active,
    active_layout Scenario.activated_display0 = Some active
    /\ stored_rules (al_data active)
       = [Scenario.stored_rule "rule_chrome" "exe" "chrome.exe" 0 true false]
    /\ al_display_map active !! 0 = Some "monitor_10000000"
    /\ get_active_rules Scenario.activated_display0
       = (Ret [], Scenario.activated_display0).
Proof.
  eexists. split; [vm_compute; reflexivity|].
  split; [reflexivity|]. split; vm_compute; reflexivity.
Qed.

(** C4 on the end-to-end scenario: the displays are DISPLAY1 and DISPLAY2,
    and the rule for display 2 resolves to the monitor that held slot 2 at
    activation. *)
Lemma get_active_rules_witness :
  active_layout Scenario.activated_two_screens = Some Scenario.coding_slot
  /\ fst (validate_layout (al_data Scenario.coding_slot)) = true
  /\ al_display_map Scenario.coding_slot !! 0 = None
  /\ exists rules s',
      get_active_rules Scenario.activated_two_screens = (Ret rules, s')
      /\ managers s' = managers Scenario.activated_two_screens
      /\ resolves_every_keyed_rule (al_display_map Scenario.coding_slot)
                                   (stored_rules (al_data Scenario.coding_slot)) rules.
Proof.
  assert (Ha : active_layout Scenario.activated_two_screens = Some Scenario.coding_slot)
    by (vm_compute; reflexivity).
  assert (Hv : fst (validate_layout (al_data Scenario.coding_slot)) = true)
    by (vm_compute; reflexivity).
  assert (Hz : al_display_map Scenario.coding_slot !! 0 = None)
    by (vm_compute; reflexivity).
  split; [exact Ha|]. split; [exact Hv|]. split; [exact Hz|].
  exact (proj1 (get_active_rules_resolves_through_stored_map
                  Scenario.activated_two_screens Scenario.coding_slot Ha Hv Hz)).
Defined.

(** ** The state machine of one window *)

Section StateMachine.

Context {W : Type} {host : Host W}.

Lemma reads_run {A : Type} (m : M W A) (s : State W) (a : A) :
  preserves whole m -> value m s = Ret a -> m s = (Ret a, s).
Proof.
  intros Hm Hv. specialize (Hm s). unfold whole in Hm. unfold value in Hv.
  destruct (m s) as [r s']. simpl in *. subst. reflexivity.
Qed.

(** C7. On a window that is observed on the target monitor and in the
    desired chrome state (fullscreen wanted: fullscreen; else maximize
    wanted: maximized and not fullscreen; else: neither maximized nor
    fullscreen), [apply_window_rule] performs no operation, so that the
    state and the world are as before, and returns
    [{changed: False, operations: []}]. *)
Theorem apply_window_rule_noop_in_desired_state (s : State W) (hwnd : Z)
  (monitor_id : string) (maximize fullscreen : bool) :
  value (is_window_on_monitor hwnd monitor_id) s = Ret true ->
  (fullscreen = true -> value (is_window_fullscreen hwnd) s = Ret true) ->
  (fullscreen = false -> maximize = true ->
   value (is_window_maximized hwnd) s = Ret true
   /\ value (is_window_fullscreen hwnd) s = Ret false) ->
  (fullscreen = false -> maximize = false ->
   value (is_window_maximized hwnd) s = Ret false
   /\ value (is_window_fullscreen hwnd) s = Ret false) ->
  apply_window_rule hwnd monitor_id maximize fullscreen s
  = (Ret {| changed := false; operations := [] |}, s).
Proof.
  intros Hon Hfull Hmax Hnormal.
  unfold apply_window_rule. unfold bind at 1. unfold get_connected_monitor, gets.
  destruct (dict_get monitor_id (connected_monitors s)) as [monitor|]; [|reflexivity].
  unfold bind at 1.
  assert (Hcorrect : is_window_in_correct_state hwnd monitor_id monitor maximize fullscreen s
                     = (Ret true, s)).
  { unfold is_window_in_correct_state. unfold bind at 1.
    rewrite (reads_run _ _ _ (is_window_on_monitor_reads hwnd monitor_id) Hon).
    cbv beta iota delta [negb].
    destruct fullscreen.
    - apply reads_run; [apply is_window_fullscreen_reads | auto].
    - destruct maximize.
      + destruct (Hmax eq_refl eq_refl) as [H1 H2].
        unfold bind at 1.
        rewrite (reads_run _ _ _ (is_window_maximized_reads hwnd) H1).
        unfold bind at 1.
        rewrite (reads_run _ _ _ (is_window_fullscreen_reads hwnd) H2). reflexivity.
      + destruct (Hnormal eq_refl eq_refl) as [H1 H2].
        unfold bind at 1.
        rewrite (reads_run _ _ _ (is_window_maximized_reads hwnd) H1).
        unfold bind at 1.
        rewrite (reads_run _ _ _ (is_window_fullscreen_reads hwnd) H2). reflexivity. }
  rewrite Hcorrect. reflexivity.
Qed.

End StateMachine.

(** C7 on the end-to-end scenario after one pass: Chrome, already maximized
    on display 2, with [maximize=True, fullscreen=False]. *)
Lemma apply_window_rule_noop_witness :
  value (is_window_on_monitor 100 "monitor_10000001") Scenario.settled = Ret true
  /\ value (is_window_maximized 100) Scenario.settled = Ret true
  /\ value (is_window_fullscreen 100) Scenario.settled = Ret false
  /\ apply_window_rule 100 "monitor_10000001" true false Scenario.settled
     = (Ret {| changed := false; operations := [] |}, Scenario.settled).
Proof.
  assert (Hon : value (is_window_on_monitor 100 "monitor_10000001") Scenario.settled
                = Ret true) by (vm_compute; reflexivity).
  assert (Hmax : value (is_window_maximized 100) Scenario.settled = Ret true)
    by (vm_compute; reflexivity).
  assert (Hfull : value (is_window_fullscreen 100) Scenario.settled = Ret false)
    by (vm_compute; reflexivity).
  split; [exact Hon|]. split; [exact Hmax|]. split; [exact Hfull|].
  apply (apply_window_rule_noop_in_desired_state Scenario.settled 100 "monitor_10000001"
           true false Hon).
  - intros H. discriminate H.
  - intros _ _. split; [exact Hmax | exact Hfull].
  - intros _ H. discriminate H.
Defined.

(** ** The rule application pass *)

Section PassTheorems.

Context {W : Type} {host : Host W}.

Lemma count_nil {A : Type} (p : A -> bool) : count p [] = 0.
Proof. reflexivity. Qed.

Lemma count_cons {A : Type} (p : A -> bool) (x : A) (l : list A) :
  count p (x :: l) = (if p x then 1 else 0) + count p l.
Proof.
  unfold count, len. simpl. destruct (p x); simpl length; lia.
Qed.

Lemma count_app {A : Type} (p : A -> bool) (l1 l2 : list A) :
  count p (l1 ++ l2)%list = count p l1 + count p l2.
Proof.
  induction l1 as [|x l1 IH]; simpl.
  - rewrite count_nil. lia.
  - rewrite !count_cons, IH. lia.
Qed.

Lemma grows_by_refl (results : Summary) : grows_by results results 0 0 0 0.
Proof. unfold grows_by. repeat split; lia. Qed.

Lemma grows_by_trans (r1 r2 r3 : Summary) (a nm nw f a' nm' nw' f' : Z) :
  grows_by r1 r2 a nm nw f -> grows_by r2 r3 a' nm' nw' f' ->
  grows_by r1 r3 (a + a') (nm + nm') (nw + nw') (f + f').
Proof. unfold grows_by. intros H1 H2. repeat split; lia. Qed.

Lemma grows_by_applied (results : Summary) :
  grows_by results (count_applied results) 1 0 0 0.
Proof. unfold grows_by. simpl. repeat split; lia. Qed.

Lemma grows_by_failed (rule : Rule) (e : exn) (results : Summary) :
  grows_by results (count_failed rule e results) 0 0 0 1.
Proof.
  unfold grows_by. simpl. rewrite !count_app, !count_cons, !count_nil.
  repeat split; simpl; lia.
Qed.

Lemma grows_by_skipped_no_monitor (rule : Rule) (results : Summary) :
  grows_by results (count_skipped_no_monitor rule results) 0 1 0 0.
Proof.
  unfold grows_by. simpl. rewrite !count_app, !count_cons, !count_nil.
  repeat split; simpl; lia.
Qed.

Lemma grows_by_skipped_no_window (rule : Rule) (results : Summary) :
  grows_by results (count_skipped_no_window rule results) 0 0 1 0.
Proof.
  unfold grows_by. simpl. rewrite !count_app, !count_cons, !count_nil.
  repeat split; simpl; lia.
Qed.

Lemma grows_by_tally (rule : Rule) (results : Summary) (outcome : res RuleOutcome) :
  grows_by results (tally rule results outcome)
           (if has_changed outcome then 1 else 0) 0 0
           (if has_raised outcome then 1 else 0).
Proof.
  destruct outcome as [o|e]; simpl.
  - destruct (changed o); [apply grows_by_applied | apply grows_by_refl].
  - apply grows_by_failed.
Qed.

Lemma grows_by_tallies (rule : Rule) (outcomes : list (res RuleOutcome))
  (results : Summary) :
  grows_by results (fold_left (tally rule) outcomes results)
           (count has_changed outcomes) 0 0 (count has_raised outcomes).
Proof.
  revert results. induction outcomes as [|o outcomes IH]; intros results; simpl.
  - apply grows_by_refl.
  - rewrite !count_cons.
    pose proof (grows_by_trans _ _ _ _ _ _ _ _ _ _ _
                  (grows_by_tally rule results o) (IH (tally rule results o))) as H.
    exact H.
Qed.

(** One call of the state machine, caught: it always ends with an outcome
    and writes to the world only. *)
Lemma attempt_returns (rule : Rule) (window : Window) (s : State W) :
  exists outcome s',
    attempt rule window s = (Ret outcome, s') /\ managers s' = managers s.
Proof.
  pose proof (apply_window_rule_keeps_managers (hwnd window) (target_monitor_id rule)
                (maximize rule) (fullscreen rule) s) as Hframe.
  unfold attempt, try_except, bind, ret.
  destruct (apply_window_rule (hwnd window) (target_monitor_id rule)
              (maximize rule) (fullscreen rule) s) as [[o|e] s']; simpl in Hframe; eauto.
Qed.

Lemma apply_rule_to_window_skips (rule : Rule) (results : Summary) (window : Window)
  (s : State W) :
  eligible window = false ->
  apply_rule_to_window rule results window s = (Ret results, s).
Proof.
  unfold eligible, apply_rule_to_window, try_except. intros H.
  destruct (is_minimized window); [reflexivity|]. cbv zeta.
  destruct (PyStr.truthy (PyStr.strip (title window))); [|reflexivity].
  destruct (String.eqb (PyStr.strip (title window)) "Program Manager"); [reflexivity|].
  discriminate H.
Qed.

Lemma apply_rule_to_window_attempts (rule : Rule) (results : Summary) (window : Window)
  (s : State W) :
  eligible window = true ->
  exists outcome s',
    attempt rule window s = (Ret outcome, s')
    /\ apply_rule_to_window rule results window s = (Ret (tally rule results outcome), s').
Proof.
  unfold eligible, apply_rule_to_window, attempt, try_except. intros H.
  destruct (is_minimized window); [discriminate H|]. cbv zeta.
  destruct (PyStr.truthy (PyStr.strip (title window))); [|discriminate H].
  destruct (String.eqb (PyStr.strip (title window)) "Program Manager"); [discriminate H|].
  cbv beta iota delta [negb bind ret].
  destruct (apply_window_rule (hwnd window) (target_monitor_id rule)
              (maximize rule) (fullscreen rule) s) as [[o|e] s'].
  - exists (Ret o), s'. split; [reflexivity|]. simpl. destruct (changed o); reflexivity.
  - exists (Raise e), s'. split; reflexivity.
Qed.

Lemma run_plan_returns (pairs : list (Rule * Window)) (s : State W) :
  exists outcomes s',
    run_plan pairs s = (Ret outcomes, s')
    /\ managers s' = managers s
    /\ length outcomes = length pairs.
Proof.
  revert s. induction pairs as [|[rule window] pairs IH]; intros s.
  - exists [], s. auto.
  - destruct (attempt_returns rule window s) as (o & s1 & Ho & Hm1).
    destruct (IH s1) as (os & s2 & Hos & Hm2 & Hlen).
    exists (o :: os), s2. simpl. unfold bind. rewrite Ho, Hos.
    split; [reflexivity|]. split; [congruence | simpl; congruence].
Qed.

Lemma run_plan_app (p1 p2 : list (Rule * Window)) (s s1 s2 : State W)
  (o1 o2 : list (res RuleOutcome)) :
  run_plan p1 s = (Ret o1, s1) -> run_plan p2 s1 = (Ret o2, s2) ->
  run_plan (p1 ++ p2)%list s = (Ret (o1 ++ o2)%list, s2).
Proof.
  revert s o1. induction p1 as [|[rule window] p1 IH]; intros s o1; simpl.
  - intros [= <- <-] H. exact H.
  - unfold bind at 1.
    destruct (attempt_returns rule window s) as (o & s' & Ho & _). rewrite Ho.
    unfold bind at 1.
    destruct (run_plan_returns p1 s') as (os & s'' & Hos & _). rewrite Hos.
    intros [= <- <-] H2. unfold bind. rewrite Ho. rewrite (IH _ _ Hos H2). reflexivity.
Qed.

(** The loop over the matching windows of one rule calls the state machine
    on the eligible ones, in order, and tallies the outcomes. *)
Lemma window_loop (rule : Rule) (windows : list Window) (results : Summary) (s : State W) :
  exists outcomes s',
    run_plan (map (pair rule) (List.filter eligible windows)) s = (Ret outcomes, s')
    /\ fold_m (apply_rule_to_window rule) windows results s
       = (Ret (fold_left (tally rule) outcomes results), s').
Proof.
  revert results s. induction windows as [|window windows IH]; intros results s.
  - exists [], s. split; reflexivity.
  - simpl. destruct (eligible window) eqn:He.
    + destruct (apply_rule_to_window_attempts rule results window s He)
        as (o & s1 & Ho & Hstep).
      destruct (IH (tally rule results o) s1) as (os & s2 & Hos & Hloop).
      exists (o :: os), s2. split.
      * simpl. unfold bind. rewrite Ho, Hos. reflexivity.
      * unfold bind. rewrite Hstep. exact Hloop.
    + destruct (IH results s) as (os & s2 & Hos & Hloop).
      exists os, s2. split; [exact Hos|].
      unfold bind. rewrite (apply_rule_to_window_skips _ _ _ _ He). exact Hloop.
Qed.

(** The loop over the rules runs the plan of the pass, pair by pair, never
    raises, and counts what the plan and the rules give. *)
Lemma rule_loop (windows : list Window) (rules : list Rule) (results : Summary)
  (s : State W) :
  exists outcomes s' summary,
    run_plan (plan (connected_monitors s) rules windows) s = (Ret outcomes, s')
    /\ fold_m (apply_rule windows) rules results s = (Ret summary, s')
    /\ grows_by results summary
                (count has_changed outcomes)
                (count (not_connected (connected_monitors s)) rules)
                (count (finds_no_window (connected_monitors s) windows) rules)
                (count has_raised outcomes).
Proof.
  revert results s. induction rules as [|rule rules IH]; intros results s.
  - exists [], s, results. split; [reflexivity|]. split; [reflexivity|].
    apply grows_by_refl.
  - simpl plan. rewrite !count_cons. unfold not_connected at 1, finds_no_window at 1.
    simpl fold_m. unfold bind at 1. unfold apply_rule at 1. cbv zeta.
    unfold bind at 1. unfold is_monitor_connected, gets.
    destruct (dict_has (target_monitor_id rule) (connected_monitors s)) eqn:Hconn;
      cbv beta iota delta [negb].
    + destruct (matching_windows rule windows) as [|w ws] eqn:Hmatch.
      * destruct (IH (count_skipped_no_window rule results) s)
          as (os & s' & summary & Hplan & Hloop & Hgrow).
        exists os, s', summary. unfold targets. rewrite Hmatch. simpl.
        split; [exact Hplan|]. split; [exact Hloop|].
        pose proof (grows_by_trans _ _ _ _ _ _ _ _ _ _ _
                      (grows_by_skipped_no_window rule results) Hgrow) as H.
        simpl in H. exact H.
      * destruct (window_loop rule (w :: ws) results s) as (os1 & s1 & Hos1 & Hloop1).
        pose proof (run_plan_returns (map (pair rule) (List.filter eligible (w :: ws))) s)
          as (os1' & s1' & Hos1' & Hm1 & _).
        rewrite Hos1 in Hos1'. injection Hos1' as <- <-.
        assert (Hc : connected_monitors s1 = connected_monitors s)
          by (unfold managers in Hm1; congruence).
        destruct (IH (fold_left (tally rule) os1 results) s1)
          as (os2 & s2 & summary & Hplan & Hloop & Hgrow).
        rewrite Hc in Hplan, Hgrow.
        exists (os1 ++ os2)%list, s2, summary. unfold targets. rewrite Hmatch.
        split; [apply (run_plan_app _ _ _ _ _ _ _ Hos1 Hplan)|].
        split; [rewrite Hloop1; exact Hloop|].
        rewrite !count_app.
        pose proof (grows_by_trans _ _ _ _ _ _ _ _ _ _ _
                      (grows_by_tallies rule os1 results) Hgrow) as H.
        simpl in H. exact H.
    + destruct (IH (count_skipped_no_monitor rule results) s)
        as (os & s' & summary & Hplan & Hloop & Hgrow).
      exists os, s', summary. simpl.
      split; [exact Hplan|]. split; [exact Hloop|].
      pose proof (grows_by_trans _ _ _ _ _ _ _ _ _ _ _
                    (grows_by_skipped_no_monitor rule results) Hgrow) as H.
      simpl in H. exact H.
Qed.

End PassTheorems.

Section PassAsAWhole.

Context {W : Type} {host : Host W}.

Lemma detect_monitors_returns (s : State W) :
  exists ids, detect_monitors s = (Ret ids, after detect_monitors s).
Proof.
  unfold after, detect_monitors, try_except.
  match goal with |- context [let (_, _) := ?m s in _] => destruct (m s) as [[ids|e] s'] end;
    simpl; eauto.
Qed.

(** [apply_rules], step by step. *)
Lemma apply_rules_cases (s : State W) :
  apply_rules s
  = let s1 := after detect_monitors s in
    if negb (layout_manager s) then (Ret zero_summary, s1)
    else match get_active_rules s1 with
         | (Raise e, s2) => (Raise e, s2)
         | (Ret [], s2) => (Ret zero_summary, s2)
         | (Ret (rule :: rules), s2) =>
             match get_all_windows s2 with
             | (Raise e, s3) => (Raise e, s3)
             | (Ret windows, s3) =>
                 fold_m (apply_rule windows) (rule :: rules) zero_summary s3
             end
         end.
Proof.
  cbv zeta. unfold apply_rules. unfold bind at 1.
  destruct (detect_monitors_returns s) as [ids Hd]. rewrite Hd.
  unfold bind at 1. unfold gets at 1.
  pose proof (detect_monitors_keeps_slot s) as Hslot. unfold layout_slot in Hslot.
  injection Hslot as _ Hlm. fold (after detect_monitors s) in Hlm. rewrite Hlm.
  destruct (negb (layout_manager s)); [reflexivity|].
  unfold bind at 1.
  destruct (get_active_rules (after detect_monitors s)) as [[[|rule rules]|e] s2];
    try reflexivity.
Qed.

(** Which pairs the plan of a pass holds: every rule with a connected
    target and every eligible window it matches, whatever other rules match
    that window. *)
Lemma in_plan (connected : list (string * ScreenInfo)) (rules : list Rule)
  (windows : list Window) (rule : Rule) (window : Window) :
  In (rule, window) (plan connected rules windows)
  <-> In rule rules
      /\ dict_has (target_monitor_id rule) connected = true
      /\ In window windows
      /\ rule_matches window (Some (match_type rule)) (Some (match_value rule)) = true
      /\ eligible window = true.
Proof.
  unfold plan. rewrite in_flat_map. split.
  - intros (r & Hr & Hin).
    destruct (dict_has (target_monitor_id r) connected) eqn:Hc; [|destruct Hin].
    apply in_map_iff in Hin as (w & [= <- <-] & Hw).
    unfold targets, matching_windows in Hw.
    apply filter_In in Hw as [Hw He]. apply filter_In in Hw as [Hw Hm]. auto.
  - intros (Hr & Hc & Hw & Hm & He). exists rule. split; [exact Hr|]. rewrite Hc.
    apply in_map. unfold targets, matching_windows.
    apply filter_In. split; [|exact He]. apply filter_In. auto.
Qed.

(** [find_matching_rule_for_window] answers the first stored rule that
    matches. *)
Lemma find_matching_rule_first (window : Window) (stored : list LayoutRule)
  (found : LayoutRule) :
  find_matching_rule_for_window window stored = Some found
  <-> exists before rest,
      stored = (before ++ found :: rest)%list
      /\ rule_matches window (lr_match_type found) (lr_match_value found) = true
      /\ Forall (fun r => rule_matches window (lr_match_type r) (lr_match_value r) = false)
                before.
Proof.
  induction stored as [|r stored IH]; simpl.
  - split; [discriminate|]. intros (before & rest & E & _). destruct before; discriminate E.
  - destruct (rule_matches window (lr_match_type r) (lr_match_value r)) eqn:Hr.
    + split.
      * intros [= <-]. exists [], stored. auto.
      * intros (before & rest & E & Hm & Hb). destruct before as [|b before].
        -- injection E as <- _. reflexivity.
        -- injection E as <- _. inversion Hb; subst. congruence.
    + rewrite IH. split.
      * intros (before & rest & -> & Hm & Hb). exists (r :: before), rest. auto.
      * intros (before & rest & E & Hm & Hb). destruct before as [|b before].
        -- injection E as <- _. congruence.
        -- injection E as <- ->. inversion Hb; subst. eauto.
Qed.

(** C1, as the program has it. At enforcement time the pass calls the state
    machine on the pairs of its plan, in order: for each active rule in
    rule order whose target monitor is connected, on every enumerated
    window that the rule's predicate matches and that is not minimized,
    untitled or the desktop. A pair is in the plan whatever other rules
    match its window, so a window matched by several rules has each of them
    applied in the same pass. The state after the pass is the state after
    that run, and [applied] counts the calls that changed something. Only
    [find_matching_rule_for_window] stops at the first matching rule. *)
Theorem pass_applies_every_matching_rule (s : State W) (rules : list Rule)
  (windows : list Window) :
  layout_manager s = true ->
  value get_active_rules (after detect_monitors s) = Ret rules ->
  rules <> [] ->
  value get_all_windows (after get_active_rules (after detect_monitors s)) = Ret windows ->
  let connected := connected_monitors (after detect_monitors s) in
  (exists outcomes summary,
      run_plan (plan connected rules windows)
               (after get_active_rules (after detect_monitors s))
      = (Ret outcomes, after apply_rules s)
      /\ value apply_rules s = Ret summary
      /\ applied summary = count has_changed outcomes)
  /\ (forall rule window,
         In (rule, window) (plan connected rules windows)
         <-> In rule rules
             /\ dict_has (target_monitor_id rule) connected = true
             /\ In window windows
             /\ rule_matches window (Some (match_type rule)) (Some (match_value rule)) = true
             /\ eligible window = true)
  /\ (forall window stored found,
         find_matching_rule_for_window window stored = Some found
         <-> exists before rest,
             stored = (before ++ found :: rest)%list
             /\ rule_matches window (lr_match_type found) (lr_match_value found) = true
             /\ Forall (fun r => rule_matches window (lr_match_type r) (lr_match_value r)
                                 = false) before).
Proof.
  intros Hlm Hrules Hne Hwindows connected.
  split; [|split; [intros; apply in_plan | intros; apply find_matching_rule_first]].
  unfold value, after in *. rewrite apply_rules_cases. cbv zeta. rewrite Hlm. simpl negb.
  cbv iota. unfold after.
  pose proof (get_active_rules_keeps_managers (snd (detect_monitors s))) as Hm2.
  destruct (get_active_rules (snd (detect_monitors s))) as [r2 s2]. cbn [fst snd] in *. subst r2.
  destruct rules as [|rule rules]; [contradiction Hne; reflexivity|].
  pose proof (get_all_windows_reads s2) as Hw. unfold whole in Hw.
  destruct (get_all_windows s2) as [r3 s3]. cbn [fst snd] in *. subst r3 s3.
  destruct (rule_loop windows (rule :: rules) zero_summary s2)
    as (outcomes & s' & summary & Hplan & Hloop & Hgrow).
  assert (Hc : connected_monitors s2 = connected)
    by (unfold managers in Hm2; subst connected; congruence).
  rewrite Hc in Hplan. rewrite Hloop. cbn [fst snd].
  exists outcomes, summary. split; [exact Hplan|]. split; [reflexivity|].
  destruct Hgrow as (Ha & _). simpl in Ha. lia.
Qed.

(** C6, as the program has it. A pass ends with the zero-work summary when
    no layout manager is configured or no rule is active. Otherwise, once
    the rules are resolved and the windows enumerated, it always ends with
    a summary: every pair of the plan is tried, whatever the earlier ones
    did; [failed] is the number of calls of the state machine that raised
    and [applied] the number that changed something; [skipped_no_monitor]
    is the number of rules whose target monitor is not connected;
    [skipped_no_window] is the number of rules whose target monitor is
    connected and that match no window; and the details hold one entry per
    failure and per skipped rule. An exception leaves the pass only from
    the resolution of the rules or the enumeration of the windows. *)
Theorem apply_rules_absorbs_window_failures (s : State W) :
  (layout_manager s = false -> value apply_rules s = Ret zero_summary)
  /\ (value get_active_rules (after detect_monitors s) = Ret [] ->
      value apply_rules s = Ret zero_summary)
  /\ (forall rules windows,
         layout_manager s = true ->
         value get_active_rules (after detect_monitors s) = Ret rules ->
         rules <> [] ->
         value get_all_windows (after get_active_rules (after detect_monitors s))
         = Ret windows ->
         let connected := connected_monitors (after detect_monitors s) in
         exists outcomes summary,
           run_plan (plan connected rules windows)
                    (after get_active_rules (after detect_monitors s))
           = (Ret outcomes, after apply_rules s)
           /\ length outcomes = length (plan connected rules windows)
           /\ value apply_rules s = Ret summary
           /\ grows_by zero_summary summary
                       (count has_changed outcomes)
                       (count (not_connected connected) rules)
                       (count (finds_no_window connected windows) rules)
                       (count has_raised outcomes))
  /\ (forall e, value apply_rules s = Raise e ->
        value get_active_rules (after detect_monitors s) = Raise e
        \/ value get_all_windows (after get_active_rules (after detect_monitors s))
           = Raise e).
Proof.
  split; [|split; [|split]].
  - intros Hlm. unfold value. rewrite apply_rules_cases. cbv zeta. rewrite Hlm. reflexivity.
  - intros Hrules. unfold value in *. rewrite apply_rules_cases. cbv zeta.
    destruct (negb (layout_manager s)); [reflexivity|].
    destruct (get_active_rules (after detect_monitors s)) as [r2 s2]. simpl in Hrules.
    subst r2. reflexivity.
  - intros rules windows Hlm Hrules Hne Hwindows connected.
    unfold value, after in *. rewrite apply_rules_cases. cbv zeta. rewrite Hlm. simpl negb.
    cbv iota. unfold after.
    pose proof (get_active_rules_keeps_managers (snd (detect_monitors s))) as Hm2.
    destruct (get_active_rules (snd (detect_monitors s))) as [r2 s2]. cbn [fst snd] in *. subst r2.
    destruct rules as [|rule rules]; [contradiction Hne; reflexivity|].
    pose proof (get_all_windows_reads s2) as Hw. unfold whole in Hw.
    destruct (get_all_windows s2) as [r3 s3]. cbn [fst snd] in *. subst r3 s3.
    destruct (rule_loop windows (rule :: rules) zero_summary s2)
      as (outcomes & s' & summary & Hplan & Hloop & Hgrow).
    assert (Hc : connected_monitors s2 = connected)
      by (unfold managers in Hm2; subst connected; congruence).
    rewrite Hc in Hplan, Hgrow. rewrite Hloop. cbn [fst snd].
    exists outcomes, summary. split; [exact Hplan|].
    destruct (run_plan_returns (plan connected (rule :: rules) windows) s2)
      as (os & s'' & Hos & _ & Hlen).
    rewrite Hplan in Hos. injection Hos as <- <-.
    split; [exact Hlen|]. split; [reflexivity | exact Hgrow].
  - intros e. unfold value, after. rewrite apply_rules_cases. cbv zeta.
    destruct (negb (layout_manager s)); [discriminate|]. unfold after.
    destruct (get_active_rules (snd (detect_monitors s))) as [[[|rule rules]|e2] s2];
      cbn [fst snd]; [discriminate| |intros [= <-]; left; reflexivity].
    destruct (get_all_windows s2) as [[windows|e3] s3]; cbn [fst snd];
      [|intros [= <-]; right; reflexivity].
    destruct (rule_loop windows (rule :: rules) zero_summary s3)
      as (outcomes & s' & summary & _ & Hloop & _).
    rewrite Hloop. discriminate.
Qed.

End PassAsAWhole.

(** ** Enumerated windows *)

Section Enumeration.

Context {W : Type} {host : Host W}.

Lemma ensures_ret {A : Type} (a : A) (P : A -> Prop) : P a -> ensures (W:=W) (ret a) P.
Proof. intros H s a' s' [= <- <-]. exact H. Qed.

Lemma ensures_bind {A B : Type} (m : M W A) (k : A -> M W B) (P : B -> Prop) :
  (forall a, ensures (k a) P) -> ensures (bind m k) P.
Proof.
  intros Hk s b s'. unfold bind. destruct (m s) as [[a|e] s1]; [apply Hk | discriminate].
Qed.

Lemma ensures_try_except {A : Type} (m : M W A) (h : exn -> M W A) (P : A -> Prop) :
  ensures m P -> (forall e, ensures (h e) P) -> ensures (try_except m h) P.
Proof.
  intros Hm Hh s a s'. unfold try_except. destruct (m s) as [[a'|e] s1] eqn:E.
  - intros [= <- <-]. apply (Hm _ _ _ E).
  - apply Hh.
Qed.

Lemma ensures_fold_m {A B : Type} (body : B -> A -> M W B) (xs : list A) (b : B)
  (P : B -> Prop) :
  (forall b a, P b -> ensures (body b a) P) -> P b -> ensures (fold_m body xs b) P.
Proof.
  intros Hbody. revert b. induction xs as [|x xs IH]; intros b Hb; simpl.
  - apply ensures_ret, Hb.
  - intros s b' s'. unfold bind. destruct (body b x s) as [[b1|e] s1] eqn:E; [|discriminate].
    apply IH. apply (Hbody _ _ Hb _ _ _ E).
Qed.

(** [window_info] fills [app_name] with the executable name. *)
Lemma window_info_app_name (hwnd : Z) :
  ensures (window_info hwnd)
          (fun info => forall window, info = Some window ->
                                      app_name window = exe_name window).
Proof.
  unfold window_info.
  repeat (apply ensures_bind; intros ?). cbv zeta.
  repeat match goal with
         | |- ensures (if ?b then _ else _) _ => destruct b
         | |- ensures (ret None) _ => apply ensures_ret; discriminate
         end.
  repeat (apply ensures_bind; intros ?).
  apply ensures_ret. intros window [= <-]. reflexivity.
Qed.

(** Every window that [get_all_windows] lists has its executable name as
    [app_name], so that the "exe" branch of the predicate compares
    [exe_name]. *)
Lemma get_all_windows_app_name :
  ensures get_all_windows (Forall (fun window => app_name window = exe_name window)).
Proof.
  unfold get_all_windows. apply ensures_bind. intros hwnds.
  apply ensures_fold_m; [|constructor].
  intros windows hwnd Hall. apply ensures_try_except.
  - intros s ws s'. unfold bind.
    destruct (window_info hwnd s) as [[info|e] s1] eqn:E; [|discriminate].
    destruct info as [w|]; intros [= <- <-]; [|exact Hall].
    apply Forall_app. split; [exact Hall|]. constructor; [|constructor].
    apply (window_info_app_name hwnd _ _ _ E). reflexivity.
  - intros e. apply ensures_ret, Hall.
Qed.

End Enumeration.

Section EnumerationFailures.

Context {W : Type} {host : Host W}.

Lemma returns_fold_m {A B : Type} (body : B -> A -> M W B) (xs : list A) (b : B) :
  (forall b a, returns (body b a)) -> returns (fold_m body xs b).
Proof.
  intros Hbody. revert b. induction xs as [|x xs IH]; intros b s; simpl.
  - exists b, s. reflexivity.
  - unfold bind. destruct (Hbody b x s) as (b' & s' & E). rewrite E. apply IH.
Qed.

Lemma returns_caught {A : Type} (m : M W A) (a : A) :
  returns (try_except m (fun _ => ret a)).
Proof.
  intros s. unfold try_except, ret. destruct (m s) as [[a'|e] s']; eauto.
Qed.

(** The enumeration of the windows raises only what [EnumWindows] itself
    raises: a failure on one handle or one window leaves that window out. *)
Lemma get_all_windows_raises (s : State W) (e : exn) :
  value get_all_windows s = Raise e -> EnumWindows (world s) = Raise e.
Proof.
  unfold value, get_all_windows, _enum_top_level_windows.
  unfold bind at 1. unfold bind at 1. unfold call at 1.
  destruct (EnumWindows (world s)) as [handles|e0]; [|intros [= <-]; reflexivity].
  match goal with
  | |- context [fold_m ?body handles [] s] =>
      destruct (returns_fold_m body handles []) with (s := s) as (hwnds & s1 & E)
  end.
  { intros b a s0. unfold bind.
    destruct (returns_caught (bind (call (fun w => IsWindow w a))
                                   (fun real => if negb real then ret false
                                                else call (fun w => IsWindowVisible w a)))
                             false s0) as (keep & s2 & E).
    unfold enum_keeps. rewrite E. eauto. }
  rewrite E.
  match goal with
  | |- context [fold_m ?body hwnds [] s1] =>
      destruct (returns_fold_m body hwnds []) with (s := s1) as (ws & s2 & E2)
  end.
  { intros b a. apply returns_caught. }
  rewrite E2. discriminate.
Qed.

End EnumerationFailures.

(** ** Runs on the reference desktop *)

(** C1 as stated fails where two rules match one window. Chrome matches
    the first stored rule (by executable, to display 2, maximized) and the
    second (by title, to display 1, normal). The first match is the rule by
    executable; yet the pass calls the state machine for both rules on the
    window, counts two applications, and leaves the window where the second
    rule sends it: restored, on display 1. *)
Lemma first_match_wins_counterexample :
  value get_active_rules (after detect_monitors Scenario.activated_overlap)
  = Ret [Scenario.rule_exe; Scenario.rule_title]
  /\ value get_all_windows
           (after get_active_rules (after detect_monitors Scenario.activated_overlap))
     = Ret [Scenario.chrome_window]
  /\ find_matching_rule_for_window Scenario.chrome_window (stored_rules Scenario.overlap)
     = Some (Scenario.stored_rule "rule_exe" "exe" "chrome.exe" 2 true false)
  /\ plan (connected_monitors (after detect_monitors Scenario.activated_overlap))
          [Scenario.rule_exe; Scenario.rule_title] [Scenario.chrome_window]
     = [(Scenario.rule_exe, Scenario.chrome_window);
        (Scenario.rule_title, Scenario.chrome_window)]
  /\ value apply_rules Scenario.activated_overlap
     = Ret {| applied := 2; skipped_no_monitor := 0; skipped_no_window := 0;
              failed := 0; details := [] |}
  /\ Desk.windows (world (after apply_rules Scenario.activated_overlap))
     = [Desk.set_rect (0, 0, 1080, 1920) Scenario.chrome]
  /\ ~ first_match_only
         (plan (connected_monitors (after detect_monitors Scenario.activated_overlap))
               [Scenario.rule_exe; Scenario.rule_title] [Scenario.chrome_window])
         [Scenario.rule_exe; Scenario.rule_title].
Proof.
  assert (Hplan : plan (connected_monitors
                          (after detect_monitors Scenario.activated_overlap))
                       [Scenario.rule_exe; Scenario.rule_title] [Scenario.chrome_window]
                  = [(Scenario.rule_exe, Scenario.chrome_window);
                     (Scenario.rule_title, Scenario.chrome_window)])
    by (vm_compute; reflexivity).
  split; [vm_compute; reflexivity|]. split; [vm_compute; reflexivity|].
  split; [vm_compute; reflexivity|]. split; [exact Hplan|].
  split; [vm_compute; reflexivity|]. split; [vm_compute; reflexivity|].
  rewrite Hplan. intros H.
  destruct (H Scenario.rule_title Scenario.chrome_window) as (before & rest & E & Hb);
    [right; left; reflexivity|].
  destruct before as [|b before]; [discriminate E|].
  injection E as <- _. inversion Hb as [|? ? Hno _]; subst. vm_compute in Hno.
  discriminate Hno.
Qed.

(** C1, as the program has it, on the same run. *)
Lemma pass_applies_every_matching_rule_witness :
  layout_manager Scenario.activated_overlap = true
  /\ value get_active_rules (after detect_monitors Scenario.activated_overlap)
     = Ret [Scenario.rule_exe; Scenario.rule_title]
  /\ [Scenario.rule_exe; Scenario.rule_title] <> []
  /\ value get_all_windows
           (after get_active_rules (after detect_monitors Scenario.activated_overlap))
     = Ret [Scenario.chrome_window]
  /\ exists outcomes summary,
      run_plan (plan (connected_monitors (after detect_monitors Scenario.activated_overlap))
                     [Scenario.rule_exe; Scenario.rule_title] [Scenario.chrome_window])
               (after get_active_rules (after detect_monitors Scenario.activated_overlap))
      = (Ret outcomes, after apply_rules Scenario.activated_overlap)
      /\ value apply_rules Scenario.activated_overlap = Ret summary
      /\ applied summary = count has_changed outcomes.
Proof.
  assert (H1 : layout_manager Scenario.activated_overlap = true) by reflexivity.
  assert (H2 : value get_active_rules (after detect_monitors Scenario.activated_overlap)
               = Ret [Scenario.rule_exe; Scenario.rule_title])
    by (vm_compute; reflexivity).
  assert (H3 : [Scenario.rule_exe; Scenario.rule_title] <> []) by discriminate.
  assert (H4 : value get_all_windows
                     (after get_active_rules
                            (after detect_monitors Scenario.activated_overlap))
               = Ret [Scenario.chrome_window])
    by (vm_compute; reflexivity).
  split; [exact H1|]. split; [exact H2|]. split; [exact H3|]. split; [exact H4|].
  exact (proj1 (pass_applies_every_matching_rule Scenario.activated_overlap
                  [Scenario.rule_exe; Scenario.rule_title] [Scenario.chrome_window]
                  H1 H2 H3 H4)).
Defined.

(** C6 as stated fails for a rule that has no matching window and whose
    target monitor is not connected: display 2 is unplugged and no Notepad
    window is open; the pass counts the rule under [skipped_no_monitor]
    alone. *)
Lemma skipped_no_window_counterexample :
  value get_active_rules (after detect_monitors Scenario.unplugged_notes)
  = Ret [Scenario.rule_notepad]
  /\ value get_all_windows
           (after get_active_rules (after detect_monitors Scenario.unplugged_notes))
     = Ret [Scenario.chrome_window]
  /\ matching_windows Scenario.rule_notepad [Scenario.chrome_window] = []
  /\ value apply_rules Scenario.unplugged_notes
     = Ret {| applied := 0; skipped_no_monitor := 1; skipped_no_window := 0;
              failed := 0;
              details := [ {| d_rule_id := "rule_notepad";
                              d_result := "skipped_no_monitor";
                              d_message :=
                                "Target monitor monitor_10000001 is not connected" |} ] |}
  /\ ~ counts_every_windowless_rule
         [Scenario.rule_notepad] [Scenario.chrome_window]
         {| applied := 0; skipped_no_monitor := 1; skipped_no_window := 0;
            failed := 0;
            details := [ {| d_rule_id := "rule_notepad";
                            d_result := "skipped_no_monitor";
                            d_message :=
                              "Target monitor monitor_10000001 is not connected" |} ] |}.
Proof.
  split; [vm_compute; reflexivity|]. split; [vm_compute; reflexivity|].
  split; [vm_compute; reflexivity|]. split; [vm_compute; reflexivity|].
  unfold counts_every_windowless_rule. intros H. vm_compute in H. discriminate H.
Qed.

(** The end-to-end scenario of the specification: Chrome, a normal window
    on display 1, is moved to display 2 and maximized. *)
Example end_to_end_move_and_maximize :
  value (apply_window_rule 100 "monitor_10000001" true false) Scenario.activated_two_screens
  = Ret {| changed := true; operations := ["move"; "maximize"] |}
  /\ value apply_rules Scenario.activated_two_screens
     = Ret {| applied := 1; skipped_no_monitor := 0; skipped_no_window := 0;
              failed := 0; details := [] |}
  /\ Desk.windows (world Scenario.settled)
     = [Desk.set_showCmd SW_SHOWMAXIMIZED
          (Desk.set_rect (1080, 0, 3000, 1080) Scenario.chrome)].
Proof. repeat split; vm_compute; reflexivity. Qed.

(** The revocation scenario of the specification: display 2 is unplugged;
    after the next detection the validity check answers [False] and empties
    the slot, and the next pass finds no rule. *)
Example end_to_end_revocation :
  value check_active_layout_validity (after detect_monitors Scenario.unplugged_notes)
  = Ret false
  /\ active_layout (run_ops [Detect; CheckValidity] Scenario.unplugged_notes) = None
  /\ value apply_rules (run_ops [Detect; CheckValidity] Scenario.unplugged_notes)
     = Ret zero_summary.
Proof. repeat split; vm_compute; reflexivity. Qed.

(** A second activation while a layout is active is refused and changes
    nothing; a layout whose file is missing is refused with an error. *)
Example activation_is_guarded :
  activate_layout "coding" Scenario.activated_two_screens
  = (Ret {| act_success := false; act_layout := None; act_rules_applied := None;
            act_message := "Layout 'Coding' is already active. "
                             +:+ "Deactivate it first before activating another." |},
     Scenario.activated_two_screens)
  /\ activate_layout "gaming" (after detect_monitors Scenario.two_screens)
     = (Raise (LayoutError
                 "Cannot load layout: Layout file not found: layouts\gaming.json"),
        after detect_monitors Scenario.two_screens).
Proof. split; vm_compute; reflexivity. Qed.

(** A window of an elevated process refuses [ShowWindow]: the failure is
    counted and the pass goes on to the next window. *)
Example pass_continues_after_failure :
  value apply_rules Scenario.activated_with_elevated
  = Ret {| applied := 1; skipped_no_monitor := 0; skipped_no_window := 0; failed := 1;
           details := [ {| d_rule_id := "rule_chrome"; d_result := "error";
                           d_message := "Access is denied." |} ] |}.
Proof. vm_compute. reflexivity. Qed.

(** The examples of the specification for the executable names and the
    orientation. *)
Example exe_names_normalize :
  normalize_exe_name "chrome" = normalize_exe_name "Chrome.EXE"
  /\ normalize_exe_name "chrome.exe" <> normalize_exe_name "chromium.exe".
Proof. split; [reflexivity | discriminate]. Qed.

Example orientation_boundary :
  get_orientation 1920 1080 = "horizontal"
  /\ get_orientation 1080 1920 = "vertical"
  /\ get_orientation 1000 1000 = "vertical".
Proof. repeat split. Qed.

(** The example of the specification for the display requirements. *)
Example display_requirements_example :
  matches_requirements
    [Scenario.screen_entry 1 "vertical" "monitor_a" 1080 1920;
     Scenario.screen_entry 2 "horizontal" "monitor_b" 1920 1080]
    (requirements_of (Some 2) [(1, "vertical"); (2, "horizontal")])
  = Ret (true, "All requirements met")
  /\ matches_requirements
       [Scenario.screen_entry 1 "vertical" "monitor_a" 1080 1920;
        Scenario.screen_entry 2 "vertical" "monitor_b" 1080 1920]
       (requirements_of (Some 2) [(1, "vertical"); (2, "horizontal")])
     = Ret (false, "DISPLAY2 is vertical, but layout needs horizontal").
Proof. split; reflexivity. Qed.

(** ** Executable names in normal form *)

Lemma lower_char_lower_char (c : ascii) :
  PyStr.lower_char (PyStr.lower_char c) = PyStr.lower_char c.
Proof.
  destruct c as [b0 b1 b2 b3 b4 b5 b6 b7].
  destruct b0, b1, b2, b3, b4, b5, b6, b7; reflexivity.
Qed.

Lemma is_space_lower_char (c : ascii) :
  PyStr.is_space (PyStr.lower_char c) = PyStr.is_space c.
Proof.
  destruct c as [b0 b1 b2 b3 b4 b5 b6 b7].
  destruct b0, b1, b2, b3, b4, b5, b6, b7; reflexivity.
Qed.

(** [lower_char] moves no byte to or from the upper half, where the bytes
    of the characters beyond ASCII lie. *)
Lemma lower_char_code (c : ascii) :
  PyStr.lower_char c = c
  \/ ((N_of_ascii c < 128)%N /\ (N_of_ascii (PyStr.lower_char c) < 128)%N).
Proof.
  unfold PyStr.lower_char.
  destruct ((65 <=? N_of_ascii c)%N && (N_of_ascii c <=? 90)%N) eqn:E; [|left; reflexivity].
  apply andb_true_iff in E as [E1 E2]. apply N.leb_le in E1, E2.
  right. rewrite N_ascii_embedding by lia. lia.
Qed.

Lemma lower_char_eqb (c : ascii) (k : N) :
  (128 <= k)%N -> (N_of_ascii (PyStr.lower_char c) =? k)%N = (N_of_ascii c =? k)%N.
Proof.
  intros Hk. destruct (lower_char_code c) as [-> | [H1 H2]]; [reflexivity|].
  rewrite (proj2 (N.eqb_neq _ _)), (proj2 (N.eqb_neq _ _)) by lia. reflexivity.
Qed.

Lemma lower_char_leb (c : ascii) (k : N) :
  (128 <= k)%N ->
  (k <=? N_of_ascii (PyStr.lower_char c))%N = (k <=? N_of_ascii c)%N.
Proof.
  intros Hk. destruct (lower_char_code c) as [-> | [H1 H2]]; [reflexivity|].
  rewrite (proj2 (N.leb_gt _ _)), (proj2 (N.leb_gt _ _)) by lia. reflexivity.
Qed.

Lemma lower_char_geb (c : ascii) (k : N) :
  (128 <= k)%N ->
  (N_of_ascii (PyStr.lower_char c) <=? k)%N = (N_of_ascii c <=? k)%N.
Proof.
  intros Hk. destruct (lower_char_code c) as [-> | [H1 H2]]; [reflexivity|].
  rewrite (proj2 (N.leb_le _ _)), (proj2 (N.leb_le _ _)) by lia. reflexivity.
Qed.

Lemma is_space2_lower_char (c1 c2 : ascii) :
  PyStr.is_space2 (PyStr.lower_char c1) (PyStr.lower_char c2) = PyStr.is_space2 c1 c2.
Proof. unfold PyStr.is_space2. rewrite !lower_char_eqb by lia. reflexivity. Qed.

Lemma is_space3_lower_char (c1 c2 c3 : ascii) :
  PyStr.is_space3 (PyStr.lower_char c1) (PyStr.lower_char c2) (PyStr.lower_char c3)
  = PyStr.is_space3 c1 c2 c3.
Proof.
  unfold PyStr.is_space3.
  rewrite !lower_char_eqb, lower_char_leb, lower_char_geb by lia. reflexivity.
Qed.

Lemma skip_space_lower (s : string) :
  PyStr.skip_space (PyStr.lower s) = PyStr.lower <$> PyStr.skip_space s.
Proof.
  destruct s as [|c1 [|c2 [|c3 t3]]]; simpl; try reflexivity;
    rewrite is_space_lower_char; destruct (PyStr.is_space c1); try reflexivity;
    rewrite is_space2_lower_char; destruct (PyStr.is_space2 c1 c2); try reflexivity.
  rewrite is_space3_lower_char. destruct (PyStr.is_space3 c1 c2 c3); reflexivity.
Qed.

Lemma lower_lower (s : string) : PyStr.lower (PyStr.lower s) = PyStr.lower s.
Proof.
  induction s as [|c t IH]; simpl; [reflexivity|].
  rewrite lower_char_lower_char, IH. reflexivity.
Qed.

Lemma lower_app (s t : string) : PyStr.lower (s +:+ t) = PyStr.lower s +:+ PyStr.lower t.
Proof. induction s as [|c s IH]; simpl; [reflexivity|]. rewrite IH. reflexivity. Qed.

Lemma lstrip_lower (s : string) : PyStr.lstrip (PyStr.lower s) = PyStr.lower (PyStr.lstrip s).
Proof.
  induction s as [s E | s rest E IH] using lstrip_ind;
    rewrite (lstrip_step s), (lstrip_step (PyStr.lower s)), skip_space_lower, E;
    [reflexivity | exact IH].
Qed.

Lemma is_blank_lower (s : string) : PyStr.is_blank (PyStr.lower s) = PyStr.is_blank s.
Proof.
  unfold PyStr.is_blank. rewrite lstrip_lower.
  destruct (PyStr.lstrip s); reflexivity.
Qed.

Lemma rstrip_lower (s : string) : PyStr.rstrip (PyStr.lower s) = PyStr.lower (PyStr.rstrip s).
Proof.
  induction s as [|c t IH]; [reflexivity|].
  change (PyStr.lower (String c t)) with (String (PyStr.lower_char c) (PyStr.lower t)) at 1.
  cbn [PyStr.rstrip].
  change (String (PyStr.lower_char c) (PyStr.lower t)) with (PyStr.lower (String c t)).
  rewrite is_blank_lower, IH.
  destruct (PyStr.is_blank (String c t)); reflexivity.
Qed.

(** Stripping and lowering commute. *)
Lemma strip_lower (s : string) : PyStr.strip (PyStr.lower s) = PyStr.lower (PyStr.strip s).
Proof. unfold PyStr.strip. rewrite lstrip_lower, rstrip_lower. reflexivity. Qed.

(** A byte of the lower half is no part of a whitespace character of two
    or three bytes. *)
Lemma is_space2_ascii (c1 c2 : ascii) :
  (N_of_ascii c1 < 128)%N \/ (N_of_ascii c2 < 128)%N -> PyStr.is_space2 c1 c2 = false.
Proof.
  unfold PyStr.is_space2. intros [H | H].
  - rewrite (proj2 (N.eqb_neq (N_of_ascii c1) 194)) by lia. reflexivity.
  - rewrite (proj2 (N.eqb_neq (N_of_ascii c2) 133)), (proj2 (N.eqb_neq (N_of_ascii c2) 160))
      by lia.
    apply andb_false_r.
Qed.

Lemma is_space3_ascii (c1 c2 c3 : ascii) :
  (N_of_ascii c1 < 128)%N \/ (N_of_ascii c2 < 128)%N \/ (N_of_ascii c3 < 128)%N ->
  PyStr.is_space3 c1 c2 c3 = false.
Proof.
  unfold PyStr.is_space3. intros [H | [H | H]].
  - rewrite (proj2 (N.eqb_neq (N_of_ascii c1) 225)), (proj2 (N.eqb_neq (N_of_ascii c1) 226)),
      (proj2 (N.eqb_neq (N_of_ascii c1) 227)) by lia.
    reflexivity.
  - rewrite (proj2 (N.eqb_neq (N_of_ascii c2) 154)), (proj2 (N.eqb_neq (N_of_ascii c2) 128)),
      (proj2 (N.eqb_neq (N_of_ascii c2) 129)) by lia.
    rewrite !andb_false_r. reflexivity.
  - rewrite (proj2 (N.eqb_neq (N_of_ascii c3) 128)), (proj2 (N.eqb_neq (N_of_ascii c3) 168)),
      (proj2 (N.eqb_neq (N_of_ascii c3) 169)), (proj2 (N.eqb_neq (N_of_ascii c3) 175)),
      (proj2 (N.eqb_neq (N_of_ascii c3) 159)), (proj2 (N.leb_gt 128 (N_of_ascii c3))) by lia.
    rewrite !andb_false_r. reflexivity.
Qed.

(** A string with no whitespace at its head has none there when an ASCII
    character that is not a blank is put after it. *)
Lemma skip_space_app_ascii (s t : string) (e : ascii) :
  (N_of_ascii e < 128)%N -> PyStr.is_space e = false ->
  PyStr.skip_space s = None -> PyStr.skip_space (s +:+ String e t) = None.
Proof.
  intros He Hsp.
  destruct s as [|c1 [|c2 [|c3 t3]]]; simpl.
  - intros _. rewrite Hsp. destruct t as [|c2 [|c3 t3]]; [reflexivity| |].
    + rewrite is_space2_ascii by auto. reflexivity.
    + rewrite is_space2_ascii, is_space3_ascii by auto. reflexivity.
  - destruct (PyStr.is_space c1); [discriminate|]. intros _.
    rewrite is_space2_ascii by auto. destruct t as [|c3 t3]; [reflexivity|].
    rewrite is_space3_ascii by auto. reflexivity.
  - destruct (PyStr.is_space c1); [discriminate|].
    destruct (PyStr.is_space2 c1 c2); [discriminate|]. intros _.
    rewrite is_space3_ascii by auto. reflexivity.
  - destruct (PyStr.is_space c1); [discriminate|].
    destruct (PyStr.is_space2 c1 c2); [discriminate|].
    destruct (PyStr.is_space3 c1 c2 c3); [discriminate | reflexivity].
Qed.

Lemma is_blank_app_ascii (s : string) (e : ascii) :
  (N_of_ascii e < 128)%N -> PyStr.is_space e = false ->
  PyStr.is_blank (s +:+ String e "") = false.
Proof.
  intros He Hsp. unfold PyStr.is_blank. apply String.eqb_neq.
  induction s as [s E | s rest E IH] using lstrip_ind; rewrite lstrip_step.
  - rewrite (skip_space_app_ascii _ _ _ He Hsp E). apply append_nonempty. discriminate.
  - rewrite (skip_space_app _ _ _ E). exact IH.
Qed.

Lemma skip_space_rstrip (s : string) :
  PyStr.skip_space s = None -> PyStr.skip_space (PyStr.rstrip s) = None.
Proof.
  intros Hs. destruct (PyStr.skip_space (PyStr.rstrip s)) as [rest|] eqn:E; [|reflexivity].
  destruct (rstrip_split s) as (w & Hw & _).
  apply (skip_space_app _ _ w) in E. rewrite <- Hw in E. congruence.
Qed.

Lemma skip_space_strip (s : string) : PyStr.skip_space (PyStr.strip s) = None.
Proof. apply skip_space_rstrip, skip_space_lstrip. Qed.

Lemma string_append_assoc (s t u : string) : (s +:+ t) +:+ u = s +:+ (t +:+ u).
Proof.
  induction s as [|c s IH]; [reflexivity|].
  change (String c ((s +:+ t) +:+ u) = String c (s +:+ (t +:+ u))). f_equal. exact IH.
Qed.

Lemma rstrip_app_exe (s : string) : PyStr.rstrip (s +:+ ".exe") = s +:+ ".exe".
Proof.
  induction s as [|c s IH]; [reflexivity|].
  change (String c s +:+ ".exe") with (String c (s +:+ ".exe")).
  assert (H : PyStr.is_blank (String c (s +:+ ".exe")) = false).
  { replace (String c (s +:+ ".exe")) with ((String c s +:+ ".ex") +:+ "e")
      by (rewrite string_append_assoc; reflexivity).
    apply is_blank_app_ascii; reflexivity. }
  cbn [PyStr.rstrip]. rewrite H, IH. reflexivity.
Qed.

(** A stripped string that is not empty stays stripped with ".exe" after
    it. *)
Lemma strip_app_exe (s : string) :
  PyStr.strip s <> "" -> PyStr.strip (PyStr.strip s +:+ ".exe") = PyStr.strip s +:+ ".exe".
Proof.
  intros Hne. unfold PyStr.strip at 1.
  rewrite (lstrip_step (PyStr.strip s +:+ ".exe")).
  change ".exe" with (String "."%char "exe") at 1.
  rewrite (skip_space_app_ascii (PyStr.strip s) "exe" "." eq_refl eq_refl
             (skip_space_strip s)).
  apply rstrip_app_exe.
Qed.

Lemma endswith_app (p s : string) : PyStr.endswith p (s +:+ p) = true.
Proof.
  induction s as [|c s IH]; simpl.
  - change ("" +:+ p) with p. destruct p as [|a p]; [reflexivity|].
    unfold PyStr.endswith; fold PyStr.endswith. rewrite string_eqb_refl. reflexivity.
  - rewrite IH. apply orb_true_r.
Qed.

Lemma is_ascii_app (s t : string) :
  PyStr.is_ascii (s +:+ t) = PyStr.is_ascii s && PyStr.is_ascii t.
Proof.
  induction s as [|c s IH]; [reflexivity|].
  change (String c s +:+ t) with (String c (s +:+ t)).
  cbn [PyStr.is_ascii]. rewrite IH. apply andb_assoc.
Qed.

Lemma is_ascii_lower (s : string) : PyStr.is_ascii (PyStr.lower s) = PyStr.is_ascii s.
Proof.
  induction s as [|c s IH]; [reflexivity|].
  cbn [PyStr.lower PyStr.is_ascii]. rewrite IH. f_equal.
  destruct (lower_char_code c) as [-> | [H1 H2]]; [reflexivity|].
  rewrite (proj2 (N.ltb_lt _ _) H1), (proj2 (N.ltb_lt _ _) H2). reflexivity.
Qed.

Lemma is_ascii_skip_space (s rest : string) :
  PyStr.skip_space s = Some rest -> PyStr.is_ascii s = true -> PyStr.is_ascii rest = true.
Proof.
  destruct s as [|c1 [|c2 [|c3 t3]]]; simpl; try discriminate.
  - destruct (PyStr.is_space c1); [|discriminate]. intros [= <-] _. reflexivity.
  - destruct (PyStr.is_space c1);
      [intros [= <-] H; apply andb_true_iff in H as [_ H]; exact H|].
    destruct (PyStr.is_space2 c1 c2); [|discriminate]. intros [= <-] _. reflexivity.
  - destruct (PyStr.is_space c1);
      [intros [= <-] H; apply andb_true_iff in H as [_ H]; exact H|].
    destruct (PyStr.is_space2 c1 c2);
      [intros [= <-] H; apply andb_true_iff in H as [_ H];
       apply andb_true_iff in H as [_ H]; exact H|].
    destruct (PyStr.is_space3 c1 c2 c3); [|discriminate].
    intros [= <-] H. apply andb_true_iff in H as [_ H].
    apply andb_true_iff in H as [_ H]. apply andb_true_iff in H as [_ H]. exact H.
Qed.

Lemma is_ascii_lstrip (s : string) :
  PyStr.is_ascii s = true -> PyStr.is_ascii (PyStr.lstrip s) = true.
Proof.
  induction s as [s E | s rest E IH] using lstrip_ind; rewrite lstrip_step, E; intros H.
  - exact H.
  - apply IH, (is_ascii_skip_space _ _ E H).
Qed.

Lemma is_ascii_rstrip (s : string) :
  PyStr.is_ascii s = true -> PyStr.is_ascii (PyStr.rstrip s) = true.
Proof.
  induction s as [|c t IH]; [reflexivity|].
  cbn [PyStr.rstrip]. destruct (PyStr.is_blank (String c t)); [reflexivity|].
  cbn [PyStr.is_ascii]. intros H. apply andb_true_iff in H as [Hc Ht].
  rewrite Hc, (IH Ht). reflexivity.
Qed.

Lemma is_ascii_strip (s : string) :
  PyStr.is_ascii s = true -> PyStr.is_ascii (PyStr.strip s) = true.
Proof. intros H. apply is_ascii_rstrip, is_ascii_lstrip, H. Qed.

(** The name in normal form is lower case, stripped, and ends in ".exe"
    unless it is empty. *)
Lemma normalize_exe_name_fixed (s : string) :
  PyStr.lower (PyStr.strip (normalize_exe_name s)) = normalize_exe_name s.
Proof.
  unfold normalize_exe_name.
  set (r := PyStr.lower (PyStr.strip s)).
  assert (Hr : PyStr.lower (PyStr.strip r) = r)
    by (unfold r; rewrite strip_lower, lower_lower, strip_strip; reflexivity).
  destruct (PyStr.endswith ".exe" r); [exact Hr|].
  destruct (PyStr.truthy r) eqn:Et; [|exact Hr].
  assert (Hs : r = PyStr.strip (PyStr.lower s))
    by (unfold r; symmetry; apply strip_lower).
  assert (Hstrip : PyStr.strip (r +:+ ".exe") = r +:+ ".exe").
  { rewrite Hs. apply strip_app_exe. rewrite <- Hs.
    intros E. rewrite E in Et. discriminate Et. }
  rewrite Hstrip, lower_app. f_equal. unfold r. apply lower_lower.
Qed.

(** X1. For an ASCII name, [normalize_exe_name] gives a normal form:
    normalizing twice is normalizing once; the result does not depend on
    the case of the name nor on whitespace around it; it is empty or ends
    in ".exe"; and it is an ASCII name again. (The name is taken to be
    ASCII because the embedding lowers the ASCII letters only.) *)
Theorem normalize_exe_name_idempotent (s : string) :
  PyStr.is_ascii s = true ->
  normalize_exe_name (normalize_exe_name s) = normalize_exe_name s
  /\ normalize_exe_name (PyStr.lower s) = normalize_exe_name s
  /\ normalize_exe_name (PyStr.strip s) = normalize_exe_name s
  /\ (normalize_exe_name s = "" \/ PyStr.endswith ".exe" (normalize_exe_name s) = true)
  /\ PyStr.is_ascii (normalize_exe_name s) = true.
Proof.
  intros Hascii. split; [|split; [|split; [|split]]].
  - unfold normalize_exe_name at 1. rewrite normalize_exe_name_fixed.
    unfold normalize_exe_name.
    destruct (PyStr.endswith ".exe" (PyStr.lower (PyStr.strip s))) eqn:Eend.
    + rewrite Eend. reflexivity.
    + destruct (PyStr.truthy (PyStr.lower (PyStr.strip s))) eqn:Et.
      * rewrite endswith_app. reflexivity.
      * rewrite Eend, Et. reflexivity.
  - unfold normalize_exe_name. rewrite strip_lower, lower_lower. reflexivity.
  - unfold normalize_exe_name. rewrite strip_strip. reflexivity.
  - unfold normalize_exe_name.
    destruct (PyStr.endswith ".exe" (PyStr.lower (PyStr.strip s))) eqn:Eend;
      [right; exact Eend|].
    destruct (PyStr.truthy (PyStr.lower (PyStr.strip s))) eqn:Et.
    + right. apply endswith_app.
    + left. apply truthy_false, Et.
  - assert (Hr : PyStr.is_ascii (PyStr.lower (PyStr.strip s)) = true)
      by (rewrite is_ascii_lower; apply is_ascii_strip, Hascii).
    unfold normalize_exe_name.
    destruct (PyStr.endswith ".exe" (PyStr.lower (PyStr.strip s))); [exact Hr|].
    destruct (PyStr.truthy (PyStr.lower (PyStr.strip s))); [|exact Hr].
    rewrite is_ascii_app, Hr. reflexivity.
Qed.

(** X1 on a name as a user may type it. *)
Lemma normalize_exe_name_idempotent_witness :
  PyStr.is_ascii "  Chrome.EXE " = true
  /\ normalize_exe_name "  Chrome.EXE " = "chrome.exe"
  /\ normalize_exe_name (normalize_exe_name "  Chrome.EXE ")
     = normalize_exe_name "  Chrome.EXE ".
Proof.
  split; [reflexivity|]. split; [reflexivity|].
  exact (proj1 (normalize_exe_name_idempotent "  Chrome.EXE " eq_refl)).
Defined.

Lemma normalize_exe_name_lower_strip (s : string) :
  normalize_exe_name (PyStr.lower (PyStr.strip s)) = normalize_exe_name s.
Proof.
  unfold normalize_exe_name. rewrite strip_lower, lower_lower, strip_strip. reflexivity.
Qed.

(** X2. For an ASCII executable name and an ASCII value, an "exe" rule
    matches a window exactly when the window's executable name and the
    rule's value have the same normal form: the comparison is blind to
    case, to whitespace around either name and to a missing ".exe"; the
    stripping and lowering that the predicate does before it normalizes
    change nothing. (The names are taken to be ASCII because the embedding
    lowers the ASCII letters only.) *)
Theorem exe_rule_compares_normal_forms (window : Window) (match_value : option string) :
  PyStr.is_ascii (effective_exe_name window) = true ->
  PyStr.is_ascii (PyStr.or_empty match_value) = true ->
  rule_matches window (Some "exe") match_value
  = String.eqb (normalize_exe_name (effective_exe_name window))
               (normalize_exe_name (PyStr.or_empty match_value)).
Proof.
  intros _ _.
  unfold rule_matches. change (String.eqb "exe" "exe") with true. cbv iota.
  rewrite normalize_exe_name_lower_strip.
  unfold normalize_exe_name at 1. rewrite strip_strip. reflexivity.
Qed.

(** X2 on Chrome and a rule value in another case, without ".exe". *)
Lemma exe_rule_compares_normal_forms_witness :
  PyStr.is_ascii (effective_exe_name Scenario.chrome_window) = true
  /\ PyStr.is_ascii (PyStr.or_empty (Some " CHROME ")) = true
  /\ rule_matches Scenario.chrome_window (Some "exe") (Some " CHROME ") = true.
Proof.
  split; [reflexivity|]. split; [reflexivity|].
  rewrite (exe_rule_compares_normal_forms Scenario.chrome_window (Some " CHROME ")
             eq_refl eq_refl).
  reflexivity.
Defined.

(** ** Fingerprints and the known monitors *)

(** What [generate_fingerprint] answers. *)
Lemma generate_fingerprint_cases (md : MonitorData) :
  generate_fingerprint md
  = if (md_width md =? 0) || (md_height md =? 0)
    then Raise (ValueError "Invalid monitor dimensions")
    else Ret {| primary :=
                  match PyStr.search_digits_after "DISPLAY" (md_name md) with
                  | Some ds =>
                      "DISPLAY" +:+ string_of_list_ascii ds +:+ "_"
                        +:+ PyStr.of_Z (md_width md) +:+ "x"
                        +:+ PyStr.of_Z (md_height md)
                  | None =>
                      PyStr.of_Z (md_width md) +:+ "x" +:+ PyStr.of_Z (md_height md)
                  end;
                secondary :=
                  PyStr.of_Z (md_width md) +:+ "x" +:+ PyStr.of_Z (md_height md) |}.
Proof.
  unfold generate_fingerprint, _generate_connector_resolution_fp, _generate_resolution_fp.
  cbv zeta.
  destruct (PyStr.search_digits_after "DISPLAY" (md_name md));
    destruct ((md_width md =? 0) || (md_height md =? 0)); reflexivity.
Qed.

Lemma generate_fingerprint_raises (md : MonitorData) (e : exn) :
  generate_fingerprint md = Raise e -> md_width md = 0 \/ md_height md = 0.
Proof.
  rewrite generate_fingerprint_cases.
  destruct (Z.eqb_spec (md_width md) 0) as [Ew|Ew]; [auto|].
  destruct (Z.eqb_spec (md_height md) 0) as [Eh|Eh]; [auto|]. discriminate.
Qed.

(** X3. [generate_fingerprint] raises [ValueError] exactly when the width
    or the height is 0, whatever the name; otherwise the secondary
    component is the resolution. Two monitors of the same resolution match
    when the comparison is not strict, whatever their names, positions and
    primary flags; with the same name too, they match strictly. *)
Theorem generate_fingerprint_by_resolution :
  (forall md,
      md_width md = 0 \/ md_height md = 0
      <-> generate_fingerprint md = Raise (ValueError "Invalid monitor dimensions"))
  /\ (forall md,
         md_width md <> 0 -> md_height md <> 0 ->
         exists fp,
           generate_fingerprint md = Ret fp
           /\ secondary fp = PyStr.of_Z (md_width md) +:+ "x" +:+ PyStr.of_Z (md_height md))
  /\ (forall md1 md2 fp1 fp2,
         generate_fingerprint md1 = Ret fp1 ->
         generate_fingerprint md2 = Ret fp2 ->
         md_width md1 = md_width md2 ->
         md_height md1 = md_height md2 ->
         fst (fingerprints_match fp1 fp2 false) = true
         /\ (md_name md1 = md_name md2 -> fst (fingerprints_match fp1 fp2 true) = true)).
Proof.
  split; [|split].
  - intros md. split; [|apply generate_fingerprint_raises].
    rewrite generate_fingerprint_cases.
    intros [E|E]; rewrite E; [reflexivity|].
    rewrite orb_true_r. reflexivity.
  - intros md Hw Hh. rewrite generate_fingerprint_cases.
    destruct (Z.eqb_spec (md_width md) 0); [contradiction|].
    destruct (Z.eqb_spec (md_height md) 0); [contradiction|]. simpl.
    eexists. split; reflexivity.
  - intros md1 md2 fp1 fp2. rewrite !generate_fingerprint_cases. intros H1 H2 Hw Hh.
    rewrite <- Hw, <- Hh in H2.
    destruct ((md_width md1 =? 0) || (md_height md1 =? 0)); [discriminate H1|].
    injection H1 as <-. injection H2 as <-.
    unfold fingerprints_match. cbn [primary secondary]. split.
    + match goal with |- context [String.eqb ?a ?b] => destruct (String.eqb a b) end;
        [reflexivity|]. rewrite string_eqb_refl. reflexivity.
    + intros ->. rewrite string_eqb_refl. reflexivity.
Qed.

Section KnownMonitors.

Context {W : Type} {host : Host W}.

Lemma update_matching_monitor_spec (fingerprints : Fingerprints)
  (monitor_data : MonitorData) (known : list KnownMonitor) :
  match update_matching_monitor fingerprints monitor_data known with
  | Some (id, known') =>
      exists before m rest,
        known = (before ++ m :: rest)%list
        /\ Forall (fun b => matches_known fingerprints b = false) before
        /\ matches_known fingerprints m = true
        /\ id = km_id m
        /\ known' = (before ++ refreshed fingerprints monitor_data m :: rest)%list
  | None => Forall (fun b => matches_known fingerprints b = false) known
  end.
Proof.
  induction known as [|m known IH]; simpl; [constructor|].
  destruct (matches_known fingerprints m) eqn:Hm.
  - unfold matches_known in Hm.
    destruct (km_fingerprints m) as [fp0|] eqn:Hfp; [|discriminate Hm]. rewrite Hm.
    exists [], m, known. repeat split; auto.
    unfold matches_known. rewrite Hfp. exact Hm.
  - assert (Hskip :
      match km_fingerprints m with
      | Some existing_fps =>
          if fst (fingerprints_match fingerprints existing_fps false)
          then Some (km_id m, refreshed fingerprints monitor_data m :: known)
          else match update_matching_monitor fingerprints monitor_data known with
               | Some (i, rest') => Some (i, m :: rest')
               | None => None
               end
      | None =>
          match update_matching_monitor fingerprints monitor_data known with
          | Some (i, rest') => Some (i, m :: rest')
          | None => None
          end
      end
      = match update_matching_monitor fingerprints monitor_data known with
        | Some (i, rest') => Some (i, m :: rest')
        | None => None
        end).
    { unfold matches_known in Hm. destruct (km_fingerprints m); [rewrite Hm|]; reflexivity. }
    unfold refreshed in Hskip. rewrite Hskip.
    destruct (update_matching_monitor fingerprints monitor_data known) as [[i rest']|].
    + destruct IH as (before & m0 & rest & -> & Hb & Hm0 & -> & ->).
      exists (m :: before), m0, rest. repeat split; auto.
    + constructor; assumption.
Qed.

Lemma update_matching_monitor_at (fingerprints : Fingerprints)
  (monitor_data : MonitorData) (before : list KnownMonitor) (m : KnownMonitor)
  (rest : list KnownMonitor) :
  Forall (fun b => matches_known fingerprints b = false) before ->
  matches_known fingerprints m = true ->
  update_matching_monitor fingerprints monitor_data (before ++ m :: rest)%list
  = Some (km_id m, (before ++ refreshed fingerprints monitor_data m :: rest)%list).
Proof.
  intros Hb Hm. induction Hb as [|b before Hb0 _ IH]; simpl.
  - unfold matches_known in Hm. destruct (km_fingerprints m); [|discriminate Hm].
    rewrite Hm. reflexivity.
  - rewrite IH. unfold matches_known in Hb0.
    destruct (km_fingerprints b); [rewrite Hb0|]; reflexivity.
Qed.

(** [add_monitor], step by step. *)
Lemma add_monitor_cases (monitor_data : MonitorData) (s : State W) :
  add_monitor monitor_data s
  = match generate_fingerprint monitor_data with
    | Raise e => (Raise e, s)
    | Ret fingerprints =>
        let drawn := uuid4_hex (world s) in
        let told := now_isoformat (snd drawn) in
        let s1 := set_world (snd told) s in
        match update_matching_monitor fingerprints monitor_data (known_monitors s) with
        | Some (existing_id, known') => (Ret existing_id, set_known_monitors known' s1)
        | None =>
            let id := "monitor_" +:+ String.substring 0 8 (fst drawn) in
            (Ret id,
             set_known_monitors
               (known_monitors s
                  ++ [ {| km_id := id;
                          km_name := md_name monitor_data;
                          km_width := md_width monitor_data;
                          km_height := md_height monitor_data;
                          km_x := md_x monitor_data;
                          km_y := md_y monitor_data;
                          km_is_primary := md_is_primary monitor_data;
                          km_fingerprints := Some fingerprints;
                          km_first_detected := fst told |} ])%list s1)
        end
    end.
Proof.
  unfold add_monitor. unfold bind at 1. unfold of_res at 1.
  destruct (generate_fingerprint monitor_data) as [fingerprints|e]; [|reflexivity].
  cbv beta iota zeta delta [bind act_total gets modify ret].
  destruct (uuid4_hex (world s)) as [u w1]. cbn [fst snd world set_world].
  destruct (now_isoformat w1) as [now w2]. cbn [fst snd world set_world known_monitors].
  destruct (update_matching_monitor fingerprints monitor_data (known_monitors s))
    as [[existing_id known']|]; reflexivity.
Qed.

Lemma same_monitor_refl (m : KnownMonitor) : same_monitor m m.
Proof. repeat split. Qed.

(** X4. [add_monitor] never forgets a monitor: when it returns, the id it
    returns is known, the ids known before are known still, in the same
    order, with at most the returned id added at the end, and each known
    monitor has kept its id, its resolution and the time of its first
    detection; the connection map and the layout slot are untouched. It
    raises only for a width or height of 0, and then changes nothing. *)
Theorem add_monitor_never_forgets (monitor_data : MonitorData) (s : State W) :
  match add_monitor monitor_data s with
  | (Raise e, s') => s' = s /\ (md_width monitor_data = 0 \/ md_height monitor_data = 0)
  | (Ret id, s') =>
      In id (known_ids s')
      /\ (known_ids s' = known_ids s \/ known_ids s' = (known_ids s ++ [id])%list)
      /\ Forall2 same_monitor (known_monitors s)
                 (firstn (length (known_monitors s)) (known_monitors s'))
      /\ connected_monitors s' = connected_monitors s
      /\ layout_slot s' = layout_slot s
  end.
Proof.
  rewrite add_monitor_cases.
  destruct (generate_fingerprint monitor_data) as [fingerprints|e] eqn:Hgen.
  - cbv zeta.
    pose proof (update_matching_monitor_spec fingerprints monitor_data (known_monitors s))
      as Hspec.
    destruct (update_matching_monitor fingerprints monitor_data (known_monitors s))
      as [[existing_id known']|].
    + destruct Hspec as (before & m & rest & Hknown & _ & _ & -> & ->).
      unfold known_ids. cbn [known_monitors set_known_monitors connected_monitors].
      rewrite Hknown, !map_app. cbn [map refreshed km_id].
      split; [apply in_or_app; right; left; reflexivity|].
      split; [left; reflexivity|]. split; [|split; reflexivity].
      replace (length (before ++ m :: rest)%list)
        with (length (before ++ refreshed fingerprints monitor_data m :: rest)%list)
        by (rewrite !length_app; reflexivity).
      rewrite firstn_all. apply Forall2_app.
      * clear. induction before; constructor; [apply same_monitor_refl | assumption].
      * constructor; [repeat split|].
        clear. induction rest; constructor; [apply same_monitor_refl | assumption].
    + unfold known_ids. cbn [known_monitors set_known_monitors connected_monitors].
      rewrite map_app. cbn [map km_id].
      split; [apply in_or_app; right; left; reflexivity|].
      split; [right; reflexivity|]. split; [|split; reflexivity].
      rewrite firstn_app, firstn_all, Nat.sub_diag. cbn [firstn]. rewrite app_nil_r.
      clear. induction (known_monitors s); constructor;
        [apply same_monitor_refl | assumption].
  - split; [reflexivity | apply (generate_fingerprint_raises _ _ Hgen)].
Qed.

Lemma fingerprints_match_self (fp : Fingerprints) :
  fst (fingerprints_match fp fp false) = true.
Proof. unfold fingerprints_match. rewrite string_eqb_refl. reflexivity. Qed.

Lemma generate_fingerprint_returns (md : MonitorData) :
  md_width md <> 0 -> md_height md <> 0 ->
  exists fp,
    generate_fingerprint md = Ret fp
    /\ secondary fp = PyStr.of_Z (md_width md) +:+ "x" +:+ PyStr.of_Z (md_height md).
Proof.
  intros Hw Hh. rewrite generate_fingerprint_cases.
  destruct (Z.eqb_spec (md_width md) 0); [contradiction|].
  destruct (Z.eqb_spec (md_height md) 0); [contradiction|]. simpl.
  eexists. split; reflexivity.
Qed.

(** X5. A detected monitor whose resolution is that of a known monitor is
    taken for a known one, whatever its connector: [add_monitor] returns an
    id that was known before and adds no entry. So a second monitor of the
    same resolution gets no id of its own. *)
Theorem add_monitor_reuses_same_resolution (monitor_data : MonitorData) (s : State W)
  (m : KnownMonitor) (fp0 : Fingerprints) :
  In m (known_monitors s) ->
  km_fingerprints m = Some fp0 ->
  secondary fp0
  = PyStr.of_Z (md_width monitor_data) +:+ "x" +:+ PyStr.of_Z (md_height monitor_data) ->
  md_width monitor_data <> 0 ->
  md_height monitor_data <> 0 ->
  exists id s',
    add_monitor monitor_data s = (Ret id, s')
    /\ In id (known_ids s)
    /\ known_ids s' = known_ids s.
Proof.
  intros Hin Hfp Hsec Hw Hh.
  destruct (generate_fingerprint_returns monitor_data Hw Hh) as (fp & Hgen & Hfpsec).
  rewrite add_monitor_cases, Hgen. cbv zeta.
  pose proof (update_matching_monitor_spec fp monitor_data (known_monitors s)) as Hspec.
  destruct (update_matching_monitor fp monitor_data (known_monitors s))
    as [[existing_id known']|].
  - destruct Hspec as (before & m0 & rest & Hknown & _ & _ & -> & ->).
    eexists _, _. split; [reflexivity|].
    unfold known_ids. cbn [known_monitors set_known_monitors].
    rewrite Hknown, !map_app. cbn [map refreshed km_id].
    split; [apply in_or_app; right; left; reflexivity | reflexivity].
  - exfalso. rewrite List.Forall_forall in Hspec. specialize (Hspec m Hin).
    unfold matches_known in Hspec. rewrite Hfp in Hspec.
    unfold fingerprints_match in Hspec. rewrite Hfpsec, <- Hsec, string_eqb_refl in Hspec.
    destruct (String.eqb (primary fp) (primary fp0)); discriminate Hspec.
Qed.

(** X6. Detecting the same monitor again changes nothing: a second
    [add_monitor] with the same data returns the same id and leaves the
    list of known monitors exactly as the first call left it. *)
Theorem add_monitor_twice (monitor_data : MonitorData) (s s1 : State W) (id : string) :
  add_monitor monitor_data s = (Ret id, s1) ->
  exists s2,
    add_monitor monitor_data s1 = (Ret id, s2)
    /\ known_monitors s2 = known_monitors s1.
Proof.
  rewrite !add_monitor_cases.
  destruct (generate_fingerprint monitor_data) as [fp|e]; [|discriminate]. cbv zeta.
  pose proof (update_matching_monitor_spec fp monitor_data (known_monitors s)) as Hspec.
  destruct (update_matching_monitor fp monitor_data (known_monitors s))
    as [[existing_id known']|].
  - destruct Hspec as (before & m & rest & Hknown & Hbefore & Hm & -> & ->).
    intros [= <- <-]. cbn [known_monitors set_known_monitors world set_world].
    rewrite (update_matching_monitor_at fp monitor_data before
               (refreshed fp monitor_data m) rest Hbefore).
    + eexists. split; reflexivity.
    + unfold matches_known, refreshed. cbn [km_fingerprints].
      apply fingerprints_match_self.
  - intros [= <- <-]. cbn [known_monitors set_known_monitors world set_world].
    match goal with
    | |- context [update_matching_monitor fp monitor_data (_ ++ [?new])%list] =>
        rewrite (update_matching_monitor_at fp monitor_data (known_monitors s) new [] Hspec)
    end.
    + eexists. split; reflexivity.
    + unfold matches_known. cbn [km_fingerprints]. apply fingerprints_match_self.
Qed.

(** *** Deleting a monitor *)

Lemma remove_monitor_spec (monitor_id : string) (known : list KnownMonitor) :
  match find_monitor monitor_id known with
  | None => remove_monitor monitor_id known = None
  | Some m =>
      exists before rest,
        known = (before ++ m :: rest)%list
        /\ Forall (fun b => km_id b <> monitor_id) before
        /\ km_id m = monitor_id
        /\ remove_monitor monitor_id known = Some (before ++ rest)%list
  end.
Proof.
  induction known as [|k known IH]; simpl; [reflexivity|].
  destruct (String.eqb_spec (km_id k) monitor_id) as [E|E].
  - exists [], known. auto.
  - destruct (find_monitor monitor_id known) as [m|].
    + destruct IH as (before & rest & -> & Hb & Hm & ->).
      exists (k :: before), rest. auto.
    + rewrite IH. reflexivity.
Qed.

Lemma find_monitor_none (monitor_id : string) (known : list KnownMonitor) :
  find_monitor monitor_id known = None <-> ~ In monitor_id (map km_id known).
Proof.
  induction known as [|k known IH]; simpl; [tauto|].
  destruct (String.eqb_spec (km_id k) monitor_id) as [E|E].
  - split; [discriminate | intros H; exfalso; auto].
  - rewrite IH. tauto.
Qed.

(** X7. [delete_monitor] removes the first known monitor with the id, and
    only that one: it answers [False] and changes nothing when no known
    monitor has the id; otherwise it answers [True], the other monitors
    stay in their order, and the connection map is not touched, so that a
    monitor deleted while plugged in stays connected under its id. Where
    the id was known once only, it is unknown afterwards. *)
Theorem delete_monitor_removes_first (monitor_id : string) (s : State W) :
  match find_monitor monitor_id (known_monitors s) with
  | None => delete_monitor monitor_id s = (Ret false, s)
  | Some m =>
      exists before rest,
        known_monitors s = (before ++ m :: rest)%list
        /\ Forall (fun b => km_id b <> monitor_id) before
        /\ delete_monitor monitor_id s
           = (Ret true, set_known_monitors (before ++ rest)%list s)
        /\ connected_monitors (after (delete_monitor monitor_id) s) = connected_monitors s
        /\ (~ In monitor_id (map km_id rest) ->
            value (get_monitor monitor_id) (after (delete_monitor monitor_id) s) = Ret None)
  end.
Proof.
  pose proof (remove_monitor_spec monitor_id (known_monitors s)) as Hspec.
  unfold after, value, delete_monitor, get_monitor, bind, gets, modify, ret.
  destruct (find_monitor monitor_id (known_monitors s)) as [m|].
  - destruct Hspec as (before & rest & Hknown & Hb & Hm & ->).
    exists before, rest. split; [exact Hknown|]. split; [exact Hb|].
    split; [reflexivity|]. split; [reflexivity|].
    intros Hrest. cbn [fst snd known_monitors set_known_monitors]. f_equal.
    apply find_monitor_none. rewrite map_app, in_app_iff. intros [H|H]; [|auto].
    apply in_map_iff in H as (b & Hid & Hin).
    rewrite List.Forall_forall in Hb. apply (Hb b Hin Hid).
  - rewrite Hspec. reflexivity.
Qed.

(** *** Detection *)

Lemma dict_has_In {A : Type} (k : string) (d : list (string * A)) :
  dict_has k d = true <-> In k (dict_keys d).
Proof.
  unfold dict_has. induction d as [|[k0 v0] d IH]; simpl.
  - split; [discriminate | tauto].
  - destruct (String.eqb_spec k0 k) as [E|E]; [split; auto|].
    rewrite IH. split; [auto | intros [H|H]; [contradiction | exact H]].
Qed.

Lemma dict_keys_set {A : Type} (k : string) (v : A) (d : list (string * A)) (k' : string) :
  In k' (dict_keys (dict_set k v d)) <-> k' = k \/ In k' (dict_keys d).
Proof.
  induction d as [|[k0 v0] d IH]; simpl.
  - split; [intros [H|[]]; auto | intros [H|[]]; auto].
  - destruct (String.eqb_spec k0 k) as [E|E]; simpl.
    + subst k0. split; [intros [H|H]; auto | intros [H|[H|H]]; auto].
    + rewrite IH. tauto.
Qed.

Lemma NoDup_dict_set {A : Type} (k : string) (v : A) (d : list (string * A)) :
  NoDup (dict_keys d) -> NoDup (dict_keys (dict_set k v d)).
Proof.
  induction d as [|[k0 v0] d IH]; simpl; intros Hnd.
  - apply NoDup_singleton.
  - apply NoDup_cons in Hnd as [Hnotin Hnd].
    destruct (String.eqb_spec k0 k) as [E|E]; simpl.
    + subst k0. apply NoDup_cons. auto.
    + apply NoDup_cons. split; [|apply IH, Hnd].
      rewrite list_elem_of_In. intros H. apply (dict_keys_set k v d k0) in H.
      destruct H as [H|H]; [contradiction|].
      apply Hnotin, list_elem_of_In, H.
Qed.

Lemma dict_keys_del {A : Type} (k : string) (d : list (string * A)) (k' : string) :
  NoDup (dict_keys d) ->
  In k' (dict_keys (dict_del k d)) <-> k' <> k /\ In k' (dict_keys d).
Proof.
  induction d as [|[k0 v0] d IH]; simpl; intros Hnd; [tauto|].
  apply NoDup_cons in Hnd as [Hnotin Hnd]. rewrite list_elem_of_In in Hnotin.
  destruct (String.eqb_spec k0 k) as [E|E]; simpl.
  - subst k0. split.
    + intros H. split; [intros ->; contradiction | auto].
    + intros [Hne [H|H]]; [congruence | exact H].
  - rewrite (IH Hnd). split.
    + intros [H|[Hne H]]; [subst k'; auto | auto].
    + intros [Hne [H|H]]; auto.
Qed.

Lemma NoDup_dict_del {A : Type} (k : string) (d : list (string * A)) :
  NoDup (dict_keys d) -> NoDup (dict_keys (dict_del k d)).
Proof.
  induction d as [|[k0 v0] d IH]; simpl; intros Hnd; [exact Hnd|].
  pose proof Hnd as Hnd0.
  apply NoDup_cons in Hnd as [Hnotin Hnd].
  destruct (String.eqb_spec k0 k) as [E|E]; simpl; [exact Hnd|].
  apply NoDup_cons. split; [|apply IH, Hnd].
  rewrite list_elem_of_In. intros H. apply (dict_keys_del k d k0 Hnd) in H.
  apply Hnotin, list_elem_of_In, H.
Qed.

Lemma str_in_In (x : string) (xs : list string) : str_in x xs = true <-> In x xs.
Proof.
  unfold str_in. rewrite existsb_exists. split.
  - intros (y & Hin & E). apply String.eqb_eq in E. subst y. exact Hin.
  - intros H. exists x. split; [exact H | apply string_eqb_refl].
Qed.

(** [add_monitor] on a monitor with a resolution. *)
Lemma add_monitor_returns (monitor_data : MonitorData) (s : State W) :
  md_width monitor_data <> 0 -> md_height monitor_data <> 0 ->
  exists id s',
    add_monitor monitor_data s = (Ret id, s')
    /\ In id (known_ids s')
    /\ incl (known_ids s) (known_ids s')
    /\ connected_monitors s' = connected_monitors s
    /\ layout_slot s' = layout_slot s.
Proof.
  intros Hw Hh.
  destruct (generate_fingerprint_returns monitor_data Hw Hh) as (fp & Hgen & _).
  rewrite add_monitor_cases, Hgen. cbv zeta.
  pose proof (update_matching_monitor_spec fp monitor_data (known_monitors s)) as Hspec.
  destruct (update_matching_monitor fp monitor_data (known_monitors s))
    as [[existing_id known']|].
  - destruct Hspec as (before & m & rest & Hknown & _ & _ & -> & ->).
    eexists _, _. split; [reflexivity|].
    unfold known_ids. cbn [known_monitors set_known_monitors].
    rewrite Hknown, !map_app. cbn [map refreshed km_id].
    split; [apply in_or_app; right; left; reflexivity|].
    split; [apply incl_refl|]. split; reflexivity.
  - eexists _, _. split; [reflexivity|].
    unfold known_ids. cbn [known_monitors set_known_monitors]. rewrite map_app.
    split; [apply in_or_app; right; left; reflexivity|].
    split; [apply incl_appl, incl_refl|]. split; reflexivity.
Qed.

(** The loop of [detect_monitors] over the monitors reported. *)
Lemma detect_loop (monitors : list ScreenInfo) :
  Forall (fun m => si_width m <> 0 /\ si_height m <> 0) monitors ->
  forall (detected_ids : list string) (s : State W),
  exists new_ids s',
    fold_m (fun detected_ids monitor =>
              bind (add_monitor (monitor_data_of monitor)) (fun monitor_id =>
              bind (modify (fun s => set_connected_monitors
                                       (dict_set monitor_id monitor (connected_monitors s)) s))
                   (fun _ => ret (detected_ids ++ [monitor_id])%list)))
           monitors detected_ids s
    = (Ret (detected_ids ++ new_ids)%list, s')
    /\ length new_ids = length monitors
    /\ layout_slot s' = layout_slot s
    /\ incl (known_ids s) (known_ids s')
    /\ (forall id, In id new_ids -> In id (known_ids s'))
    /\ (NoDup (dict_keys (connected_monitors s)) ->
        NoDup (dict_keys (connected_monitors s')))
    /\ (forall id, In id (dict_keys (connected_monitors s'))
                   <-> In id new_ids \/ In id (dict_keys (connected_monitors s))).
Proof.
  induction 1 as [|monitor monitors [Hw Hh] _ IH]; intros detected_ids s.
  - exists [], s. simpl. rewrite app_nil_r.
    repeat split; auto using incl_refl; try tauto.
  - destruct (add_monitor_returns (monitor_data_of monitor) s Hw Hh)
      as (id & s1 & Hadd & Hid & Hincl & Hconn & Hslot).
    set (s2 := set_connected_monitors (dict_set id monitor (connected_monitors s1)) s1).
    destruct (IH (detected_ids ++ [id])%list s2)
      as (new_ids & s' & Hloop & Hlen & Hslot' & Hincl' & Hknown' & Hnd' & Hkeys').
    exists (id :: new_ids), s'.
    split; [|split; [|split; [|split; [|split; [|split]]]]].
    + cbn [fold_m]. unfold bind at 1. unfold bind at 1. rewrite Hadd.
      unfold bind at 1. unfold modify at 1. unfold ret at 1. fold s2.
      rewrite Hloop, <- app_assoc. reflexivity.
    + simpl. rewrite Hlen. reflexivity.
    + rewrite Hslot'. exact Hslot.
    + intros x Hx. apply Hincl', Hincl, Hx.
    + intros x [<-|Hx]; [apply Hincl', Hid | apply Hknown', Hx].
    + intros Hnd. apply Hnd'. unfold s2. cbn [connected_monitors set_connected_monitors].
      apply NoDup_dict_set. rewrite Hconn. exact Hnd.
    + intros x. rewrite Hkeys'. unfold s2.
      cbn [connected_monitors set_connected_monitors].
      rewrite dict_keys_set, Hconn. simpl. intuition congruence.
Qed.

(** The loop of [detect_monitors] that drops the known monitors that were
    not detected. *)
Lemma drop_loop (detected_ids : list string) (known : list KnownMonitor) :
  forall s : State W,
  exists s',
    for_each known
      (fun monitor =>
         if negb (str_in (km_id monitor) detected_ids)
         then modify (fun s => set_connected_monitors
                                 (dict_del (km_id monitor) (connected_monitors s)) s)
         else ret tt) s
    = (Ret tt, s')
    /\ known_monitors s' = known_monitors s
    /\ layout_slot s' = layout_slot s
    /\ (NoDup (dict_keys (connected_monitors s)) ->
        NoDup (dict_keys (connected_monitors s'))
        /\ forall id, In id (dict_keys (connected_monitors s'))
                      <-> In id (dict_keys (connected_monitors s))
                          /\ (In id (map km_id known) -> In id detected_ids)).
Proof.
  induction known as [|k known IH]; intros s.
  - exists s. simpl. repeat split; auto; tauto.
  - cbn [for_each]. unfold bind at 1.
    destruct (str_in (km_id k) detected_ids) eqn:Hk; cbn [negb].
    + unfold ret at 1. destruct (IH s) as (s' & Hrun & Hknown & Hslot & Hkeys).
      exists s'. split; [exact Hrun|]. split; [exact Hknown|]. split; [exact Hslot|].
      intros Hnd. destruct (Hkeys Hnd) as [Hnd' Hiff]. split; [exact Hnd'|].
      intros id. rewrite Hiff. simpl. apply str_in_In in Hk.
      split; [intros [H1 H2]; split; [exact H1|]; intros [<-|H]; auto | intros [H1 H2]; auto].
    + unfold modify at 1.
      set (s1 := set_connected_monitors (dict_del (km_id k) (connected_monitors s)) s).
      destruct (IH s1) as (s' & Hrun & Hknown & Hslot & Hkeys).
      exists s'. split; [exact Hrun|]. split; [exact Hknown|]. split; [exact Hslot|].
      intros Hnd.
      assert (Hnd1 : NoDup (dict_keys (connected_monitors s1)))
        by (apply NoDup_dict_del, Hnd).
      destruct (Hkeys Hnd1) as [Hnd' Hiff]. split; [exact Hnd'|].
      intros id. rewrite Hiff. unfold s1. cbn [connected_monitors set_connected_monitors].
      rewrite (dict_keys_del _ _ _ Hnd). simpl.
      assert (Hno : ~ In (km_id k) detected_ids).
      { intros H. apply str_in_In in H. congruence. }
      split.
      * intros [[Hne Hin] H2]. split; [exact Hin|]. intros [E|H]; [congruence | auto].
      * intros [Hin H2]. split; [split; [|exact Hin] | auto].
        intros ->. apply Hno, H2. left. reflexivity.
Qed.

(** X8. When the host cannot report its monitors, [detect_monitors] answers
    the empty list and changes nothing. When it reports monitors that all
    have a resolution, [detect_monitors] answers one id per monitor
    reported, every one a known id; and afterwards the connected monitors
    are exactly those detected in this call: a monitor that was connected
    and is not reported any more is dropped. (The connection map holds
    known monitors only, each once.) The layout slot is left alone. *)
Theorem detect_monitors_connects_what_it_detects (s : State W) :
  (forall e, get_monitors (world s) = Raise e -> detect_monitors s = (Ret [], s))
  /\ (forall monitors,
         get_monitors (world s) = Ret monitors ->
         Forall (fun m => si_width m <> 0 /\ si_height m <> 0) monitors ->
         NoDup (dict_keys (connected_monitors s)) ->
         (forall id, dict_has id (connected_monitors s) = true -> In id (known_ids s)) ->
         exists ids s',
           detect_monitors s = (Ret ids, s')
           /\ length ids = length monitors
           /\ (forall id, dict_has id (connected_monitors s') = true <-> In id ids)
           /\ (forall id, In id ids -> In id (known_ids s'))
           /\ NoDup (dict_keys (connected_monitors s'))
           /\ layout_slot s' = layout_slot s).
Proof.
  split.
  - intros e He. unfold detect_monitors, try_except. unfold bind at 1. unfold call at 1.
    rewrite He. reflexivity.
  - intros monitors Hget Hdims Hnd Hconn.
    destruct (detect_loop monitors Hdims [] s)
      as (ids & s1 & Hloop & Hlen & Hslot1 & Hincl & Hknown1 & Hnd1 & Hkeys1).
    destruct (drop_loop ids (known_monitors s1) s1)
      as (s2 & Hdrop & Hknown2 & Hslot2 & Hkeys2).
    destruct (Hkeys2 (Hnd1 Hnd)) as [Hnd2 Hiff2].
    exists ids, s2.
    split; [|split; [exact Hlen|split; [|split; [|split; [exact Hnd2|]]]]].
    + unfold detect_monitors, try_except. unfold bind at 1. unfold call at 1.
      rewrite Hget. unfold bind at 1.
      change (fold_m _ monitors [] s) with
        (fold_m (fun detected_ids monitor =>
                   bind (add_monitor (monitor_data_of monitor)) (fun monitor_id =>
                   bind (modify (fun s => set_connected_monitors
                                            (dict_set monitor_id monitor
                                                      (connected_monitors s)) s))
                        (fun _ => ret (detected_ids ++ [monitor_id])%list)))
                monitors [] s).
      rewrite Hloop. cbn [app]. unfold bind at 1. unfold get_all_monitors, gets at 1.
      unfold bind at 1. rewrite Hdrop. reflexivity.
    + intros id. rewrite dict_has_In, Hiff2, Hkeys1. split.
      * intros [[H|H] Hdet]; [exact H|].
        apply Hdet, Hincl, Hconn, dict_has_In, H.
      * intros H. split; [left; exact H | intros _; exact H].
    + intros id Hid. unfold known_ids. rewrite Hknown2. apply Hknown1, Hid.
    + rewrite Hslot2. exact Hslot1.
Qed.

End KnownMonitors.

(** X5 on the reference desktop: DISPLAY1 is known at 1920 by 1080; a
    monitor of that resolution on DISPLAY2 is added next. *)
Lemma add_monitor_reuses_same_resolution_witness :
  exists id s',
    add_monitor (monitor_data_of Scenario.twin_right)
                (after (add_monitor (monitor_data_of Scenario.twin_left))
                       Scenario.twin_displays)
    = (Ret id, s')
    /\ In id (known_ids (after (add_monitor (monitor_data_of Scenario.twin_left))
                               Scenario.twin_displays))
    /\ known_ids s'
       = known_ids (after (add_monitor (monitor_data_of Scenario.twin_left))
                          Scenario.twin_displays).
Proof.
  refine (add_monitor_reuses_same_resolution
            (monitor_data_of Scenario.twin_right)
            (after (add_monitor (monitor_data_of Scenario.twin_left)) Scenario.twin_displays)
            {| km_id := "monitor_10000000";
               km_name := "\\.\DISPLAY1 (1920×1080)";
               km_width := 1920; km_height := 1080; km_x := 0; km_y := 0;
               km_is_primary := true;
               km_fingerprints := Some {| primary := "DISPLAY1_1920x1080";
                                          secondary := "1920x1080" |};
               km_first_detected := "2026-01-01T00:00:00+0" |}
            {| primary := "DISPLAY1_1920x1080"; secondary := "1920x1080" |}
            _ _ _ _ _).
  - vm_compute. left. reflexivity.
  - reflexivity.
  - vm_compute. reflexivity.
  - discriminate.
  - discriminate.
Defined.

(** Two monitors of one resolution, detected from scratch: both are given
    the id of the first, one monitor is known and one screen is
    configured. *)
Example twin_monitors_share_an_id :
  value detect_monitors Scenario.twin_displays
  = Ret ["monitor_10000000"; "monitor_10000000"]
  /\ known_ids (after detect_monitors Scenario.twin_displays) = ["monitor_10000000"]
  /\ map sc_display_number
         (screen_configuration_of (after detect_monitors Scenario.twin_displays))
     = [2].
Proof. repeat split; vm_compute; reflexivity. Qed.

(** X6 on the reference desktop. *)
Lemma add_monitor_twice_witness :
  exists s2,
    add_monitor (monitor_data_of Scenario.display1)
                (after (add_monitor (monitor_data_of Scenario.display1)) Scenario.two_screens)
    = (Ret "monitor_10000000", s2)
    /\ known_monitors s2
       = known_monitors (after (add_monitor (monitor_data_of Scenario.display1))
                               Scenario.two_screens).
Proof.
  apply (add_monitor_twice (monitor_data_of Scenario.display1) Scenario.two_screens).
  vm_compute. reflexivity.
Defined.

(** X8 on the end-to-end scenario: two monitors are reported to a service
    that knows none. *)
Lemma detect_monitors_witness :
  exists ids s',
    detect_monitors Scenario.two_screens = (Ret ids, s')
    /\ length ids = 2%nat
    /\ (forall id, dict_has id (connected_monitors s') = true <-> In id ids)
    /\ (forall id, In id ids -> In id (known_ids s'))
    /\ NoDup (dict_keys (connected_monitors s'))
    /\ layout_slot s' = layout_slot Scenario.two_screens.
Proof.
  apply (proj2 (detect_monitors_connects_what_it_detects Scenario.two_screens)
               [Scenario.display1; Scenario.display2]).
  - reflexivity.
  - repeat (constructor; [split; discriminate|]). constructor.
  - constructor.
  - intros id H. discriminate H.
Defined.

(** ** Monitors and points *)

Lemma contains_point_test (monitor : ScreenInfo) (x y : Z) :
  (si_x monitor <=? x) && (x <? si_x monitor + si_width monitor)
  && (si_y monitor <=? y) && (y <? si_y monitor + si_height monitor) = true
  <-> contains_point monitor x y.
Proof. unfold contains_point. rewrite !andb_true_iff. lia. Qed.

(** [monitor_at] answers the first connected monitor on which the point
    lies. *)
Lemma monitor_at_spec (x y : Z) (connected : list (string * ScreenInfo)) :
  match monitor_at x y connected with
  | Some monitor_id =>
      exists before monitor rest,
        connected = (before ++ (monitor_id, monitor) :: rest)%list
        /\ contains_point monitor x y
        /\ Forall (fun entry => ~ contains_point (snd entry) x y) before
  | None => Forall (fun entry => ~ contains_point (snd entry) x y) connected
  end.
Proof.
  induction connected as [|[id m] connected IH]; simpl; [constructor|].
  destruct ((si_x m <=? x) && (x <? si_x m + si_width m)
            && (si_y m <=? y) && (y <? si_y m + si_height m)) eqn:E.
  - apply contains_point_test in E. exists [], m, connected. auto.
  - assert (Hno : ~ contains_point m x y).
    { intros H. apply contains_point_test in H. congruence. }
    destruct (monitor_at x y connected) as [found|].
    + destruct IH as (before & monitor & rest & -> & Hin & Hb).
      exists ((id, m) :: before), monitor, rest. auto.
    + constructor; assumption.
Qed.

Section Geometry.

Context {W : Type} {host : Host W}.

(** X9. [is_window_on_monitor] never raises and changes nothing. It
    answers [True] exactly when the rectangle of the window can be read
    and the monitor of that id is the first connected monitor on which the
    centre of the rectangle lies: the centre alone decides for a window
    that straddles two monitors, and a window whose rectangle cannot be
    read is on no monitor. *)
Theorem is_window_on_monitor_by_centre (s : State W) (hwnd : Z) (monitor_id : string) :
  exists verdict : bool,
    is_window_on_monitor hwnd monitor_id s = (Ret verdict, s)
    /\ (verdict = true
        <-> exists x0 y0 x1 y1 before monitor rest,
            GetWindowRect (world s) hwnd = Ret (x0, y0, x1, y1)
            /\ connected_monitors s = (before ++ (monitor_id, monitor) :: rest)%list
            /\ contains_point monitor ((x0 + x1) / 2) ((y0 + y1) / 2)
            /\ Forall (fun entry =>
                         ~ contains_point (snd entry) ((x0 + x1) / 2) ((y0 + y1) / 2))
                      before).
Proof.
  unfold is_window_on_monitor, get_window_monitor_id, get_monitor_by_position.
  unfold bind, try_except, call, gets, ret.
  destruct (GetWindowRect (world s) hwnd) as [[[[x0 y0] x1] y1]|e] eqn:Hrect.
  - pose proof (monitor_at_spec ((x0 + x1) / 2) ((y0 + y1) / 2) (connected_monitors s))
      as Hspec.
    destruct (monitor_at ((x0 + x1) / 2) ((y0 + y1) / 2) (connected_monitors s))
      as [found|] eqn:Hat.
    + eexists. split; [reflexivity|]. simpl.
      destruct Hspec as (before & monitor & rest & Hconn & Hin & Hb).
      split.
      * intros E. apply String.eqb_eq in E. subst found.
        exists x0, y0, x1, y1, before, monitor, rest. auto.
      * intros (x0' & y0' & x1' & y1' & before' & monitor' & rest' & [= <- <- <- <-]
                & Hconn' & Hin' & Hb').
        apply String.eqb_eq.
        clear Hrect Hat. revert before' Hconn' Hb'. rewrite Hconn. clear Hconn.
        induction Hb as [|b before Hb0 Hb IH]; intros before' Hconn' Hb'.
        -- destruct before' as [|b' before']; simpl in Hconn'.
           ++ congruence.
           ++ injection Hconn' as <- _. inversion Hb'; subst. contradiction.
        -- destruct before' as [|b' before']; simpl in Hconn'.
           ++ injection Hconn' as -> _. contradiction.
           ++ injection Hconn' as <- Hconn'. inversion Hb'; subst. eauto.
    + eexists. split; [reflexivity|]. simpl. split; [discriminate|].
      intros (x0' & y0' & x1' & y1' & before' & monitor' & rest' & [= <- <- <- <-]
              & Hconn' & Hin' & Hb'). exfalso.
      rewrite Hconn' in Hspec. apply Forall_app in Hspec as [_ Hspec].
      inversion Hspec; subst. auto.
  - exists false. split; [reflexivity|]. split; [discriminate|].
    intros (x0' & y0' & x1' & y1' & _ & _ & _ & [=] & _).
Qed.

(** X10. [get_primary_monitor_id] changes nothing; it answers [None]
    exactly when no monitor is connected, and otherwise the id of a
    connected monitor: of the first one flagged as primary, if any is. *)
Theorem get_primary_monitor_id_is_connected (s : State W) :
  exists answer,
    get_primary_monitor_id s = (Ret answer, s)
    /\ (answer = None <-> connected_monitors s = [])
    /\ (forall monitor_id, answer = Some monitor_id ->
          dict_has monitor_id (connected_monitors s) = true)
    /\ (forall before monitor_id monitor rest,
          connected_monitors s = (before ++ (monitor_id, monitor) :: rest)%list ->
          Forall (fun entry => si_is_primary (snd entry) = false) before ->
          si_is_primary monitor = true ->
          answer = Some monitor_id).
Proof.
  exists (primary_of (connected_monitors s)). split; [reflexivity|].
  generalize (connected_monitors s) as connected. intros connected.
  assert (Hfirst : forall c id, first_primary c = Some id -> In id (dict_keys c)).
  { induction c as [|[k m] c IH]; simpl; [discriminate|].
    destruct (si_is_primary m); [intros ? [= <-]; auto | intros id H; right; auto]. }
  assert (Horigin : forall c id, first_at_origin c = Some id -> In id (dict_keys c)).
  { induction c as [|[k m] c IH]; simpl; [discriminate|].
    destruct ((si_x m =? 0) && (si_y m =? 0));
      [intros ? [= <-]; auto | intros id H; right; auto]. }
  split; [|split].
  - unfold primary_of. destruct connected as [|[k m] c]; [split; reflexivity|].
    split; [|discriminate].
    destruct (first_primary ((k, m) :: c)); [discriminate|].
    destruct (first_at_origin ((k, m) :: c)); discriminate.
  - intros id. unfold primary_of. rewrite dict_has_In.
    destruct (first_primary connected) as [p|] eqn:Hp; [intros [= <-]; eauto|].
    destruct (first_at_origin connected) as [o|] eqn:Ho; [intros [= <-]; eauto|].
    destruct connected as [|[k m] c]; [discriminate|]. intros [= <-]. left. reflexivity.
  - intros before id monitor rest -> Hb Hm. unfold primary_of.
    assert (E : first_primary (before ++ (id, monitor) :: rest)%list = Some id).
    { induction Hb as [|[k m] before Hk _ IH]; simpl in *; [rewrite Hm; reflexivity|].
      rewrite Hk. exact IH. }
    rewrite E. reflexivity.
Qed.

End Geometry.

(** ** The screen configuration *)

Lemma Forall_insert_by_display (P : ScreenConfig -> Prop) (c : ScreenConfig)
  (sorted : list ScreenConfig) :
  Forall P (insert_by_display c sorted) <-> P c /\ Forall P sorted.
Proof.
  induction sorted as [|h t IH]; simpl.
  - rewrite Forall_cons. tauto.
  - destruct (sc_display_number c <? sc_display_number h).
    + rewrite Forall_cons. tauto.
    + rewrite !Forall_cons, IH. tauto.
Qed.

Lemma insert_by_display_sorted (c : ScreenConfig) (sorted : list ScreenConfig) :
  ForallOrdPairs (fun a b => sc_display_number a <= sc_display_number b) sorted ->
  ForallOrdPairs (fun a b => sc_display_number a <= sc_display_number b)
                 (insert_by_display c sorted).
Proof.
  induction 1 as [|h t Hh Ht IH]; simpl.
  - constructor; [constructor | constructor].
  - destruct (Z.ltb_spec (sc_display_number c) (sc_display_number h)) as [E|E].
    + constructor; [|constructor; assumption].
      constructor; [lia|]. eapply List.Forall_impl; [|exact Hh]. simpl. intros a Ha. lia.
    + constructor; [|exact IH].
      apply Forall_insert_by_display. split; [lia | exact Hh].
Qed.

Lemma insert_by_display_perm (c : ScreenConfig) (sorted : list ScreenConfig) :
  Permutation (insert_by_display c sorted) (c :: sorted).
Proof.
  induction sorted as [|h t IH]; simpl; [reflexivity|].
  destruct (sc_display_number c <? sc_display_number h); [reflexivity|].
  rewrite IH. apply perm_swap.
Qed.

(** An entry is put behind the entries of its own display number. *)
Lemma insert_by_display_stable (d : Z) (c : ScreenConfig) (sorted : list ScreenConfig) :
  ForallOrdPairs (fun a b => sc_display_number a <= sc_display_number b) sorted ->
  List.filter (fun x => sc_display_number x =? d) (insert_by_display c sorted)
  = (List.filter (fun x => sc_display_number x =? d) sorted
       ++ List.filter (fun x => sc_display_number x =? d) [c])%list.
Proof.
  induction 1 as [|h t Hh Ht IH]; [reflexivity|].
  cbn [insert_by_display].
  destruct (Z.ltb_spec (sc_display_number c) (sc_display_number h)) as [E|E].
  - cbn [List.filter]. destruct (Z.eqb_spec (sc_display_number c) d) as [Ec|Ec].
    + assert (Hnone : List.filter (fun x => sc_display_number x =? d) (h :: t) = []).
      { assert (Hall : Forall (fun x => sc_display_number c < sc_display_number x) (h :: t)).
        { constructor; [exact E|]. eapply List.Forall_impl; [|exact Hh]. simpl. lia. }
        clear -Hall Ec. induction Hall as [|x l Hx _ IH]; [reflexivity|].
        cbn [List.filter]. destruct (Z.eqb_spec (sc_display_number x) d); [lia | exact IH]. }
      cbn [List.filter] in Hnone. rewrite Hnone. reflexivity.
    + rewrite app_nil_r. reflexivity.
  - cbn [List.filter]. rewrite IH.
    destruct (sc_display_number h =? d); reflexivity.
Qed.

Lemma sort_by_display_from (configs sorted : list ScreenConfig) :
  ForallOrdPairs (fun a b => sc_display_number a <= sc_display_number b) sorted ->
  ForallOrdPairs (fun a b => sc_display_number a <= sc_display_number b)
                 (fold_left (fun sorted c => insert_by_display c sorted) configs sorted)
  /\ Permutation (fold_left (fun sorted c => insert_by_display c sorted) configs sorted)
                 (sorted ++ configs)
  /\ forall d,
      List.filter (fun x => sc_display_number x =? d)
                  (fold_left (fun sorted c => insert_by_display c sorted) configs sorted)
      = (List.filter (fun x => sc_display_number x =? d) sorted
           ++ List.filter (fun x => sc_display_number x =? d) configs)%list.
Proof.
  revert sorted. induction configs as [|c configs IH]; intros sorted Hs; simpl.
  - rewrite app_nil_r. split; [exact Hs|]. split; [reflexivity|].
    intros d. rewrite app_nil_r. reflexivity.
  - destruct (IH (insert_by_display c sorted) (insert_by_display_sorted c sorted Hs))
      as (H1 & H2 & H3).
    split; [exact H1|]. split.
    + eapply Permutation_trans; [exact H2|].
      eapply Permutation_trans; [apply Permutation_app_tail, insert_by_display_perm|].
      simpl. apply Permutation_middle.
    + intros d. rewrite H3, (insert_by_display_stable d c sorted Hs), <- app_assoc.
      f_equal. cbn [List.filter app]. destruct (sc_display_number c =? d); reflexivity.
Qed.

Lemma get_orientation_cases (width height : Z) :
  get_orientation width height = "horizontal" \/ get_orientation width height = "vertical".
Proof. unfold get_orientation. destruct (height <? width); auto. Qed.

(** What the loop of [get_screen_configuration] makes of the connected
    ids. *)
Lemma screen_configs_entries (known : list KnownMonitor) (connected_ids : list string) :
  Forall (fun c =>
            In (sc_monitor_id c) connected_ids
            /\ exists m,
                find_monitor (sc_monitor_id c) known = Some m
                /\ extract_display_number (km_name m) = Some (sc_display_number c)
                /\ sc_orientation c = get_orientation (km_width m) (km_height m)
                /\ sc_width c = km_width m
                /\ sc_height c = km_height m
                /\ sc_name c = km_name m)
         (screen_configs known connected_ids).
Proof.
  induction connected_ids as [|id ids IH]; simpl; [constructor|].
  assert (Hrest : Forall (fun c =>
            (id = sc_monitor_id c \/ In (sc_monitor_id c) ids)
            /\ exists m,
                find_monitor (sc_monitor_id c) known = Some m
                /\ extract_display_number (km_name m) = Some (sc_display_number c)
                /\ sc_orientation c = get_orientation (km_width m) (km_height m)
                /\ sc_width c = km_width m
                /\ sc_height c = km_height m
                /\ sc_name c = km_name m)
         (screen_configs known ids)).
  { eapply List.Forall_impl; [|exact IH]. simpl. intros c [H1 H2]. auto. }
  destruct (find_monitor id known) as [m|] eqn:Hm; [|exact Hrest].
  destruct (extract_display_number (km_name m)) as [d|] eqn:Hd; [|exact Hrest].
  constructor; [|exact Hrest]. simpl. split; [auto|]. exists m. repeat split; assumption.
Qed.

Section ScreenConfiguration.

Context {W : Type} {host : Host W}.

(** The entries of the screen configuration. *)
Lemma screen_configuration_entries (s : State W) :
  Forall (fun c =>
            dict_has (sc_monitor_id c) (connected_monitors s) = true
            /\ (sc_orientation c = "horizontal" \/ sc_orientation c = "vertical")
            /\ exists m,
                find_monitor (sc_monitor_id c) (known_monitors s) = Some m
                /\ extract_display_number (km_name m) = Some (sc_display_number c)
                /\ sc_orientation c = get_orientation (km_width m) (km_height m)
                /\ sc_width c = km_width m
                /\ sc_height c = km_height m
                /\ sc_name c = km_name m)
         (screen_configuration_of s).
Proof.
  unfold screen_configuration_of, sort_by_display.
  destruct (sort_by_display_from
              (screen_configs (known_monitors s) (dict_keys (connected_monitors s))) [])
    as (_ & Hperm & _); [constructor|].
  apply (Permutation_Forall (Permutation_sym Hperm)). simpl.
  eapply List.Forall_impl; [|apply screen_configs_entries]. simpl.
  intros c (Hin & m & Hm & Hd & Ho & Hrest).
  split; [apply dict_has_In, Hin|]. split; [rewrite Ho; apply get_orientation_cases|].
  exists m. split; [exact Hm|]. split; [exact Hd|]. split; [exact Ho | exact Hrest].
Qed.


End ScreenConfiguration.

(** ** The display map *)

Lemma find_display_none (d : Z) (current_config : list ScreenConfig) :
  find_display d current_config = None
  <-> forall c, In c current_config -> sc_display_number c <> d.
Proof.
  induction current_config as [|h t IH]; simpl; [split; [intros _ c [] | reflexivity]|].
  destruct (Z.eqb_spec (sc_display_number h) d) as [E|E].
  - split; [discriminate|]. intros H. exfalso. apply (H h); auto.
  - rewrite IH. split.
    + intros H c [<-|Hin]; auto.
    + intros H c Hin. apply H. auto.
Qed.

Lemma find_display_is_some (d : Z) (current_config : list ScreenConfig) :
  is_Some (find_display d current_config)
  <-> exists c, In c current_config /\ sc_display_number c = d.
Proof.
  split.
  - intros [c Hc]. apply find_display_some in Hc. eauto.
  - intros (c & Hin & Hd). destruct (find_display d current_config) eqn:E; [eauto|].
    exfalso. apply (proj1 (find_display_none d current_config) E c Hin Hd).
Qed.

Lemma build_display_map_lookup (current_config : list ScreenConfig) (d : Z) :
  build_display_map current_config !! d
  = sc_monitor_id <$> find_display d (rev current_config).
Proof.
  unfold build_display_map.
  rewrite <- (fold_left_rev_right
                (fun screen m => <[sc_display_number screen := sc_monitor_id screen]> m)).
  induction (rev current_config) as [|h t IH]; simpl; [apply lookup_empty|].
  destruct (Z.eqb_spec (sc_display_number h) d) as [E|E].
  - subst d. rewrite lookup_insert_eq. reflexivity.
  - rewrite lookup_insert_ne by exact E. exact IH.
Qed.

(** The display map of a screen configuration without a display 0 has no
    key 0. *)
Lemma build_display_map_without_zero (current_config : list ScreenConfig) :
  Forall (fun c => sc_display_number c <> 0) current_config ->
  build_display_map current_config !! 0 = None.
Proof.
  intros H. rewrite build_display_map_lookup.
  destruct (find_display 0 (rev current_config)) as [c|] eqn:E; [|reflexivity].
  apply find_display_some in E as [Hin Hd]. apply in_rev in Hin.
  rewrite List.Forall_forall in H. exfalso. apply (H c Hin Hd).
Qed.

Lemma one_entry_per_display (current_config : list ScreenConfig) (a b : ScreenConfig) :
  NoDup (map sc_display_number current_config) ->
  In a current_config -> In b current_config ->
  sc_display_number a = sc_display_number b -> a = b.
Proof.
  induction current_config as [|h t IH]; simpl; intros Hnd Ha Hb E; [destruct Ha|].
  apply NoDup_cons in Hnd as [Hnotin Hnd]. rewrite list_elem_of_In in Hnotin.
  destruct Ha as [<-|Ha], Hb as [<-|Hb]; auto.
  - exfalso. apply Hnotin. rewrite E. apply in_map, Hb.
  - exfalso. apply Hnotin. rewrite <- E. apply in_map, Ha.
Qed.

(** X12. [build_display_map] sends a display number to the monitor of the
    last entry of the configuration that carries it, and has a key for
    exactly the display numbers of the entries. [matches_requirements]
    looks at the first entry of a display number; the two agree where no
    two entries share a display number. *)
Theorem build_display_map_last_entry (current_config : list ScreenConfig) (d : Z) :
  build_display_map current_config !! d
  = sc_monitor_id <$> find_display d (rev current_config)
  /\ (is_Some (build_display_map current_config !! d)
      <-> exists c, In c current_config /\ sc_display_number c = d)
  /\ (NoDup (map sc_display_number current_config) ->
      build_display_map current_config !! d
      = sc_monitor_id <$> find_display d current_config).
Proof.
  split; [apply build_display_map_lookup|]. split.
  - rewrite build_display_map_lookup, fmap_is_Some, find_display_is_some.
    split; intros (c & Hin & Hd); exists c; (split; [|exact Hd]).
    + apply in_rev, Hin.
    + apply in_rev. rewrite rev_involutive. exact Hin.
  - intros Hnd. rewrite build_display_map_lookup. f_equal.
    destruct (find_display d current_config) as [c|] eqn:Hfirst.
    + destruct (find_display d (rev current_config)) as [c'|] eqn:Hlast.
      * apply find_display_some in Hfirst as [Hin Hd].
        apply find_display_some in Hlast as [Hin' Hd'].
        f_equal. apply (one_entry_per_display current_config); auto.
        -- apply in_rev, Hin'.
        -- congruence.
      * exfalso. apply find_display_some in Hfirst as [Hin Hd].
        apply (proj1 (find_display_none d (rev current_config)) Hlast c); [|exact Hd].
        apply in_rev. rewrite rev_involutive. exact Hin.
    + apply find_display_none. intros c Hin.
      apply (proj1 (find_display_none d current_config) Hfirst). apply in_rev, Hin.
Qed.

(** Two entries with one display number: the requirements are checked on
    the first, the map sends the display to the second. *)
Example display_map_takes_the_last_entry :
  build_display_map Scenario.twins !! 1 = Some "monitor_b"
  /\ sc_monitor_id <$> find_display 1 Scenario.twins = Some "monitor_a".
Proof. split; vm_compute; reflexivity. Qed.

(** ** Valid layouts *)

Lemma Z_in_In (x : Z) (xs : list Z) : Z_in x xs = true <-> In x xs.
Proof.
  unfold Z_in. rewrite existsb_exists. split.
  - intros (y & Hin & E). apply Z.eqb_eq in E. subst y. exact Hin.
  - intros H. exists x. split; [exact H | apply Z.eqb_refl].
Qed.

Lemma validate_screens_none (i : Z) (scrs : list ScreenReq) :
  validate_screens i scrs = None
  <-> Forall (fun screen =>
                is_Some (display_number screen)
                /\ (orientation screen = Some "horizontal"
                    \/ orientation screen = Some "vertical"))
             scrs.
Proof.
  revert i. induction scrs as [|screen scrs IH]; intros i; simpl.
  - split; [constructor | reflexivity].
  - rewrite List.Forall_cons_iff.
    destruct (display_number screen) as [d|].
    + destruct (orientation screen) as [o|].
      * destruct (String.eqb_spec o "horizontal") as [Eh|Eh];
          [|destruct (String.eqb_spec o "vertical") as [Ev|Ev]]; simpl.
        -- rewrite IH. subst o. split; [intros H; split; [split; eauto | exact H] | tauto].
        -- rewrite IH. subst o. split; [intros H; split; [split; eauto | exact H] | tauto].
        -- split; [discriminate|]. intros [[_ [[= E]|[= E]]] _]; contradiction.
      * split; [discriminate|]. intros [[_ [[=]|[=]]] _].
    + split; [discriminate|]. intros [[[x [=]] _] _].
Qed.

Lemma validate_rules_none (i : Z) (required_displays : list Z) (rules : list LayoutRule) :
  validate_rules i required_displays rules = None
  <-> Forall (fun rule =>
                is_Some (lr_match_type rule)
                /\ is_Some (lr_match_value rule)
                /\ exists target, lr_target_display rule = Some target
                                  /\ In target required_displays)
             rules.
Proof.
  revert i. induction rules as [|rule rules IH]; intros i; simpl.
  - split; [constructor | reflexivity].
  - rewrite List.Forall_cons_iff.
    destruct (lr_match_type rule) as [mt|];
      [|split; [discriminate | intros [[[x [=]] _] _]]].
    destruct (lr_match_value rule) as [mv|];
      [|split; [discriminate | intros [[_ [[x [=]] _]] _]]].
    destruct (lr_target_display rule) as [target|];
      [|split; [discriminate | intros [(_ & _ & x & [=] & _) _]]].
    destruct (Z_in target required_displays) eqn:Hin; simpl.
    + rewrite IH. apply Z_in_In in Hin.
      split; [intros H; split; [|exact H] | tauto].
      split; [eauto|]. split; [eauto|]. exists target. auto.
    + split; [discriminate|]. intros [(_ & _ & x & [= <-] & Hx) _].
      apply Z_in_In in Hx. congruence.
Qed.

(** The rules that pass [validate_rules] against the display numbers of
    the screens. *)
Lemma validate_rules_screens (i : Z) (scrs : list ScreenReq) (rules : list LayoutRule) :
  validate_rules i (omap display_number scrs) rules = None
  <-> Forall (fun rule =>
                is_Some (lr_match_type rule)
                /\ is_Some (lr_match_value rule)
                /\ exists target screen,
                    lr_target_display rule = Some target
                    /\ In screen scrs
                    /\ display_number screen = Some target)
             rules.
Proof.
  rewrite validate_rules_none. apply Forall_iff. intros rule.
  split; intros (H1 & H2 & H3); (split; [exact H1|]; split; [exact H2|]).
  - destruct H3 as (target & Ht & Hin).
    apply list_elem_of_In, list_elem_of_omap in Hin as (screen & Hs & Hd).
    exists target, screen. rewrite <- list_elem_of_In. auto.
  - destruct H3 as (target & screen & Ht & Hin & Hd).
    exists target. split; [exact Ht|].
    apply list_elem_of_In, list_elem_of_omap. exists screen.
    rewrite list_elem_of_In. auto.
Qed.

(** X13. [validate_layout] accepts every layout that has a name, screen
    requirements with [total_screens] and [screens], and rules, where every
    screen has a display number and the orientation "horizontal" or
    "vertical", and every rule has a match type, a match value and a target
    display that is the display number of one of the screens. Nothing else
    is asked: [total_screens] is not compared with the number of screens,
    a rule needs no [rule_id], and a display number may be required
    twice. *)
Theorem validate_layout_accepts_well_formed (layout_data : Layout) (name : string)
  (total : Z) (scrs : list ScreenReq) (rules : list LayoutRule) :
  lay_name layout_data = Some name ->
  lay_screen_requirements layout_data
  = Some {| total_screens := Some total; screens := Some scrs |} ->
  lay_rules layout_data = Some rules ->
  Forall (fun screen =>
            is_Some (display_number screen)
            /\ (orientation screen = Some "horizontal"
                \/ orientation screen = Some "vertical"))
         scrs ->
  Forall (fun rule =>
            is_Some (lr_match_type rule)
            /\ is_Some (lr_match_value rule)
            /\ exists target screen,
                lr_target_display rule = Some target
                /\ In screen scrs
                /\ display_number screen = Some target)
         rules ->
  validate_layout layout_data = (true, "Layout is valid").
Proof.
  intros Hname Hreq Hrules Hscreens Hall.
  apply (validate_screens_none 0) in Hscreens.
  apply (validate_rules_screens 0) in Hall.
  unfold validate_layout. rewrite Hname, Hreq, Hrules.
  cbn [total_screens screens]. rewrite Hscreens, Hall. reflexivity.
Qed.

(** X13 on a layout that asks for five screens and describes one of them,
    twice, with a rule that has no [rule_id]. *)
Lemma validate_layout_accepts_well_formed_witness :
  validate_layout Scenario.five_screens = (true, "Layout is valid").
Proof.
  apply (validate_layout_accepts_well_formed
           Scenario.five_screens "Five" 5
           [Scenario.screen 1 "horizontal"; Scenario.screen 1 "horizontal"]
           [Scenario.rule_without_id]);
    try reflexivity.
  - repeat constructor; eauto.
  - repeat constructor; eauto.
    exists 1, (Scenario.screen 1 "horizontal"). repeat split; [left; reflexivity].
Defined.

Lemma validate_layout_rules (layout_data : Layout) :
  fst (validate_layout layout_data) = true ->
  exists requirements scrs,
    lay_screen_requirements layout_data = Some requirements
    /\ screens requirements = Some scrs
    /\ Forall (fun rule =>
                 exists target screen,
                   lr_target_display rule = Some target
                   /\ In screen scrs
                   /\ display_number screen = Some target)
              (stored_rules layout_data).
Proof.
  unfold validate_layout, stored_rules.
  destruct (lay_name layout_data); [|discriminate].
  destruct (lay_screen_requirements layout_data) as [requirements|]; [|discriminate].
  destruct (lay_rules layout_data) as [rules|]; [|discriminate].
  destruct (total_screens requirements); [|discriminate].
  destruct (screens requirements) as [scrs|] eqn:Hscrs; [|discriminate].
  destruct (validate_screens 0 scrs); [discriminate|].
  destruct (validate_rules 0 (omap display_number scrs) rules) eqn:Hr; [discriminate|].
  intros _. exists requirements, scrs. split; [reflexivity|]. split; [exact Hscrs|].
  apply (validate_rules_screens 0) in Hr. simpl.
  eapply List.Forall_impl; [|exact Hr]. simpl. intros rule (_ & _ & H). exact H.
Qed.

Lemma find_display_last (d : Z) (current_config : list ScreenConfig) :
  is_Some (find_display d current_config) ->
  exists c, find_display d (rev current_config) = Some c /\ In c current_config.
Proof.
  intros H. apply find_display_is_some in H as (c & Hin & Hd).
  destruct (find_display d (rev current_config)) as [c'|] eqn:E.
  - exists c'. split; [reflexivity|]. apply find_display_some in E as [Hin' _].
    apply in_rev, Hin'.
  - exfalso. apply (proj1 (find_display_none d (rev current_config)) E c); [|exact Hd].
    apply in_rev. rewrite rev_involutive. exact Hin.
Qed.

Section LayoutFiles.

Context {W : Type} {host : Host W}.

Lemma layout_file_name_fixed (layout_name : string) :
  layout_file_name (layout_file_name layout_name) = layout_file_name layout_name.
Proof.
  unfold layout_file_name.
  destruct (PyStr.endswith ".json" layout_name) eqn:E; simpl.
  - rewrite E. reflexivity.
  - rewrite endswith_app. reflexivity.
Qed.

(** X14. [load_layout] changes nothing; it answers only a layout that is
    in the file of that name and that [validate_layout] accepts, and raises
    nothing but [LayoutError]: for a missing file, a file that cannot be
    read or parsed, and a layout that is not valid. The name is taken with
    or without its ".json". *)
Theorem load_layout_answers_valid_layouts_only (layout_name : string) (s : State W) :
  match load_layout layout_name s with
  | (Ret layout_data, s') =>
      s' = s
      /\ fst (validate_layout layout_data) = true
      /\ layout_file (world s) (layout_file_name layout_name) = Some (Ret layout_data)
  | (Raise e, s') =>
      s' = s
      /\ (exists msg, e = LayoutError msg)
      /\ (layout_file (world s) (layout_file_name layout_name) = None
          \/ (exists e0, layout_file (world s) (layout_file_name layout_name)
                         = Some (Raise e0))
          \/ exists layout_data,
              layout_file (world s) (layout_file_name layout_name) = Some (Ret layout_data)
              /\ fst (validate_layout layout_data) = false)
  end
  /\ load_layout (layout_file_name layout_name) s = load_layout layout_name s.
Proof.
  split.
  - rewrite load_layout_cases.
    destruct (layout_file (world s) (layout_file_name layout_name)) as [[l|e0]|].
    + destruct (fst (validate_layout l)) eqn:Hv; [auto|].
      split; [reflexivity|]. split; [eauto|]. right. right. eauto.
    + split; [reflexivity|]. split; [eauto|]. right. left. eauto.
    + split; [reflexivity|]. split; [eauto|]. left. reflexivity.
  - rewrite !load_layout_cases, layout_file_name_fixed. reflexivity.
Qed.

(** What a successful activation has found and done. *)
Lemma activate_layout_success (s s' : State W) (layout_name : string) (r : Activation) :
  activate_layout layout_name s = (Ret r, s') ->
  act_success r = true ->
  active_layout s = None
  /\ exists layout_data name requirements reason,
      layout_file (world s) (layout_file_name layout_name) = Some (Ret layout_data)
      /\ fst (validate_layout layout_data) = true
      /\ lay_name layout_data = Some name
      /\ lay_screen_requirements layout_data = Some requirements
      /\ matches_requirements (screen_configuration_of s) requirements = Ret (true, reason)
      /\ s' = set_active_layout (Some (activated layout_name layout_data name s))
                                (set_world (snd (now_isoformat (world s))) s)
      /\ act_layout r = Some name.
Proof.
  intros Hrun Hok.
  destruct (active_layout s) as [active|] eqn:Ha.
  { destruct (activate_layout_when_active s layout_name active Ha) as (r' & Hr' & Hno).
    congruence. }
  split; [reflexivity|].
  rewrite (activate_layout_inactive _ _ Ha), load_layout_cases in Hrun.
  destruct (layout_file (world s) (layout_file_name layout_name)) as [[l|e0]|];
    [|discriminate Hrun|discriminate Hrun].
  destruct (fst (validate_layout l)) eqn:Hvalid; [|discriminate Hrun].
  rewrite can_apply_layout_cases in Hrun.
  destruct (lay_screen_requirements l) as [requirements|] eqn:Hreq; [|discriminate Hrun].
  destruct (matches_requirements (screen_configuration_of s) requirements)
    as [[[|] reason]|e] eqn:Hmatch; [|discriminate Hrun|discriminate Hrun].
  destruct (lay_name l) as [name|] eqn:Hname; [|discriminate Hrun].
  injection Hrun as <- <-.
  exists l, name, requirements, reason. repeat split; auto.
Qed.

Lemma check_required_screens_true (current_config : list ScreenConfig)
  (required_screens : list ScreenReq) (reason : string) :
  check_required_screens current_config required_screens = Ret (true, reason) ->
  Forall (fun screen =>
            exists d c, display_number screen = Some d
                        /\ find_display d current_config = Some c
                        /\ orientation screen = Some (sc_orientation c))
         required_screens.
Proof.
  induction required_screens as [|screen rest IH]; simpl; [constructor|].
  destruct (display_number screen) as [d|] eqn:Hd; simpl; [|discriminate].
  destruct (orientation screen) as [o|] eqn:Ho; simpl; [|discriminate].
  destruct (find_display d current_config) as [c|] eqn:Hc; [|discriminate].
  destruct (String.eqb_spec (sc_orientation c) o) as [E|E]; simpl; [|discriminate].
  intros H. constructor; [|apply IH, H]. exists d, c. subst o. auto.
Qed.

Lemma matches_requirements_true (current_config : list ScreenConfig)
  (requirements : ScreenRequirements) (reason : string) :
  matches_requirements current_config requirements = Ret (true, reason) ->
  Forall (fun screen =>
            exists d c, display_number screen = Some d
                        /\ find_display d current_config = Some c
                        /\ orientation screen = Some (sc_orientation c))
         (default [] (screens requirements)).
Proof.
  unfold matches_requirements.
  destruct (total_screens requirements) as [t|].
  - destruct (negb (len current_config =? t)); [discriminate|].
    apply check_required_screens_true.
  - apply check_required_screens_true.
Qed.

(** X15. After a successful activation every stored rule of the active
    layout has a target display that the stored display map sends to a
    monitor, and that monitor is connected; so [get_active_rules] leaves
    out no rule but one that targets display 0. The map is that of the
    screen configuration at activation, and a validity check made right
    away answers [True] and keeps the layout. *)
Theorem activation_maps_every_rule (s s' : State W) (layout_name : string)
  (r : Activation) :
  activate_layout layout_name s = (Ret r, s') ->
  act_success r = true ->
  exists active,
    active_layout s' = Some active
    /\ al_display_map active = build_display_map (screen_configuration_of s)
    /\ Forall (fun rule =>
                 exists target monitor_id,
                   lr_target_display rule = Some target
                   /\ al_display_map active !! target = Some monitor_id
                   /\ dict_has monitor_id (connected_monitors s') = true
                   /\ (target <> 0 -> resolvable (al_display_map active) rule = true))
              (stored_rules (al_data active))
    /\ check_active_layout_validity s' = (Ret true, s').
Proof.
  intros Hrun Hok.
  destruct (activate_layout_success s s' layout_name r Hrun Hok)
    as (Ha & l & name & requirements & reason & Hfile & Hvalid & Hname & Hreq & Hmatch
        & -> & _).
  eexists. split; [reflexivity|]. cbn [al_display_map al_data activated].
  split; [reflexivity|]. split.
  - apply validate_layout_rules in Hvalid.
    destruct Hvalid as (requirements' & scrs & Hreq' & Hscrs & Hrules).
    rewrite Hreq in Hreq'. injection Hreq' as <-.
    eapply List.Forall_impl; [|exact Hrules]. simpl.
    intros rule (target & screen & Ht & Hin & Hd).
    pose proof (matches_requirements_true _ _ _ Hmatch) as Hall.
    rewrite Hscrs in Hall. simpl in Hall. rewrite List.Forall_forall in Hall.
    destruct (Hall screen Hin) as (d & c & Hd' & Hc & _).
    assert (d = target) by congruence. subst d.
    destruct (find_display_last target (screen_configuration_of s)) as (c' & Hc' & Hin');
      [eauto|].
    exists target, (sc_monitor_id c'). split; [exact Ht|].
    assert (Hmap : build_display_map (screen_configuration_of s) !! target
                   = Some (sc_monitor_id c')).
    { rewrite build_display_map_lookup, Hc'. reflexivity. }
    split; [exact Hmap|]. split.
    + pose proof (screen_configuration_entries s) as Hentries.
      rewrite List.Forall_forall in Hentries.
      destruct (Hentries c' Hin') as [Hconn _]. exact Hconn.
    + intros Hnz. unfold resolvable. rewrite Ht, Hmap.
      apply andb_true_iff. split; [apply negb_true_iff, Z.eqb_neq, Hnz|].
      apply bool_decide_eq_true. eauto.
  - rewrite check_active_layout_validity_cases. cbn [active_layout set_active_layout].
    rewrite can_apply_layout_cases. cbn [al_data activated]. rewrite Hreq.
    change (screen_configuration_of
              (set_active_layout (Some (activated layout_name l name s))
                                 (set_world (snd (now_isoformat (world s))) s)))
      with (screen_configuration_of s).
    rewrite Hmatch. reflexivity.
Qed.

Lemma deactivate_layout_cases (s : State W) :
  deactivate_layout s
  = match active_layout s with
    | None =>
        (Ret {| deact_success := false; deact_deactivated := None;
                deact_message := "No active layout to deactivate" |}, s)
    | Some active =>
        (Ret {| deact_success := true; deact_deactivated := Some (al_name active);
                deact_message := "Layout '" +:+ al_name active
                                   +:+ "' deactivated successfully" |},
         set_active_layout None s)
    end.
Proof.
  cbv beta delta [deactivate_layout bind gets modify ret].
  destruct (active_layout s); reflexivity.
Qed.

(** X16. Activating a layout and deactivating it again leaves the
    managers as they were: [deactivate_layout] answers success with the
    name of the layout, the slot is empty again, and the known monitors and
    the connection map were never touched. A second [deactivate_layout]
    answers [success: False] and changes nothing. *)
Theorem activate_then_deactivate (s s1 : State W) (layout_name : string) (r : Activation) :
  activate_layout layout_name s = (Ret r, s1) ->
  act_success r = true ->
  exists d,
    deactivate_layout s1 = (Ret d, set_active_layout None s1)
    /\ deact_success d = true
    /\ deact_deactivated d = act_layout r
    /\ managers (set_active_layout None s1) = managers s
    /\ exists d',
        deactivate_layout (set_active_layout None s1) = (Ret d', set_active_layout None s1)
        /\ deact_success d' = false.
Proof.
  intros Hrun Hok.
  destruct (activate_layout_success s s1 layout_name r Hrun Hok)
    as (Ha & l & name & requirements & reason & _ & _ & _ & _ & _ & -> & Hr).
  rewrite !deactivate_layout_cases. cbn [active_layout set_active_layout].
  eexists. split; [reflexivity|]. split; [reflexivity|].
  split; [rewrite Hr; reflexivity|]. split.
  - unfold managers. cbn. rewrite Ha. reflexivity.
  - eexists. split; reflexivity.
Qed.

(** X17. A validity check settles the slot: after a check that has
    answered, a second check answers [True] and changes nothing. And the
    check does not look at the world: it judges the layout by the
    connection map as the last [detect_monitors] left it, so that a monitor
    that is unplugged is missed only after the next detection. *)
Theorem check_validity_settles (s : State W) :
  (forall b s1,
      check_active_layout_validity s = (Ret b, s1) ->
      check_active_layout_validity s1 = (Ret true, s1))
  /\ (forall w,
         value check_active_layout_validity (set_world w s)
         = value check_active_layout_validity s).
Proof.
  split.
  - intros b s1. rewrite !check_active_layout_validity_cases.
    destruct (active_layout s) as [active|] eqn:Ha.
    + rewrite can_apply_layout_cases.
      destruct (lay_screen_requirements (al_data active)) as [requirements|] eqn:Hreq;
        [|discriminate].
      destruct (matches_requirements (screen_configuration_of s) requirements)
        as [[[|] reason]|e] eqn:Hmatch; [| |discriminate].
      * intros [= <- <-]. rewrite Ha, can_apply_layout_cases, Hreq, Hmatch. reflexivity.
      * intros [= <- <-]. reflexivity.
    + intros [= <- <-]. rewrite Ha. reflexivity.
  - intros w. unfold value. rewrite !check_active_layout_validity_cases.
    cbn [active_layout set_world].
    destruct (active_layout s) as [active|]; [|reflexivity].
    rewrite !can_apply_layout_cases.
    change (screen_configuration_of (set_world w s)) with (screen_configuration_of s).
    destruct (lay_screen_requirements (al_data active)) as [requirements|]; [|reflexivity].
    destruct (matches_requirements (screen_configuration_of s) requirements)
      as [[[|] reason]|e]; reflexivity.
Qed.

(** [get_layout_preview], step by step. *)
Lemma get_layout_preview_cases (layout_name : string) (s : State W) :
  get_layout_preview layout_name s
  = match load_layout layout_name s with
    | (Raise e, _) => (Raise e, s)
    | (Ret layout_data, _) =>
        match can_apply_layout layout_data s with
        | (Raise e, _) => (Raise e, s)
        | (Ret (can_apply, reason), _) =>
            (Ret {| pv_name := default layout_name (lay_name layout_data);
                    pv_file_name := layout_name +:+ ".json";
                    pv_can_apply := can_apply;
                    pv_reason := reason;
                    pv_screen_requirements :=
                      default {| total_screens := None; screens := None |}
                              (lay_screen_requirements layout_data);
                    pv_current_screen_config := screen_configuration_of s;
                    pv_rules_count := len (default [] (lay_rules layout_data)) |}, s)
        end
    end.
Proof.
  unfold get_layout_preview. unfold bind at 1.
  pose proof (load_layout_reads layout_name s) as Hl. unfold whole in Hl.
  destruct (load_layout layout_name s) as [[l|e] s1]; simpl in Hl; subst s1; [|reflexivity].
  unfold bind at 1. unfold get_screen_configuration, gets at 1. unfold bind at 1.
  pose proof (can_apply_layout_reads l s) as Hc. unfold whole in Hc.
  destruct (can_apply_layout l s) as [[[can_apply reason]|e] s1]; simpl in Hc; subst s1;
    reflexivity.
Qed.

(** X18. [get_layout_preview] changes nothing, and with no layout active
    it foretells the activation: the preview says [can_apply] exactly when
    [activate_layout] would succeed, and when it says that the layout
    cannot be applied, [activate_layout] raises [LayoutError] with the
    reason of the preview. *)
Theorem get_layout_preview_foretells_activation (s : State W) (layout_name : string) :
  after (get_layout_preview layout_name) s = s
  /\ (active_layout s = None ->
      ((exists p, get_layout_preview layout_name s = (Ret p, s) /\ pv_can_apply p = true)
       <-> exists r s', activate_layout layout_name s = (Ret r, s')
                        /\ act_success r = true)
      /\ forall p,
          get_layout_preview layout_name s = (Ret p, s) ->
          pv_can_apply p = false ->
          activate_layout layout_name s
          = (Raise (LayoutError ("Screen configuration doesn't match layout requirements: "
                                   +:+ pv_reason p)), s)).
Proof.
  split.
  - unfold after. rewrite get_layout_preview_cases.
    destruct (load_layout layout_name s) as [[l|e] s1]; [|reflexivity].
    destruct (can_apply_layout l s) as [[[can_apply reason]|e] s2]; reflexivity.
  - intros Ha. rewrite get_layout_preview_cases, (activate_layout_inactive _ _ Ha).
    destruct (load_layout layout_name s) as [[l|e] s1] eqn:Hload.
    + apply load_layout_valid in Hload as [Hvalid _].
      destruct (validate_layout_name l Hvalid) as [name Hname]. rewrite Hname.
      destruct (can_apply_layout l s) as [[[[|] reason]|e] s2].
      * split; [|intros p [= <-] Hno; discriminate Hno].
        split; [intros _; eexists _, _; split; reflexivity|].
        intros _. eexists. split; reflexivity.
      * split; [|intros p [= <-] _; reflexivity].
        split; [intros (p & [= <-] & Hyes); discriminate Hyes|].
        intros (r & s' & [=] & _).
      * split; [|intros p [=]].
        split; [intros (p & [=] & _) | intros (r & s' & [=] & _)].
    + split; [|intros p [=]].
      split; [intros (p & [=] & _) | intros (r & s' & [=] & _)].
Qed.

End LayoutFiles.

(** X15 on the end-to-end scenario: the rule for Chrome targets display 2,
    which the map sends to the second monitor. *)
Lemma activation_maps_every_rule_witness :
  exists active,
    active_layout Scenario.activated_two_screens = Some active
    /\ al_display_map active
       = build_display_map (screen_configuration_of Scenario.detected_two_screens)
    /\ Forall (fun rule =>
                 exists target monitor_id,
                   lr_target_display rule = Some target
                   /\ al_display_map active !! target = Some monitor_id
                   /\ dict_has monitor_id (connected_monitors Scenario.activated_two_screens)
                      = true
                   /\ (target <> 0 -> resolvable (al_display_map active) rule = true))
              (stored_rules (al_data active))
    /\ check_active_layout_validity Scenario.activated_two_screens
       = (Ret true, Scenario.activated_two_screens).
Proof.
  refine (activation_maps_every_rule
            Scenario.detected_two_screens Scenario.activated_two_screens "coding"
            {| act_success := true; act_layout := Some "Coding";
               act_rules_applied := Some 1;
               act_message := "Layout 'Coding' activated successfully" |} _ _).
  - vm_compute. reflexivity.
  - reflexivity.
Defined.

(** X16 on the end-to-end scenario. *)
Lemma activate_then_deactivate_witness :
  exists d,
    deactivate_layout Scenario.activated_two_screens
    = (Ret d, set_active_layout None Scenario.activated_two_screens)
    /\ deact_success d = true
    /\ deact_deactivated d = Some "Coding"
    /\ managers (set_active_layout None Scenario.activated_two_screens)
       = managers Scenario.detected_two_screens
    /\ exists d',
        deactivate_layout (set_active_layout None Scenario.activated_two_screens)
        = (Ret d', set_active_layout None Scenario.activated_two_screens)
        /\ deact_success d' = false.
Proof.
  refine (activate_then_deactivate
            Scenario.detected_two_screens Scenario.activated_two_screens "coding"
            {| act_success := true; act_layout := Some "Coding";
               act_rules_applied := Some 1;
               act_message := "Layout 'Coding' activated successfully" |} _ _).
  - vm_compute. reflexivity.
  - reflexivity.
Defined.

(** The preview of the end-to-end scenario, and of the same layout with
    the second monitor gone. *)
Example preview_of_coding :
  (exists p, get_layout_preview "coding" Scenario.detected_two_screens
             = (Ret p, Scenario.detected_two_screens)
             /\ pv_can_apply p = true
             /\ pv_rules_count p = 1
             /\ pv_file_name p = "coding.json")
  /\ exists p, value (get_layout_preview "coding.json")
                     (after detect_monitors (run_op (Environment Scenario.unplug)
                                                    Scenario.detected_two_screens))
               = Ret p
               /\ pv_can_apply p = false
               /\ pv_reason p = "Need exactly 2 screen(s), but 1 connected"
               /\ pv_file_name p = "coding.json.json".
Proof.
  split; eexists; (split; [vm_compute; reflexivity|]); repeat split.
Qed.

(** ** Creating a layout from the screens at hand *)

Lemma find_display_own (current_config : list ScreenConfig) (c : ScreenConfig) :
  NoDup (map sc_display_number current_config) ->
  In c current_config ->
  find_display (sc_display_number c) current_config = Some c.
Proof.
  intros Hnd Hin.
  destruct (find_display (sc_display_number c) current_config) as [c'|] eqn:E.
  - apply find_display_some in E as [Hin' Hd]. f_equal.
    apply (one_entry_per_display current_config); auto.
  - exfalso. apply (proj1 (find_display_none _ _) E c Hin). reflexivity.
Qed.

Lemma check_own_screens (current_config entries : list ScreenConfig) :
  NoDup (map sc_display_number current_config) ->
  incl entries current_config ->
  check_required_screens current_config
    (map (fun screen => {| display_number := Some (sc_display_number screen);
                           orientation := Some (sc_orientation screen) |}) entries)
  = Ret (true, "All requirements met").
Proof.
  intros Hnd. induction entries as [|c entries IH]; intros Hincl; [reflexivity|].
  cbn [map check_required_screens item display_number orientation].
  rewrite (find_display_own current_config c Hnd) by (apply Hincl; left; reflexivity).
  rewrite string_eqb_refl. cbn [negb]. apply IH.
  intros x Hx. apply Hincl. right. exact Hx.
Qed.

(** The requirements of a new layout are those of the entries it was made
    from. *)
Lemma new_layout_requirements (layout_name description now : string)
  (screen_config : list ScreenConfig) :
  lay_screen_requirements
    (as_layout (new_layout_document layout_name description now screen_config))
  = Some {| total_screens := Some (len screen_config);
            screens :=
              Some (map (fun screen =>
                           {| display_number := Some (sc_display_number screen);
                              orientation := Some (sc_orientation screen) |})
                        screen_config) |}.
Proof.
  unfold as_layout, new_layout_document.
  cbn [lay_screen_requirements doc_total_screens doc_screens].
  unfold len. rewrite length_map, map_map. reflexivity.
Qed.

Lemma new_layout_valid (layout_name description now : string)
  (screen_config : list ScreenConfig) :
  Forall (fun c => sc_orientation c = "horizontal" \/ sc_orientation c = "vertical")
         screen_config ->
  validate_layout (as_layout (new_layout_document layout_name description now screen_config))
  = (true, "Layout is valid").
Proof.
  intros Hall. unfold validate_layout.
  rewrite new_layout_requirements.
  cbn [lay_name lay_rules as_layout new_layout_document doc_name doc_rules
       total_screens screens].
  assert (Hscreens : validate_screens 0
            (map (fun screen =>
                    {| display_number := Some (sc_display_number screen);
                       orientation := Some (sc_orientation screen) |}) screen_config)
          = None).
  { apply validate_screens_none. apply List.Forall_map.
    eapply List.Forall_impl; [|exact Hall]. simpl. intros c Hc.
    split; [eauto|]. destruct Hc as [-> | ->]; auto. }
  rewrite Hscreens. reflexivity.
Qed.

Section NewLayouts.

Context {W : Type} {host : Host W} {writer : LayoutWriter W}.

(** [create_layout_from_current_config], step by step. *)
Lemma create_layout_cases (layout_name description : string) (s : State W) :
  create_layout_from_current_config layout_name description s
  = match screen_configuration_of s with
    | [] =>
        (Ret {| cr_success := false;
                cr_message := "No screens detected. Cannot create layout.";
                cr_file_name := None; cr_file_path := None |}, s)
    | _ =>
        let told := now_isoformat (world s) in
        let file_name := new_layout_file_name layout_name in
        match layout_file (snd told) file_name with
        | Some _ =>
            (Ret {| cr_success := false;
                    cr_message := "Layout '" +:+ layout_name
                                    +:+ "' already exists. Please choose a different name.";
                    cr_file_name := None; cr_file_path := None |},
             set_world (snd told) s)
        | None =>
            match write_layout file_name
                    (new_layout_document layout_name description (fst told)
                                         (screen_configuration_of s))
                    (snd told) with
            | (Ret _, w) =>
                (Ret {| cr_success := true;
                        cr_message := "Layout '" +:+ layout_name +:+ "' created successfully";
                        cr_file_name := Some file_name;
                        cr_file_path := Some (layout_path (snd told) file_name) |},
                 set_world w s)
            | (Raise e, w) =>
                (Ret {| cr_success := false;
                        cr_message := "Failed to create layout: " +:+ str_of_exn e;
                        cr_file_name := None; cr_file_path := None |},
                 set_world w s)
            end
        end
    end.
Proof.
  unfold create_layout_from_current_config. unfold bind at 1.
  unfold get_screen_configuration, gets at 1.
  destruct (screen_configuration_of s) as [|c cfg] eqn:Hcfg; [reflexivity|].
  cbv beta iota zeta delta [bind act_total read try_except act ret].
  destruct (now_isoformat (world s)) as [now w1]. cbn [fst snd world set_world].
  destruct (layout_file w1 (new_layout_file_name layout_name)); [reflexivity|].
  cbv beta. cbn [fst snd world set_world].
  destruct (write_layout (new_layout_file_name layout_name)
              (new_layout_document layout_name description now (c :: cfg)) w1)
    as [[u|e] w2]; reflexivity.
Qed.

Lemma create_layout_keeps_managers (layout_name description : string) :
  preserves managers (create_layout_from_current_config layout_name description).
Proof. unfold create_layout_from_current_config. frame. Qed.

(** X19. [create_layout_from_current_config] never raises and leaves the
    managers alone. With no screen configured it refuses and changes
    nothing; where a file of the new name exists it refuses and writes
    nothing. When it answers success, it has written, under the name in
    lower case with "-" for each blank and ".json" at the end, a document
    with one screen per configured screen and no rules, which
    [validate_layout] accepts. *)
Theorem create_layout_writes_a_valid_layout (layout_name description : string)
  (s : State W) :
  exists c s',
    create_layout_from_current_config layout_name description s = (Ret c, s')
    /\ managers s' = managers s
    /\ (screen_configuration_of s = [] -> cr_success c = false /\ s' = s)
    /\ (is_Some (layout_file (snd (now_isoformat (world s)))
                             (new_layout_file_name layout_name)) ->
        cr_success c = false
        /\ (s' = s \/ s' = set_world (snd (now_isoformat (world s))) s))
    /\ (cr_success c = true ->
        write_layout (new_layout_file_name layout_name)
                     (new_layout_document layout_name description
                                          (fst (now_isoformat (world s)))
                                          (screen_configuration_of s))
                     (snd (now_isoformat (world s)))
        = (Ret tt, world s')
        /\ cr_file_name c = Some (new_layout_file_name layout_name)
        /\ validate_layout
             (as_layout (new_layout_document layout_name description
                                             (fst (now_isoformat (world s)))
                                             (screen_configuration_of s)))
           = (true, "Layout is valid")
        /\ lay_rules (as_layout (new_layout_document layout_name description
                                                     (fst (now_isoformat (world s)))
                                                     (screen_configuration_of s)))
           = Some []).
Proof.
  rewrite create_layout_cases.
  assert (Hvalid : forall now,
             validate_layout
               (as_layout (new_layout_document layout_name description now
                                               (screen_configuration_of s)))
             = (true, "Layout is valid")).
  { intros now. apply new_layout_valid.
    eapply List.Forall_impl; [|apply screen_configuration_entries]. simpl.
    intros c (_ & Ho & _). exact Ho. }
  destruct (screen_configuration_of s) as [|c0 cfg] eqn:Hcfg.
  - eexists _, _. split; [reflexivity|]. split; [reflexivity|].
    split; [auto|]. split; [auto|]. discriminate.
  - cbv zeta.
    destruct (layout_file (snd (now_isoformat (world s)))
                          (new_layout_file_name layout_name)) as [existing|] eqn:Hfile.
    + eexists _, _. split; [reflexivity|]. split; [reflexivity|].
      split; [discriminate|]. split; [auto|]. discriminate.
    + destruct (write_layout (new_layout_file_name layout_name)
                  (new_layout_document layout_name description
                     (fst (now_isoformat (world s))) (c0 :: cfg))
                  (snd (now_isoformat (world s)))) as [[[]|e] w2] eqn:Hwrite.
      * eexists _, _. split; [reflexivity|]. split; [reflexivity|].
        split; [discriminate|]. split; [intros [x Hx]; discriminate Hx|].
        intros _. split; [reflexivity|]. split; [reflexivity|].
        split; [apply Hvalid | reflexivity].
      * eexists _, _. split; [reflexivity|]. split; [reflexivity|].
        split; [discriminate|]. split; [intros [x Hx]; discriminate Hx|].
        discriminate.
Qed.

(** X20. A layout created from the screens at hand can be activated right
    away: when the creation has succeeded, no two configured screens share
    a display number, no layout is active, and the layouts directory gives
    back the document that was written, [activate_layout] on the new file
    succeeds, with the name given and no rule. *)
Theorem created_layout_can_be_activated (layout_name description : string)
  (s s' : State W) (c : Creation) :
  create_layout_from_current_config layout_name description s = (Ret c, s') ->
  cr_success c = true ->
  NoDup (map sc_display_number (screen_configuration_of s)) ->
  active_layout s = None ->
  layout_file (world s') (new_layout_file_name layout_name)
  = Some (Ret (as_layout (new_layout_document layout_name description
                                              (fst (now_isoformat (world s)))
                                              (screen_configuration_of s)))) ->
  exists r s'',
    activate_layout (new_layout_file_name layout_name) s' = (Ret r, s'')
    /\ act_success r = true
    /\ act_layout r = Some layout_name
    /\ act_rules_applied r = Some 0.
Proof.
  intros Hrun Hok Hnd Ha Hback.
  assert (Hs' : managers s' = managers s).
  { pose proof (create_layout_keeps_managers layout_name description s) as Hm.
    rewrite Hrun in Hm. exact Hm. }
  assert (Ha' : active_layout s' = None)
    by (unfold managers in Hs'; congruence).
  assert (Hcfg : screen_configuration_of s' = screen_configuration_of s)
    by (unfold screen_configuration_of; unfold managers in Hs'; congruence).
  rewrite (activate_layout_inactive _ _ Ha'), load_layout_cases.
  assert (Hname : layout_file_name (new_layout_file_name layout_name)
                  = new_layout_file_name layout_name).
  { unfold layout_file_name, new_layout_file_name. rewrite endswith_app. reflexivity. }
  rewrite Hname, Hback.
  rewrite new_layout_valid.
  2:{ eapply List.Forall_impl; [|apply screen_configuration_entries]. simpl.
      intros x (_ & Ho & _). exact Ho. }
  cbn [fst]. rewrite can_apply_layout_cases, new_layout_requirements, Hcfg.
  unfold matches_requirements. cbn [total_screens screens default from_option id].
  rewrite Z.eqb_refl. cbn [negb].
  rewrite (check_own_screens _ _ Hnd (incl_refl _)).
  cbn [lay_name as_layout new_layout_document doc_name].
  eexists _, _. split; [reflexivity|]. repeat split.
Qed.

End NewLayouts.

(** X20 on the end-to-end scenario: a layout named "My Desk" is created
    from the two screens and activated from its file "my-desk.json". *)
Lemma created_layout_can_be_activated_witness :
  exists r s'',
    activate_layout (new_layout_file_name "My Desk")
                    (after (create_layout_from_current_config "My Desk" "")
                           Scenario.detected_two_screens)
    = (Ret r, s'')
    /\ act_success r = true
    /\ act_layout r = Some "My Desk"
    /\ act_rules_applied r = Some 0.
Proof.
  refine (created_layout_can_be_activated
            "My Desk" "" Scenario.detected_two_screens
            (after (create_layout_from_current_config "My Desk" "")
                   Scenario.detected_two_screens)
            {| cr_success := true;
               cr_message := "Layout 'My Desk' created successfully";
               cr_file_name := Some "my-desk.json";
               cr_file_path := Some "layouts\my-desk.json" |} _ _ _ _ _).
  - vm_compute. reflexivity.
  - reflexivity.
  - vm_compute. apply NoDup_ListNoDup. repeat constructor; simpl; intuition discriminate.
  - reflexivity.
  - vm_compute. reflexivity.
Defined.

(** The document written for the two screens of the end-to-end scenario. *)
Example new_layout_of_two_screens :
  as_layout (new_layout_document "My Desk" "" "now"
               (screen_configuration_of Scenario.detected_two_screens))
  = Scenario.layout_of "My Desk"
      [Scenario.screen 1 "vertical"; Scenario.screen 2 "horizontal"] []
  /\ doc_description (new_layout_document "My Desk" "" "now"
                        (screen_configuration_of Scenario.detected_two_screens))
     = "Layout with 2 screens"
  /\ map se_description
         (doc_screens (new_layout_document "My Desk" "" "now"
                         (screen_configuration_of Scenario.detected_two_screens)))
     = ["Vertical screen - \\.\DISPLAY1 (1080×1920)";
        "Horizontal screen - \\.\DISPLAY2 (1920×1080)"].
Proof. repeat split; vm_compute; reflexivity. Qed.

(** ** What the enumeration lists *)

Section Listing.

Context {W : Type} {host : Host W}.

Lemma enum_keeps_runs (hwnd : Z) (s : State W) :
  exists keep, enum_keeps hwnd s = (Ret keep, s).
Proof.
  assert (Hreads : preserves whole (enum_keeps hwnd)) by (unfold enum_keeps; frame).
  specialize (Hreads s). unfold whole in Hreads.
  destruct (returns_caught
              (bind (call (fun w => IsWindow w hwnd))
                    (fun real => if negb real then ret false
                                 else call (fun w => IsWindowVisible w hwnd)))
              false s) as (keep & s' & E).
  unfold enum_keeps in *. rewrite E in Hreads. simpl in Hreads. subst s'. eauto.
Qed.

(** The handles that [_enum_top_level_windows] keeps are handles that
    [EnumWindows] gave, in their order. *)
Lemma enum_loop (handles : list Z) :
  forall (hwnds : list Z) (s : State W),
  exists kept,
    fold_m (fun hwnds hwnd =>
              bind (enum_keeps hwnd)
                   (fun keep => ret (if keep then hwnds ++ [hwnd] else hwnds)%list))
           handles hwnds s
    = (Ret (hwnds ++ kept)%list, s)
    /\ sublist kept handles.
Proof.
  induction handles as [|h handles IH]; intros hwnds s.
  - exists []. simpl. rewrite app_nil_r. split; [reflexivity | constructor].
  - destruct (enum_keeps_runs h s) as [keep Hkeep].
    cbn [fold_m]. unfold bind at 1. unfold bind at 1. rewrite Hkeep. unfold ret at 1.
    destruct keep.
    + destruct (IH (hwnds ++ [h])%list s) as (kept & Hrun & Hsub).
      exists (h :: kept). rewrite Hrun, <- app_assoc. split; [reflexivity|].
      apply sublist_skip, Hsub.
    + destruct (IH hwnds s) as (kept & Hrun & Hsub).
      exists kept. rewrite Hrun. split; [reflexivity|]. apply sublist_cons, Hsub.
Qed.

(** What [window_info] has checked of a window that it describes. *)
Lemma window_info_checked (h : Z) :
  ensures (window_info h)
          (fun info =>
             forall window, info = Some window ->
               hwnd window = h
               /\ PyStr.contains "__SCREENY_WINDOW_SWITCHER_UNIQUE_MARKER__" (title window)
                  = false
               /\ named_in (exe_name window) excluded_window_filenames = false
               /\ (PyStr.strip (title window) <> "" \/ is_system window = true)
               /\ is_system window
                  = is_system_window (title window) (class_name window) (exe_name window)
               /\ is_uwp window = is_uwp_window (class_name window) (exe_name window)
               /\ exe_name window = _exe_name_from_path (process_path window)).
Proof.
  unfold window_info.
  repeat (apply ensures_bind; intros ?). cbv zeta.
  match goal with
  | |- ensures (if ?b then _ else _) _ =>
      destruct b eqn:Hmarker; [apply ensures_ret; discriminate|]
  end.
  match goal with
  | |- ensures (if ?b then _ else _) _ =>
      destruct b eqn:Hexcluded; [apply ensures_ret; discriminate|]
  end.
  match goal with
  | |- ensures (if ?b then _ else _) _ =>
      destruct b eqn:Htitle; [apply ensures_ret; discriminate|]
  end.
  repeat (apply ensures_bind; intros ?).
  apply ensures_ret. intros window [= <-]. cbn.
  split; [reflexivity|]. split; [exact Hmarker|]. split; [exact Hexcluded|].
  split; [|repeat split].
  apply andb_false_iff in Htitle as [Ht|Hs].
  - left. apply negb_false_iff, andb_true_iff in Ht as [_ Ht].
    intros E. apply truthy_false in E. unfold PyStr.strip in Ht. congruence.
  - right. apply negb_false_iff in Hs. exact Hs.
Qed.

Lemma listing_loop (P : Window -> Prop) :
  (forall h, ensures (window_info h)
                     (fun info => forall window, info = Some window ->
                                                 hwnd window = h /\ P window)) ->
  forall (hwnds : list Z) (windows : list Window) (s : State W),
  exists listed,
    fold_m (fun windows hwnd =>
              try_except
                (bind (window_info hwnd)
                      (fun info => match info with
                                   | Some window_info => ret (windows ++ [window_info])%list
                                   | None => ret windows
                                   end))
                (fun _ => ret windows))
           hwnds windows s
    = (Ret (windows ++ listed)%list, s)
    /\ sublist (map hwnd listed) hwnds
    /\ Forall P listed.
Proof.
  intros Hinfo. induction hwnds as [|h hwnds IH]; intros windows s.
  - exists []. simpl. rewrite app_nil_r. split; [reflexivity|]. split; constructor.
  - cbn [fold_m]. unfold bind at 1. unfold try_except at 1. unfold bind at 1.
    pose proof (window_info_reads h s) as Hreads. unfold whole in Hreads.
    destruct (window_info h s) as [[[window|]|e] s1] eqn:E; simpl in Hreads; subst s1.
    + destruct (Hinfo h _ _ _ E window eq_refl) as [Hh HP].
      unfold ret at 1.
      destruct (IH (windows ++ [window])%list s) as (listed & Hrun & Hsub & Hall).
      exists (window :: listed). rewrite Hrun, <- app_assoc.
      split; [reflexivity|]. split; [|constructor; assumption].
      simpl. rewrite Hh. apply sublist_skip, Hsub.
    + unfold ret at 1. destruct (IH windows s) as (listed & Hrun & Hsub & Hall).
      exists listed. rewrite Hrun. split; [reflexivity|].
      split; [apply sublist_cons, Hsub | exact Hall].
    + unfold ret at 1. destruct (IH windows s) as (listed & Hrun & Hsub & Hall).
      exists listed. rewrite Hrun. split; [reflexivity|].
      split; [apply sublist_cons, Hsub | exact Hall].
Qed.

(** X21. When [EnumWindows] answers, [get_all_windows] answers too and
    changes nothing. The windows it lists are windows of handles that
    [EnumWindows] gave, in that order and each handle at most once for each
    time it was given. No listed window carries the marker of the window
    switcher in its title, none belongs to an excluded executable, and a
    window without a title is listed only when it is a system window; the
    flags [is_system] and [is_uwp] are those of [is_system_window] and
    [is_uwp_window] on the title, class and executable listed. *)
Theorem get_all_windows_lists_only (s : State W) (handles : list Z) :
  EnumWindows (world s) = Ret handles ->
  exists windows,
    get_all_windows s = (Ret windows, s)
    /\ sublist (map hwnd windows) handles
    /\ Forall (fun window =>
                 PyStr.contains "__SCREENY_WINDOW_SWITCHER_UNIQUE_MARKER__" (title window)
                 = false
                 /\ named_in (exe_name window) excluded_window_filenames = false
                 /\ (PyStr.strip (title window) <> "" \/ is_system window = true)
                 /\ is_system window
                    = is_system_window (title window) (class_name window) (exe_name window)
                 /\ is_uwp window = is_uwp_window (class_name window) (exe_name window)
                 /\ exe_name window = _exe_name_from_path (process_path window))
              windows.
Proof.
  intros Henum.
  destruct (enum_loop handles [] s) as (kept & Hkept & Hsub1).
  destruct (listing_loop _ window_info_checked kept [] s) as (listed & Hrun & Hsub2 & Hall).
  exists listed. split; [|split; [|exact Hall]].
  - unfold get_all_windows, _enum_top_level_windows.
    unfold bind at 1. unfold bind at 1. unfold call at 1. rewrite Henum.
    rewrite Hkept. cbn [app]. rewrite Hrun. reflexivity.
  - etrans; [exact Hsub2 | exact Hsub1].
Qed.

End Listing.

(** X21 on the end-to-end scenario. *)
Lemma get_all_windows_witness :
  exists windows,
    get_all_windows Scenario.activated_two_screens
    = (Ret windows, Scenario.activated_two_screens)
    /\ sublist (map hwnd windows) [100]
    /\ Forall (fun window =>
                 PyStr.contains "__SCREENY_WINDOW_SWITCHER_UNIQUE_MARKER__" (title window)
                 = false
                 /\ named_in (exe_name window) excluded_window_filenames = false
                 /\ (PyStr.strip (title window) <> "" \/ is_system window = true)
                 /\ is_system window
                    = is_system_window (title window) (class_name window) (exe_name window)
                 /\ is_uwp window = is_uwp_window (class_name window) (exe_name window)
                 /\ exe_name window = _exe_name_from_path (process_path window))
              windows.
Proof.
  apply (get_all_windows_lists_only Scenario.activated_two_screens [100]).
  reflexivity.
Defined.

(** ** The state machine: what it reports *)

Section Reports.

Context {W : Type} {host : Host W}.

Lemma is_window_on_monitor_runs (hwnd : Z) (monitor_id : string) (s : State W) :
  exists on_monitor, is_window_on_monitor hwnd monitor_id s = (Ret on_monitor, s).
Proof.
  unfold is_window_on_monitor, get_window_monitor_id, get_monitor_by_position.
  unfold bind, try_except, call, gets, ret.
  destruct (GetWindowRect (world s) hwnd) as [[[[x0 y0] x1] y1]|e]; eauto.
Qed.

Lemma is_window_fullscreen_runs (hwnd : Z) (s : State W) :
  exists is_full, is_window_fullscreen hwnd s = (Ret is_full, s).
Proof.
  unfold is_window_fullscreen, bind, try_except, call, ret.
  destruct (GetWindowLong (world s) hwnd GWL_STYLE); eauto.
Qed.

Lemma is_window_maximized_runs (hwnd : Z) (s : State W) :
  exists is_max, is_window_maximized hwnd s = (Ret is_max, s).
Proof.
  unfold is_window_maximized, bind, try_except, call, ret.
  destruct (GetWindowPlacement_showCmd (world s) hwnd); eauto.
Qed.

(** The verdict of [is_window_in_correct_state] from the three
    observations. *)
Lemma is_window_in_correct_state_runs (hwnd : Z) (monitor_id : string)
  (monitor : ScreenInfo) (maximize fullscreen : bool) (s : State W) :
  exists on_monitor is_full is_max,
    is_window_on_monitor hwnd monitor_id s = (Ret on_monitor, s)
    /\ is_window_fullscreen hwnd s = (Ret is_full, s)
    /\ is_window_maximized hwnd s = (Ret is_max, s)
    /\ is_window_in_correct_state hwnd monitor_id monitor maximize fullscreen s
       = (Ret (if negb on_monitor then false
               else if fullscreen then is_full
               else if maximize then is_max && negb is_full
               else negb is_max && negb is_full), s).
Proof.
  destruct (is_window_on_monitor_runs hwnd monitor_id s) as [on_monitor Hon].
  destruct (is_window_fullscreen_runs hwnd s) as [is_full Hfull].
  destruct (is_window_maximized_runs hwnd s) as [is_max Hmax].
  exists on_monitor, is_full, is_max.
  split; [exact Hon|]. split; [exact Hfull|]. split; [exact Hmax|].
  unfold is_window_in_correct_state. unfold bind at 1. rewrite Hon.
  destruct on_monitor; cbn [negb]; [|reflexivity].
  destruct fullscreen; [exact Hfull|].
  destruct maximize; unfold bind; rewrite Hmax, Hfull; reflexivity.
Qed.

Lemma ensures_bind_with {A B : Type} (m : M W A) (k : A -> M W B)
  (Q : A -> Prop) (P : B -> Prop) :
  ensures m Q -> (forall a, Q a -> ensures (k a) P) -> ensures (bind m k) P.
Proof.
  intros Hm Hk s b s'. unfold bind. destruct (m s) as [[a|e] s1] eqn:E; [|discriminate].
  apply Hk. apply (Hm _ _ _ E).
Qed.

Lemma app_not_nil {A : Type} (l : list A) (x : A) : (l ++ [x])%list <> [].
Proof. destruct l; discriminate. Qed.

Ltac operated :=
  cbn [negb andb orb];
  lazymatch goal with
  | |- ensures (ret _) _ =>
      apply ensures_ret;
      first [ assumption | apply app_not_nil | discriminate
            | split; [reflexivity | first [ assumption | apply app_not_nil | discriminate ]] ]
  | |- ensures (if ?b then _ else _) _ => destruct b; operated
  | |- ensures (bind _ _) _ =>
      first [ solve [ apply (ensures_bind_with _ _ (fun ops : list string => ops <> []));
                      [operated | intros ? ?; operated] ]
            | solve [ apply ensures_bind; intros ?; operated ] ]
  end.

(** X22. [apply_window_rule] reports what it did. When the target monitor
    is not connected it does nothing and says so. Whenever it returns, the
    flag [changed] is set exactly when the list of operations is not empty;
    with [changed] unset the state and the world are as before; and in any
    case only the world was written to. *)
Theorem apply_window_rule_changed_iff_operated (s : State W) (hwnd : Z)
  (monitor_id : string) (maximize fullscreen : bool) :
  (dict_has monitor_id (connected_monitors s) = false ->
   apply_window_rule hwnd monitor_id maximize fullscreen s = (Ret unchanged, s))
  /\ forall o s',
      apply_window_rule hwnd monitor_id maximize fullscreen s = (Ret o, s') ->
      (changed o = true <-> operations o <> [])
      /\ (changed o = false -> s' = s)
      /\ managers s' = managers s.
Proof.
  split.
  - unfold dict_has, apply_window_rule. unfold bind at 1. unfold get_connected_monitor, gets.
    destruct (dict_get monitor_id (connected_monitors s)); [discriminate | reflexivity].
  - intros o s' Hrun.
    assert (Hframe : managers s' = managers s).
    { pose proof (apply_window_rule_keeps_managers hwnd monitor_id maximize fullscreen s)
        as H. rewrite Hrun in H. exact H. }
    assert (Hgoal : (changed o = false /\ operations o = [] /\ s' = s)
                    \/ (changed o = true /\ operations o <> [])).
    { unfold apply_window_rule in Hrun. unfold bind at 1 in Hrun.
      unfold get_connected_monitor, gets in Hrun.
      destruct (dict_get monitor_id (connected_monitors s)) as [monitor|];
        [|injection Hrun as <- <-; left; auto].
      unfold bind at 1 in Hrun.
      destruct (is_window_in_correct_state_runs hwnd monitor_id monitor maximize
                  fullscreen s) as (on_monitor & is_full & is_max & Hon & Hfull & Hmax & Hc).
      rewrite Hc in Hrun.
      destruct (if negb on_monitor then false
                else if fullscreen then is_full
                else if maximize then is_max && negb is_full
                else negb is_max && negb is_full) eqn:Hcorrect;
        [injection Hrun as <- <-; left; auto|].
      right. cbv zeta in Hrun. unfold bind at 1 in Hrun. rewrite Hon in Hrun.
      destruct on_monitor; cbn [negb] in Hrun, Hcorrect.
      - unfold bind at 1 in Hrun. unfold ret at 1 in Hrun.
        unfold bind at 1 in Hrun. rewrite Hfull in Hrun.
        unfold bind at 1 in Hrun. rewrite Hmax in Hrun.
        revert Hrun.
        match goal with
        | |- ?prog s = _ -> _ =>
            assert (He : ensures prog (fun o => changed o = true /\ operations o <> []))
        end.
        { destruct fullscreen, maximize, is_full, is_max; try discriminate Hcorrect;
            cbn [negb andb orb app]; operated. }
        intros Hrun. apply (He _ _ _ Hrun).
      - revert Hrun.
        match goal with
        | |- ?prog s = _ -> _ =>
            assert (He : ensures prog (fun o => changed o = true /\ operations o <> []))
        end.
        { apply (ensures_bind_with _ _ (fun ops : list string => ops <> [])).
          - operated.
          - intros ops Hops. apply ensures_bind. intros current_fullscreen.
            apply ensures_bind. intros current_maximized.
            destruct fullscreen, maximize, current_fullscreen, current_maximized;
              cbn [negb andb orb]; operated. }
        intros Hrun. apply (He _ _ _ Hrun). }
    split; [|split; [|exact Hframe]].
    + destruct Hgoal as [(Hc & Ho & _) | (Hc & Ho)]; rewrite Hc.
      * split; [discriminate | intros H; contradiction].
      * split; auto.
    + intros Hc. destruct Hgoal as [(_ & _ & E) | (Hc' & _)]; [exact E | congruence].
Qed.

(** X23. A pass of [apply_rules] never activates, deactivates or replaces
    a layout, and after its detection of the monitors it writes to the
    world only: the known monitors and the connection map after the pass
    are those that [detect_monitors] left. *)
Theorem apply_rules_writes_to_the_world_only (s : State W) :
  layout_slot (after apply_rules s) = layout_slot s
  /\ managers (after apply_rules s) = managers (after detect_monitors s).
Proof.
  split; [apply apply_rules_keeps_slot|].
  unfold after at 1. rewrite apply_rules_cases. cbv zeta.
  destruct (negb (layout_manager s)); [reflexivity|].
  pose proof (get_active_rules_keeps_managers (after detect_monitors s)) as Hrules.
  destruct (get_active_rules (after detect_monitors s)) as [[[|rule rules]|e] s2];
    cbn [fst snd] in *; try exact Hrules.
  pose proof (get_all_windows_reads s2) as Hwindows. unfold whole in Hwindows.
  destruct (get_all_windows s2) as [[windows|e] s3]; cbn [fst snd] in *; subst s3;
    [|exact Hrules].
  rewrite <- Hrules.
  apply (preserves_fold_m managers (apply_rule windows) (rule :: rules) zero_summary).
  intros b a. apply apply_rule_keeps_managers.
Qed.

End Reports.

(** ** Display numbers, written and read *)

Lemma digits_of_uint (d : Decimal.uint) :
  Forall (fun c => PyStr.is_digit c = true)
         (list_ascii_of_string (NilEmpty.string_of_uint d)).
Proof. induction d; simpl; constructor; try reflexivity; assumption. Qed.

Lemma int_of_digits_acc (d : Decimal.uint) (acc : positive) :
  fold_left (fun acc c => 10 * acc + PyStr.digit_val c)
            (list_ascii_of_string (NilEmpty.string_of_uint d)) (Z.pos acc)
  = Z.pos (Pos.of_uint_acc d acc).
Proof.
  revert acc. induction d; intros acc; cbn [NilEmpty.string_of_uint list_ascii_of_string
                                             fold_left Pos.of_uint_acc];
    [reflexivity| | | | | | | | | |];
    match goal with
    | |- fold_left _ _ ?z = Z.pos (Pos.of_uint_acc _ ?p) =>
        replace z with (Z.pos p) by (unfold PyStr.digit_val; simpl N_of_ascii; lia)
    end; apply IHd.
Qed.

Lemma int_of_digits_of_uint (d : Decimal.uint) :
  PyStr.int_of_digits (list_ascii_of_string (NilEmpty.string_of_uint d))
  = Z.of_N (Pos.of_uint d).
Proof.
  unfold PyStr.int_of_digits.
  induction d; cbn [NilEmpty.string_of_uint list_ascii_of_string fold_left Pos.of_uint];
    [reflexivity | exact IHd | | | | | | | | |];
    match goal with
    | |- fold_left _ _ ?z = Z.of_N (N.pos (Pos.of_uint_acc _ ?p)) =>
        change z with (Z.pos p)
    end; apply int_of_digits_acc.
Qed.

(** [str(n)] for a natural number: digits only, at least one, and
    [int(...)] reads them back. *)
Lemma of_Z_digits (n : Z) :
  0 <= n ->
  list_ascii_of_string (PyStr.of_Z n) <> []
  /\ Forall (fun c => PyStr.is_digit c = true) (list_ascii_of_string (PyStr.of_Z n))
  /\ PyStr.int_of_digits (list_ascii_of_string (PyStr.of_Z n)) = n.
Proof.
  intros Hn. unfold PyStr.of_Z. destruct n as [|p|p]; [| |lia].
  - split; [discriminate|]. split; [repeat constructor | reflexivity].
  - cbn [Z.to_int NilZero.string_of_int].
    pose proof (DecimalPos.Unsigned.of_to p) as Hback.
    assert (Hform : NilZero.string_of_uint (Pos.to_uint p)
                    = NilEmpty.string_of_uint (Pos.to_uint p)).
    { destruct (Pos.to_uint p); try reflexivity. discriminate Hback. }
    rewrite Hform. split; [|split].
    + destruct (Pos.to_uint p); first [discriminate Hback | discriminate].
    + apply digits_of_uint.
    + rewrite int_of_digits_of_uint, Hback. reflexivity.
Qed.

Lemma take_digits_app (s : string) (c : ascii) (rest : string) :
  Forall (fun c => PyStr.is_digit c = true) (list_ascii_of_string s) ->
  PyStr.is_digit c = false ->
  PyStr.take_digits (s +:+ String c rest) = list_ascii_of_string s.
Proof.
  intros Hs Hc. induction s as [|a s IH]; simpl.
  - rewrite Hc. reflexivity.
  - simpl in Hs. inversion Hs as [|? ? Ha Hs']; subst. rewrite Ha, IH by exact Hs'.
    reflexivity.
Qed.

Lemma search_digits_after_skip (p : string) (c : ascii) (s : string) :
  PyStr.after_prefix p (String c s) = None ->
  PyStr.search_digits_after p (String c s) = PyStr.search_digits_after p s.
Proof. intros H. cbn [PyStr.search_digits_after]. rewrite H. reflexivity. Qed.

Lemma search_digits_after_here (p s rest : string) (ds : list ascii) :
  PyStr.after_prefix p s = Some rest ->
  PyStr.take_digits rest = ds ->
  ds <> [] ->
  PyStr.search_digits_after p s = Some ds.
Proof.
  intros Hp Hds Hne. destruct s; cbn [PyStr.search_digits_after]; rewrite Hp, Hds;
    destruct ds; congruence.
Qed.

(** The name that [detect_monitors] gives a monitor on a Windows
    connector holds the digits of the connector's number behind
    "DISPLAY". *)
Lemma search_display_digits (monitor : ScreenInfo) (n : Z) :
  0 <= n ->
  si_name monitor = Some ("\\.\DISPLAY" +:+ PyStr.of_Z n) ->
  PyStr.search_digits_after "DISPLAY" (_generate_monitor_name monitor)
  = Some (list_ascii_of_string (PyStr.of_Z n)).
Proof.
  intros Hn Hname. destruct (of_Z_digits n Hn) as (Hne & Hdigits & _).
  unfold _generate_monitor_name. rewrite Hname. cbn [PyStr.or_empty].
  change (PyStr.truthy ("\\.\DISPLAY" +:+ PyStr.of_Z n)) with true. cbv iota zeta.
  change (("\\.\DISPLAY" +:+ PyStr.of_Z n)
            +:+ " (" +:+ PyStr.of_Z (si_width monitor) +:+ "×"
            +:+ PyStr.of_Z (si_height monitor) +:+ ")")
    with (String "\" (String "\" (String "." (String "\"
            ("DISPLAY" +:+ (PyStr.of_Z n
                              +:+ " (" +:+ PyStr.of_Z (si_width monitor) +:+ "×"
                              +:+ PyStr.of_Z (si_height monitor) +:+ ")")))))).
  rewrite !search_digits_after_skip by reflexivity.
  eapply search_digits_after_here; [reflexivity| |exact Hne].
  apply (take_digits_app (PyStr.of_Z n) " "); [exact Hdigits | reflexivity].
Qed.

(** X24. The number of a Windows connector is written into the monitor's
    name and read back from it: for a monitor that the host reports as
    DISPLAY n, the layout matcher extracts the display number n from the
    name that [detect_monitors] stores, and the primary component of the
    fingerprint is the connector "DISPLAYn" with the resolution. *)
Theorem display_number_round_trip (monitor : ScreenInfo) (n : Z) :
  0 <= n ->
  si_name monitor = Some ("\\.\DISPLAY" +:+ PyStr.of_Z n) ->
  extract_display_number (_generate_monitor_name monitor) = Some n
  /\ forall fp,
      generate_fingerprint (monitor_data_of monitor) = Ret fp ->
      primary fp = "DISPLAY" +:+ PyStr.of_Z n +:+ "_" +:+ PyStr.of_Z (si_width monitor)
                     +:+ "x" +:+ PyStr.of_Z (si_height monitor).
Proof.
  intros Hn Hname.
  pose proof (search_display_digits monitor n Hn Hname) as Hsearch.
  split.
  - unfold extract_display_number. rewrite Hsearch. f_equal. apply of_Z_digits, Hn.
  - intros fp. rewrite generate_fingerprint_cases.
    cbn [md_name md_width md_height monitor_data_of].
    destruct ((si_width monitor =? 0) || (si_height monitor =? 0)); [discriminate|].
    intros [= <-]. cbn [primary]. rewrite Hsearch, string_of_list_ascii_of_string.
    reflexivity.
Qed.

(** X24 on the second monitor of the end-to-end scenario. *)
Lemma display_number_round_trip_witness :
  extract_display_number (_generate_monitor_name Scenario.display2) = Some 2
  /\ forall fp,
      generate_fingerprint (monitor_data_of Scenario.display2) = Ret fp ->
      primary fp = "DISPLAY" +:+ PyStr.of_Z 2 +:+ "_" +:+ PyStr.of_Z 1920
                     +:+ "x" +:+ PyStr.of_Z 1080.
Proof.
  apply (display_number_round_trip Scenario.display2 2); [lia | reflexivity].
Defined.

(** ** What can be raised *)

Lemma check_required_screens_returns (current_config : list ScreenConfig)
  (required_screens : list ScreenReq) :
  Forall (fun screen =>
            is_Some (display_number screen)
            /\ (orientation screen = Some "horizontal"
                \/ orientation screen = Some "vertical"))
         required_screens ->
  exists ok reason,
    check_required_screens current_config required_screens = Ret (ok, reason).
Proof.
  induction 1 as [|screen rest [[d Hd] Ho] _ IH]; simpl; [eauto|].
  rewrite Hd. simpl.
  assert (Hsome : exists o, orientation screen = Some o)
    by (destruct Ho as [-> | ->]; eauto).
  destruct Hsome as [o ->]. simpl.
  destruct (find_display d current_config) as [c|]; [|eauto].
  destruct (negb (String.eqb (sc_orientation c) o)); [eauto | exact IH].
Qed.

Lemma matches_requirements_returns (current_config : list ScreenConfig)
  (layout_data : Layout) :
  fst (validate_layout layout_data) = true ->
  exists requirements ok reason,
    lay_screen_requirements layout_data = Some requirements
    /\ matches_requirements current_config requirements = Ret (ok, reason).
Proof.
  unfold validate_layout.
  destruct (lay_name layout_data); [|discriminate].
  destruct (lay_screen_requirements layout_data) as [requirements|]; [|discriminate].
  destruct (lay_rules layout_data) as [rules|]; [|discriminate].
  destruct (total_screens requirements) as [total|] eqn:Htotal; [|discriminate].
  destruct (screens requirements) as [scrs|] eqn:Hscrs; [|discriminate].
  destruct (validate_screens 0 scrs) eqn:Hscreens; [discriminate|].
  intros _. apply (validate_screens_none 0) in Hscreens.
  exists requirements.
  assert (Hrun : exists ok reason,
             matches_requirements current_config requirements = Ret (ok, reason)).
  { unfold matches_requirements. rewrite Htotal, Hscrs. simpl.
    destruct (negb (len current_config =? total)); [eauto|].
    apply check_required_screens_returns, Hscreens. }
  destruct Hrun as (ok & reason & Hrun). exists ok, reason. auto.
Qed.

Section Raised.

Context {W : Type} {host : Host W}.

(** X25. [activate_layout] raises nothing but [LayoutError]: a layout
    that [validate_layout] has accepted has every key that the matching of
    the requirements and the filling of the slot read. For the same reason
    the applicability of an accepted layout can always be judged, and
    [check_active_layout_validity] never raises on a slot that holds an
    accepted layout, as every slot filled by [activate_layout] does. *)
Theorem activate_layout_raises_layout_error_only (s : State W) (layout_name : string) :
  (forall e s', activate_layout layout_name s = (Raise e, s') ->
     exists msg, e = LayoutError msg)
  /\ (forall layout_data,
         fst (validate_layout layout_data) = true ->
         exists ok reason, can_apply_layout layout_data s = (Ret (ok, reason), s))
  /\ (slot_valid s ->
      exists verdict s', check_active_layout_validity s = (Ret verdict, s')).
Proof.
  assert (Hcan : forall layout_data,
             fst (validate_layout layout_data) = true ->
             exists ok reason, can_apply_layout layout_data s = (Ret (ok, reason), s)).
  { intros l Hvalid. rewrite can_apply_layout_cases.
    destruct (matches_requirements_returns (screen_configuration_of s) l Hvalid)
      as (requirements & ok & reason & Hreq & Hrun).
    rewrite Hreq, Hrun. eauto. }
  split; [|split; [exact Hcan|]].
  - intros e s'. destruct (active_layout s) as [active|] eqn:Ha.
    + destruct (activate_layout_when_active s layout_name active Ha) as (r & Hr & _).
      rewrite Hr. discriminate.
    + rewrite (activate_layout_inactive _ _ Ha).
      destruct (load_layout layout_name s) as [[l|e0] s1] eqn:Hload.
      * apply load_layout_valid in Hload as [Hvalid _].
        destruct (Hcan l Hvalid) as (ok & reason & Hrun). rewrite Hrun.
        destruct (validate_layout_name l Hvalid) as [name Hname]. rewrite Hname.
        destruct ok; [discriminate|]. intros [= <- _]. eauto.
      * apply load_layout_raises in Hload as [msg ->]. intros [= <- _]. eauto.
  - intros Hslot. rewrite check_active_layout_validity_cases.
    destruct (active_layout s) as [active|] eqn:Ha; [|eauto].
    destruct (Hcan (al_data active) (Hslot active Ha)) as (ok & reason & Hrun).
    rewrite Hrun. destruct ok; eauto.
Qed.

End Raised.

(** ** The operations of the state machine, by mode *)

Section Modes.

Context {W : Type} {host : Host W}.

Lemma appends_none (P : string -> Prop) (operations : list string) :
  exists more, operations = (operations ++ more)%list /\ Forall P more.
Proof. exists []. rewrite app_nil_r. split; [reflexivity | constructor]. Qed.

Lemma appends_one (P : string -> Prop) (operations sofar : list string) (op : string) :
  P op ->
  (exists more, sofar = (operations ++ more)%list /\ Forall P more) ->
  exists more, (sofar ++ [op])%list = (operations ++ more)%list /\ Forall P more.
Proof.
  intros Hop (more & -> & Hmore). exists (more ++ [op])%list.
  rewrite app_assoc. split; [reflexivity|].
  apply Forall_app. split; [exact Hmore | constructor; [exact Hop | constructor]].
Qed.

(** The operations that follow the move, if any, are those of the mode. *)
Lemma chrome_operations (hwnd : Z) (monitor : ScreenInfo) (maximize fullscreen : bool)
  (needs_move current_fullscreen current_maximized : bool) (operations : list string)
  (P : string -> Prop) :
  (forall op,
      In op (if fullscreen then ["maximize"; "fullscreen"]
             else if maximize then ["exit_fullscreen"; "maximize"]
             else if needs_move then ["exit_fullscreen"]
             else ["exit_fullscreen"; "restore"]) -> P op) ->
  ensures
    (if fullscreen then
       if negb current_fullscreen then
         bind (if negb current_maximized
               then bind (maximize_window hwnd monitor) (fun _ =>
                    bind (act_ (sleep 200)) (fun _ =>
                    ret (operations ++ ["maximize"])%list))
               else ret operations) (fun operations =>
         bind (fullscreen_window hwnd 1500) (fun _ =>
         let operations := (operations ++ ["fullscreen"])%list in
         bind (act_ (sleep 500)) (fun _ =>
         bind (call (fun w => GetWindowLong w hwnd GWL_STYLE)) (fun style_after =>
         ret operations))))
       else ret operations
     else if maximize then
       bind (if current_fullscreen
             then bind (fullscreen_window hwnd 600) (fun _ =>
                  ret (operations ++ ["exit_fullscreen"])%list)
             else ret operations) (fun operations =>
       if negb current_maximized || current_fullscreen
       then bind (maximize_window hwnd monitor) (fun _ =>
            ret (operations ++ ["maximize"])%list)
       else ret operations)
     else
       bind (if current_fullscreen
             then bind (fullscreen_window hwnd 600) (fun _ =>
                  ret (operations ++ ["exit_fullscreen"])%list)
             else ret operations) (fun operations =>
       if current_maximized && negb needs_move
       then bind (act (ShowWindow hwnd SW_RESTORE)) (fun _ =>
            ret (operations ++ ["restore"])%list)
       else ret operations))
    (fun sofar => exists more, sofar = (operations ++ more)%list /\ Forall P more).
Proof.
  intros HP.
  destruct fullscreen, maximize, needs_move, current_fullscreen, current_maximized;
    cbn [negb andb orb];
    repeat first
      [ apply ensures_ret
      | assumption
      | apply appends_none
      | apply appends_one; [apply HP; simpl; tauto|]
      | eapply (ensures_bind_with _ _
                  (fun sofar => exists more,
                       sofar = (operations ++ more)%list /\ Forall P more));
        [|intros ? ?]
      | apply ensures_bind; intros ?
      | progress cbv zeta ].
Qed.

(** X28. What [apply_window_rule] may do depends on the mode of the rule,
    and the fullscreen flag goes before the maximize flag. On a window that
    is on the target monitor it never moves: a fullscreen rule only
    maximizes and enters fullscreen, a maximize rule only leaves fullscreen
    and maximizes, a rule for a normal window only leaves fullscreen and
    restores. On a window that is elsewhere the first operation is the
    move, the others are of the same kinds, and a window that was moved is
    not restored again. *)
Theorem apply_window_rule_operations_by_mode (s s' : State W) (hwnd : Z)
  (monitor_id : string) (maximize fullscreen : bool) (o : RuleOutcome) :
  apply_window_rule hwnd monitor_id maximize fullscreen s = (Ret o, s') ->
  changed o = true ->
  match value (is_window_on_monitor hwnd monitor_id) s with
  | Ret true =>
      Forall (fun op =>
                In op (if fullscreen then ["maximize"; "fullscreen"]
                       else if maximize then ["exit_fullscreen"; "maximize"]
                       else ["exit_fullscreen"; "restore"]))
             (operations o)
  | _ =>
      exists rest,
        operations o = "move" :: rest
        /\ Forall (fun op =>
                     In op (if fullscreen then ["maximize"; "fullscreen"]
                            else if maximize then ["exit_fullscreen"; "maximize"]
                            else ["exit_fullscreen"]))
                  rest
  end.
Proof.
  intros Hrun Hchanged.
  unfold apply_window_rule in Hrun. unfold bind at 1 in Hrun.
  unfold get_connected_monitor, gets in Hrun.
  destruct (dict_get monitor_id (connected_monitors s)) as [monitor|];
    [|injection Hrun as <- _; discriminate Hchanged].
  unfold bind at 1 in Hrun.
  destruct (is_window_in_correct_state_runs hwnd monitor_id monitor maximize
              fullscreen s) as (on_monitor & is_full & is_max & Hon & Hfull & Hmax & Hc).
  rewrite Hc in Hrun. unfold value. rewrite Hon. cbn [fst].
  destruct (if negb on_monitor then false
            else if fullscreen then is_full
            else if maximize then is_max && negb is_full
            else negb is_max && negb is_full) eqn:Hcorrect;
    [injection Hrun as <- _; discriminate Hchanged|].
  cbv zeta in Hrun. unfold bind at 1 in Hrun. rewrite Hon in Hrun.
  destruct on_monitor; cbn [negb] in Hrun.
  - unfold bind at 1 in Hrun. unfold ret at 1 in Hrun. revert Hrun.
    match goal with
    | |- ?prog s = _ -> ?goal =>
        assert (He : ensures prog (fun o => exists more,
                                       operations o = ([] ++ more)%list
                                       /\ Forall (fun op =>
                                            In op (if fullscreen
                                                   then ["maximize"; "fullscreen"]
                                                   else if maximize
                                                        then ["exit_fullscreen"; "maximize"]
                                                        else ["exit_fullscreen"; "restore"]))
                                                 more))
    end.
    { apply ensures_bind. intros current_fullscreen.
      apply ensures_bind. intros current_maximized.
      eapply ensures_bind_with.
      - apply (chrome_operations hwnd monitor maximize fullscreen false
                 current_fullscreen current_maximized []).
        intros op Hop. exact Hop.
      - intros ops Hops. apply ensures_ret. exact Hops. }
    intros Hrun. destruct (He _ _ _ Hrun) as (more & -> & Hmore). exact Hmore.
  - revert Hrun.
    match goal with
    | |- ?prog s = _ -> ?goal =>
        assert (He : ensures prog (fun o => exists more,
                                       operations o = (["move"] ++ more)%list
                                       /\ Forall (fun op =>
                                            In op (if fullscreen
                                                   then ["maximize"; "fullscreen"]
                                                   else if maximize
                                                        then ["exit_fullscreen"; "maximize"]
                                                        else ["exit_fullscreen"]))
                                                 more))
    end.
    { eapply (ensures_bind_with _ _ (fun ops => ops = ["move"])).
      - repeat (apply ensures_bind; intros ?). apply ensures_ret. reflexivity.
      - intros ops ->. apply ensures_bind. intros current_fullscreen.
        apply ensures_bind. intros current_maximized.
        eapply ensures_bind_with.
        + apply (chrome_operations hwnd monitor maximize fullscreen true
                   current_fullscreen current_maximized ["move"]).
          intros op Hop. exact Hop.
        + intros ops Hops. apply ensures_ret. exact Hops. }
    intros Hrun. destruct (He _ _ _ Hrun) as (more & -> & Hmore).
    exists more. split; [reflexivity | exact Hmore].
Qed.

End Modes.

(** X28 on the end-to-end scenario: Chrome is on display 1 and the rule
    maximizes it on display 2. *)
Lemma apply_window_rule_operations_witness :
  apply_window_rule 100 "monitor_10000001" true false Scenario.activated_two_screens
  = (Ret {| changed := true; operations := ["move"; "maximize"] |},
     after (apply_window_rule 100 "monitor_10000001" true false)
           Scenario.activated_two_screens)
  /\ exists rest,
      ["move"; "maximize"] = "move" :: rest
      /\ Forall (fun op => In op ["exit_fullscreen"; "maximize"]) rest.
Proof.
  assert (Hrun : apply_window_rule 100 "monitor_10000001" true false
                                   Scenario.activated_two_screens
                 = (Ret {| changed := true; operations := ["move"; "maximize"] |},
                    after (apply_window_rule 100 "monitor_10000001" true false)
                          Scenario.activated_two_screens))
    by (vm_compute; reflexivity).
  split; [exact Hrun|].
  exact (apply_window_rule_operations_by_mode _ _ _ _ _ _ _ Hrun eq_refl).
Defined.

(** ** Which known monitor a detected one is taken for *)

Lemma matches_known_iff (fingerprints : Fingerprints) (m : KnownMonitor) :
  matches_known fingerprints m = true
  <-> exists existing_fps,
      km_fingerprints m = Some existing_fps
      /\ (primary fingerprints = primary existing_fps
          \/ secondary fingerprints = secondary existing_fps).
Proof.
  unfold matches_known, fingerprints_match.
  destruct (km_fingerprints m) as [fp0|]; [|split; [discriminate | intros (? & [=] & _)]].
  destruct (String.eqb_spec (primary fingerprints) (primary fp0)) as [Ep|Ep]; simpl.
  - split; [eauto | reflexivity].
  - destruct (String.eqb_spec (secondary fingerprints) (secondary fp0)) as [Es|Es]; simpl.
    + split; [eauto | reflexivity].
    + split; [discriminate|]. intros (fp & [= <-] & [H|H]); contradiction.
Qed.

Section FirstMatch.

Context {W : Type} {host : Host W}.

(** X29. [add_monitor] takes a detected monitor for the first known
    monitor, in the order of the configuration, whose fingerprints agree
    with its own on the primary or on the secondary component: that monitor
    is refreshed in place with the name, the position, the primary flag and
    the fingerprints detected, and its id is returned. A known monitor
    further down the list is not looked at, even if it agrees on the
    primary component, and a new monitor is appended only when no known
    monitor agrees on either component. *)
Theorem add_monitor_takes_the_first_match (monitor_data : MonitorData) (s : State W)
  (fingerprints : Fingerprints) :
  generate_fingerprint monitor_data = Ret fingerprints ->
  (forall m,
      matches_known fingerprints m = true
      <-> exists existing_fps,
          km_fingerprints m = Some existing_fps
          /\ (primary fingerprints = primary existing_fps
              \/ secondary fingerprints = secondary existing_fps))
  /\ exists id s',
      add_monitor monitor_data s = (Ret id, s')
      /\ ((exists before m rest,
              known_monitors s = (before ++ m :: rest)%list
              /\ Forall (fun b => matches_known fingerprints b = false) before
              /\ matches_known fingerprints m = true
              /\ id = km_id m
              /\ known_monitors s'
                 = (before ++ refreshed fingerprints monitor_data m :: rest)%list)
          \/ (Forall (fun b => matches_known fingerprints b = false) (known_monitors s)
              /\ exists new,
                  known_monitors s' = (known_monitors s ++ [new])%list
                  /\ km_id new = id
                  /\ km_name new = md_name monitor_data
                  /\ km_width new = md_width monitor_data
                  /\ km_height new = md_height monitor_data
                  /\ km_fingerprints new = Some fingerprints)).
Proof.
  intros Hgen. split; [intros m; apply matches_known_iff|].
  rewrite add_monitor_cases, Hgen. cbv zeta.
  pose proof (update_matching_monitor_spec fingerprints monitor_data (known_monitors s))
    as Hspec.
  destruct (update_matching_monitor fingerprints monitor_data (known_monitors s))
    as [[existing_id known']|].
  - destruct Hspec as (before & m & rest & Hknown & Hbefore & Hm & -> & ->).
    eexists _, _. split; [reflexivity|]. left.
    exists before, m, rest. repeat split; assumption.
  - eexists _, _. split; [reflexivity|]. right. split; [exact Hspec|].
    eexists. cbn [known_monitors set_known_monitors]. split; [reflexivity|].
    repeat split.
Qed.

End FirstMatch.

(** X29 on a configuration that knows a monitor on DISPLAY1 and one on
    DISPLAY2, both 1920 by 1080: the monitor detected on DISPLAY2 is taken
    for the first, which agrees on the resolution, not for the second,
    which agrees on the connector too. *)
Lemma add_monitor_takes_the_first_match_witness :
  generate_fingerprint (monitor_data_of Scenario.twin_right)
  = Ret {| primary := "DISPLAY2_1920x1080"; secondary := "1920x1080" |}
  /\ value (add_monitor (monitor_data_of Scenario.twin_right)) Scenario.two_known_twins
     = Ret "monitor_a"
  /\ exists id s',
      add_monitor (monitor_data_of Scenario.twin_right) Scenario.two_known_twins
      = (Ret id, s')
      /\ ((exists before m rest,
              known_monitors Scenario.two_known_twins = (before ++ m :: rest)%list
              /\ Forall (fun b =>
                           matches_known {| primary := "DISPLAY2_1920x1080";
                                            secondary := "1920x1080" |} b = false)
                        before
              /\ matches_known {| primary := "DISPLAY2_1920x1080";
                                  secondary := "1920x1080" |} m = true
              /\ id = km_id m
              /\ known_monitors s'
                 = (before
                      ++ refreshed {| primary := "DISPLAY2_1920x1080";
                                      secondary := "1920x1080" |}
                                   (monitor_data_of Scenario.twin_right) m :: rest)%list)
          \/ (Forall (fun b =>
                        matches_known {| primary := "DISPLAY2_1920x1080";
                                         secondary := "1920x1080" |} b = false)
                     (known_monitors Scenario.two_known_twins)
              /\ exists new,
                  known_monitors s'
                  = (known_monitors Scenario.two_known_twins ++ [new])%list
                  /\ km_id new = id
                  /\ km_name new = md_name (monitor_data_of Scenario.twin_right)
                  /\ km_width new = md_width (monitor_data_of Scenario.twin_right)
                  /\ km_height new = md_height (monitor_data_of Scenario.twin_right)
                  /\ km_fingerprints new
                     = Some {| primary := "DISPLAY2_1920x1080";
                               secondary := "1920x1080" |})).
Proof.
  assert (Hgen : generate_fingerprint (monitor_data_of Scenario.twin_right)
                 = Ret {| primary := "DISPLAY2_1920x1080"; secondary := "1920x1080" |})
    by (vm_compute; reflexivity).
  split; [exact Hgen|]. split; [vm_compute; reflexivity|].
  exact (proj2 (add_monitor_takes_the_first_match
                  (monitor_data_of Scenario.twin_right) Scenario.two_known_twins _ Hgen)).
Defined.

(** ** A window that is gone *)

Section StaleHandles.

Context {W : Type} {host : Host W}.

(** X30. A window whose rectangle cannot be read, as when its handle has
    become invalid, is observed to be on no monitor, so it is never in the
    state that a rule asks for; [apply_window_rule] then begins with the
    move, and when the host refuses to restore the window, the exception of
    the host leaves [apply_window_rule], for [apply_rules] to count the
    window as failed. *)
Theorem stale_window_is_never_in_place (s : State W) (hwnd : Z) (monitor_id : string)
  (monitor : ScreenInfo) (maximize fullscreen : bool) (e : exn) :
  GetWindowRect (world s) hwnd = Raise e ->
  get_window_monitor_id hwnd s = (Ret None, s)
  /\ is_window_on_monitor hwnd monitor_id s = (Ret false, s)
  /\ is_window_in_correct_state hwnd monitor_id monitor maximize fullscreen s
     = (Ret false, s)
  /\ (dict_get monitor_id (connected_monitors s) = Some monitor ->
      forall e' w',
        ShowWindow hwnd SW_RESTORE (world s) = (Raise e', w') ->
        apply_window_rule hwnd monitor_id maximize fullscreen s
        = (Raise e', set_world w' s)).
Proof.
  intros Hrect.
  assert (Hid : get_window_monitor_id hwnd s = (Ret None, s)).
  { unfold get_window_monitor_id, try_except. unfold bind at 1. unfold call at 1.
    rewrite Hrect. reflexivity. }
  assert (Hon : is_window_on_monitor hwnd monitor_id s = (Ret false, s)).
  { unfold is_window_on_monitor, bind. rewrite Hid. reflexivity. }
  assert (Hcorrect : is_window_in_correct_state hwnd monitor_id monitor maximize
                       fullscreen s = (Ret false, s)).
  { unfold is_window_in_correct_state. unfold bind at 1. rewrite Hon. reflexivity. }
  split; [exact Hid|]. split; [exact Hon|]. split; [exact Hcorrect|].
  intros Hconn e' w' Hshow.
  unfold apply_window_rule. unfold bind at 1. unfold get_connected_monitor, gets.
  rewrite Hconn. unfold bind at 1. rewrite Hcorrect. cbv zeta.
  unfold bind at 1. rewrite Hon. cbn [negb].
  unfold bind at 1. unfold bind at 1. unfold move_window. unfold bind at 1.
  unfold act at 1. rewrite Hshow. reflexivity.
Qed.

End StaleHandles.

(** X30 on the end-to-end scenario, for a handle that no window has. *)
Lemma stale_window_witness :
  get_window_monitor_id 999 Scenario.activated_two_screens
  = (Ret None, Scenario.activated_two_screens)
  /\ is_window_on_monitor 999 "monitor_10000001" Scenario.activated_two_screens
     = (Ret false, Scenario.activated_two_screens)
  /\ is_window_in_correct_state 999 "monitor_10000001" Scenario.display2 true false
                                Scenario.activated_two_screens
     = (Ret false, Scenario.activated_two_screens)
  /\ apply_window_rule 999 "monitor_10000001" true false Scenario.activated_two_screens
     = (Raise (OSError "Invalid window handle."),
        set_world (world Scenario.activated_two_screens) Scenario.activated_two_screens).
Proof.
  assert (Hrect : @GetWindowRect _ Desk.host (world Scenario.activated_two_screens) 999
                  = Raise (OSError "Invalid window handle."))
    by (vm_compute; reflexivity).
  destruct (stale_window_is_never_in_place
              Scenario.activated_two_screens 999 "monitor_10000001" Scenario.display2
              true false (OSError "Invalid window handle.") Hrect)
    as (H1 & H2 & H3 & H4).
  split; [exact H1|]. split; [exact H2|]. split; [exact H3|].
  apply H4; vm_compute; reflexivity.
Defined.
